(** * RaiS-webhook: the amoCRM status store and message formatters

    A shallow embedding of [src/app.py]: the per-scope status store of
    [DataManager] (load / save / update / lookup over JSON files), the
    sender of [TelegramMessage], the lead, task and contact formatters of
    [AmoCRMHandler], the section handlers and the webhook handler.

    Python values are the JSON values the program handles, dictionaries are
    finite maps with string keys, and the effects of the program (files,
    clock, logger, outgoing Telegram messages, failing writes and sends,
    exceptions) are threaded through a small state-and-exception monad over
    an explicit [world]. *)

From Stdlib Require Import Ascii.
From stdpp Require Import gmap strings list fin_maps pretty.

Set Warnings "-register-all".
Open Scope string_scope.
Open Scope list_scope.

(** ** Python values *)

(** What [json.load] and [request.json()] produce.  JSON numbers are the
    integers amoCRM sends (identifiers, prices, timestamps); a JSON object
    always has string keys. *)
Inductive value :=
| VNone
| VBool (b : bool)
| VInt (n : Z)
| VStr (s : string)
| VList (l : list value)
| VDict (d : gmap string value).

(** The exceptions the modelled code can meet; [HTTPError] stands for the
    errors of the HTTP client ([httpx.HTTPError] and its subclasses). *)
Inductive exn :=
  OSError | JSONDecodeError | TypeError | AttributeError | KeyError | HTTPError.

Inductive res (A : Type) :=
| Ret (a : A)
| Raise (e : exn).
Arguments Ret {A} a.
Arguments Raise {A} e.

Definition rbind {A B : Type} (c : res A) (k : A → res B) : res B :=
  match c with
  | Ret a => k a
  | Raise e => Raise e
  end.

Notation "'let?' x := c 'in' k" := (rbind c (fun x => k))
  (at level 10, x name, c at level 100, k at level 200).

(** ** Strings *)

Definition nl : string := String "010"%char "".

Definition bytes (l : list nat) : string :=
  foldr (λ n s, String (ascii_of_nat n) s) "" l.

(** A UTF-8 continuation byte is [10xxxxxx]. *)
Definition is_continuation (b : ascii) : bool :=
  let n := nat_of_ascii b in ((128 <=? n) && (n <? 192))%nat.

Definition starts_with_continuation (s : string) : bool :=
  match s with
  | String b _ => is_continuation b
  | EmptyString => false
  end.

(** The characters (code points) of a UTF-8 string, each as its own string:
    what iterating over a Python [str] yields. *)
Fixpoint code_points (s : string) : list string :=
  match s with
  | EmptyString => []
  | String b t =>
      match code_points t with
      | c :: rest =>
          if starts_with_continuation t then String b c :: rest
          else String b "" :: c :: rest
      | [] => [String b ""]
      end
  end.

(** The characters [str.strip()] removes: U+0009..U+000D, U+001C..U+0020,
    U+0085, U+00A0, U+1680, U+2000..U+200A, U+2028, U+2029, U+202F, U+205F
    and U+3000, in UTF-8. *)
Definition whitespace : list string :=
  ((λ n, bytes [n]) <$> [9; 10; 11; 12; 13; 28; 29; 30; 31; 32]) ++
  [bytes [194; 133]; bytes [194; 160]; bytes [225; 154; 128]] ++
  ((λ n, bytes [226; 128; n]) <$>
     [128; 129; 130; 131; 132; 133; 134; 135; 136; 137; 138; 168; 169; 175]) ++
  [bytes [226; 129; 159]; bytes [227; 128; 128]].

Definition is_space (c : string) : bool := existsb (String.eqb c) whitespace.

Fixpoint lstrip_chars (cs : list string) : list string :=
  match cs with
  | [] => []
  | c :: t => if is_space c then lstrip_chars t else cs
  end.

Fixpoint rstrip_chars (cs : list string) : list string :=
  match cs with
  | [] => []
  | c :: t =>
      match rstrip_chars t with
      | [] => if is_space c then [] else [c]
      | t' => c :: t'
      end
  end.

(** [s.strip()] *)
Definition py_strip (s : string) : string :=
  String.concat "" (lstrip_chars (rstrip_chars (code_points s))).

(** [needle in hay] on two strings. *)
Fixpoint is_substring (needle hay : string) : bool :=
  String.prefix needle hay ||
  match hay with
  | EmptyString => false
  | String _ t => is_substring needle t
  end.

(** ** Python primitives on values *)

(** [bool(v)] *)
Definition py_truthy (v : value) : bool :=
  match v with
  | VNone => false
  | VBool b => b
  | VInt n => negb (n =? 0)%Z
  | VStr s => negb (String.eqb s "")
  | VList l => match l with [] => false | _ => true end
  | VDict d => negb (size d =? 0)%nat
  end.

(** [v == s] for a string literal [s]. *)
Definition py_eq_str (v : value) (s : string) : bool :=
  match v with
  | VStr t => String.eqb t s
  | _ => false
  end.

(** [k in c] for a string [k]: key membership on a dict, element membership
    on a list, substring on a string, [TypeError] otherwise. *)
Definition py_in (k : string) (c : value) : res bool :=
  match c with
  | VDict d => Ret (bool_decide (is_Some (d !! k)))
  | VList l => Ret (existsb (λ x, py_eq_str x k) l)
  | VStr s => Ret (is_substring k s)
  | _ => Raise TypeError
  end.

(** [c[k]] for a string [k]. *)
Definition py_getitem (c : value) (k : string) : res value :=
  match c with
  | VDict d => match d !! k with Some v => Ret v | None => Raise KeyError end
  | _ => Raise TypeError
  end.

(** [c[k] = v] for a string [k]; the result is the container afterwards. *)
Definition py_setitem (c : value) (k : string) (v : value) : res value :=
  match c with
  | VDict d => Ret (VDict (<[k := v]> d))
  | _ => Raise TypeError
  end.

(** [c.get(k, dflt)]: only dicts have the method. *)
Definition py_get (c : value) (k : string) (dflt : value) : res value :=
  match c with
  | VDict d => Ret (default dflt (d !! k))
  | _ => Raise AttributeError
  end.

(** The items a [for] loop sees.  A dict yields its keys; their order is
    not kept by the map, and no modelled loop depends on it. *)
Definition py_iter (c : value) : res (list value) :=
  match c with
  | VList l => Ret l
  | VDict d => Ret (VStr <$> (map_to_list d).*1)
  | VStr s => Ret (VStr <$> code_points s)
  | _ => Raise TypeError
  end.

(** [d.get(k, dflt)] and [k in d] on a record known to be a dict. *)
Definition dict_get (d : gmap string value) (k : string) (dflt : value) : value :=
  default dflt (d !! k).

Definition dict_has (d : gmap string value) (k : string) : bool :=
  bool_decide (is_Some (d !! k)).

(** ** The world *)

(** A file of the data directory: the JSON text of a value, text that is not
    JSON (a torn write, foreign content), or a file that cannot be opened. *)
Inductive fnode :=
| Json (v : value)
| Corrupt
| Unreadable.

(** How the next attempt to write a file ends: completed, refused when the
    file is opened (nothing changes), or interrupted after the file was
    truncated (a partial text remains). *)
Inductive write_fate := Done | Refused | Torn.

(** How the next call of the Telegram API ends: the request is posted and
    the reply decoded; the request fails (no connection, a timeout) and
    nothing is posted; or the request is posted but the reply cannot be
    decoded.  The last two raise: nothing in the program catches them below
    the webhook handler. *)
Inductive send_fate :=
| Answered
| Unsent (e : exn)
| Unanswered (e : exn).

Inductive log_line :=
| LogLoadError (e : exn)
| LogSaved (scope_id : string)
| LogSaveError (e : exn).

Record world := World {
  disk : gmap string fnode;          (* path -> file *)
  plan : list write_fate;            (* fates of the coming writes; none left: all complete *)
  clock : nat → string;              (* successive readings of datetime.now().isoformat() *)
  ticks : nat;                       (* readings taken so far *)
  journal : list log_line;           (* logger output, oldest first *)
  outbox : list (string * string);   (* (chat_id, text) sent to Telegram, oldest first *)
  net : list send_fate;              (* fates of the coming sends; none left: all answered *)
}.

(** ** The monad of effects *)

Definition M (A : Type) : Type := world → res A * world.

Definition ret {A : Type} (a : A) : M A := λ w, (Ret a, w).

Definition raise {A : Type} (e : exn) : M A := λ w, (Raise e, w).

Definition bind {A B : Type} (c : M A) (k : A → M B) : M B :=
  λ w, match c w with
       | (Ret a, w') => k a w'
       | (Raise e, w') => (Raise e, w')
       end.

(** [try: c  except Exception as e: h e] *)
Definition try_except {A : Type} (c : M A) (h : exn → M A) : M A :=
  λ w, match c w with
       | (Ret a, w') => (Ret a, w')
       | (Raise e, w') => h e w'
       end.

Definition lift {A : Type} (r : res A) : M A := λ w, (r, w).

Notation "'let!' x := c 'in' k" := (bind c (fun x => k))
  (at level 10, x name, c at level 100, k at level 200).

Definition log (l : log_line) : M unit :=
  λ w, (Ret (), World (disk w) (plan w) (clock w) (ticks w) (journal w ++ [l]) (outbox w)
                  (net w)).

(** [datetime.now().isoformat()] *)
Definition now_isoformat : M string :=
  λ w, (Ret (clock w (ticks w)),
        World (disk w) (plan w) (clock w) (S (ticks w)) (journal w) (outbox w) (net w)).

(** [os.path.exists(path)] *)
Definition path_exists (path : string) : M bool :=
  λ w, (Ret (bool_decide (is_Some (disk w !! path))), w).

(** [with open(path, "r", encoding="utf-8") as file: json.load(file)] *)
Definition read_json (path : string) : M value :=
  λ w, match disk w !! path with
       | Some (Json v) => (Ret v, w)
       | Some Corrupt => (Raise JSONDecodeError, w)
       | Some Unreadable => (Raise OSError, w)
       | None => (Raise OSError, w)
       end.

(** [with open(path, "w", encoding="utf-8") as file: json.dump(v, file, ...)] *)
Definition write_json (path : string) (v : value) : M unit :=
  λ w, match plan w with
       | [] =>
           (Ret (), World (<[path := Json v]> (disk w)) [] (clock w) (ticks w)
                      (journal w) (outbox w) (net w))
       | Done :: later =>
           (Ret (), World (<[path := Json v]> (disk w)) later (clock w) (ticks w)
                      (journal w) (outbox w) (net w))
       | Refused :: later =>
           (Raise OSError, World (disk w) later (clock w) (ticks w)
                             (journal w) (outbox w) (net w))
       | Torn :: later =>
           (Raise OSError, World (<[path := Corrupt]> (disk w)) later (clock w) (ticks w)
                             (journal w) (outbox w) (net w))
       end.

(** [TelegramMessage.send_message(chat_id, text)]: the POST to the Telegram
    API and the decoding of its reply, [response.json()].  A posted message
    joins the outbox; a call that fails raises. *)
Definition send_message (chat_id text : string) : M unit :=
  λ w, match net w with
       | [] =>
           (Ret (), World (disk w) (plan w) (clock w) (ticks w) (journal w)
                      (outbox w ++ [(chat_id, text)]) [])
       | Answered :: later =>
           (Ret (), World (disk w) (plan w) (clock w) (ticks w) (journal w)
                      (outbox w ++ [(chat_id, text)]) later)
       | Unsent e :: later =>
           (Raise e, World (disk w) (plan w) (clock w) (ticks w) (journal w)
                       (outbox w) later)
       | Unanswered e :: later =>
           (Raise e, World (disk w) (plan w) (clock w) (ticks w) (journal w)
                       (outbox w ++ [(chat_id, text)]) later)
       end.

(** ** The program *)

Section Program.

(** [repr] of a list or a dict.  Its text depends on Python's quoting rules
    and on the insertion order of dicts; nothing below depends on it. *)
Variable py_repr : value → string.

(** [str(v)], also what an f-string field [{v}] renders. *)
Definition py_str (v : value) : string :=
  match v with
  | VNone => "None"
  | VBool true => "True"
  | VBool false => "False"
  | VInt n => pretty n
  | VStr s => s
  | VList _ | VDict _ => py_repr v
  end.

(** [c[k1][k2] = v]: the inner object is mutated in place, so the outer
    container sees the change. *)
Definition py_setitem2 (c : value) (k1 k2 : string) (v : value) : res value :=
  let? inner := py_getitem c k1 in
  let? inner' := py_setitem inner k2 v in
  py_setitem c k1 inner'.

(** *** DataManager *)

Definition DATA_DIR : string := "data".

(** [os.path.join(DATA_DIR, f"lead_statuses_{scope_id}.json")] *)
Definition get_status_file_path (scope_id : string) : string :=
  DATA_DIR +:+ "/" +:+ "lead_statuses_" +:+ scope_id +:+ ".json".

Definition load_lead_statuses (scope_id : string) : M value :=
  let file_path := get_status_file_path scope_id in
  try_except
    (let! found := path_exists file_path in
     if found then read_json file_path else ret (VDict ∅))
    (λ e, let! _ := log (LogLoadError e) in ret (VDict ∅)).

Definition save_lead_statuses (scope_id : string) (statuses : value) : M unit :=
  let file_path := get_status_file_path scope_id in
  try_except
    (let! _ := write_json file_path statuses in log (LogSaved scope_id))
    (λ e, log (LogSaveError e)).

Definition update_lead_status (scope_id : string) (status_id status_name : value)
  : M value :=
  let! statuses := load_lead_statuses scope_id in
  let status_id_str := py_str status_id in
  let! known := lift (py_in status_id_str statuses) in
  let! statuses :=
    if negb known then
      let! first_seen := now_isoformat in
      lift (py_setitem statuses status_id_str
              (VDict {[ "name" := status_name; "first_seen" := VStr first_seen ]}))
    else
      let! statuses := lift (py_setitem2 statuses status_id_str "name" status_name) in
      let! last_updated := now_isoformat in
      lift (py_setitem2 statuses status_id_str "last_updated" (VStr last_updated))
  in
  let! _ := save_lead_statuses scope_id statuses in
  ret statuses.

Definition get_status_name (scope_id : string) (status_id : value) : M value :=
  let! statuses := load_lead_statuses scope_id in
  let status_id_str := py_str status_id in
  let! record := lift (py_get statuses status_id_str (VDict ∅)) in
  lift (py_get record "name" (VStr ("Статус " +:+ py_str status_id))).

(** *** AmoCRMHandler *)

Definition lead_title (event_type : string) : string * string :=
  if String.eqb event_type "new" then ("📝", "Создана новая сделка")
  else if String.eqb event_type "update" then ("🔄", "Обновлена сделка")
  else if String.eqb event_type "success" then ("🎉", "Успешно реализованная сделка")
  else ("ℹ️", "Информация о сделке").

(** The message up to the status block. *)
Definition lead_head (lead : gmap string value) (event_type : string) : string :=
  let '(emoji, title) := lead_title event_type in
  let message := emoji +:+ " <b>" +:+ title +:+ "</b>" +:+ nl in
  let message :=
    message +:+ "Название: " +:+ py_str (dict_get lead "name" (VStr "Без названия")) +:+ nl in
  let message :=
    if dict_has lead "price" then
      message +:+ "Бюджет: " +:+ py_str (dict_get lead "price" (VStr "0")) +:+ " руб." +:+ nl
    else message in
  if dict_has lead "responsible_user_name" then
    message +:+ "Ответственный: "
      +:+ py_str (dict_get lead "responsible_user_name" (VStr "Не назначен")) +:+ nl
  else message.

Definition format_lead_message (lead : gmap string value) (event_type scope_id : string)
  : M string :=
  let message := lead_head lead event_type in
  let status_id := dict_get lead "status_id" VNone in
  let! message :=
    if py_truthy status_id then
      let! status_name :=
        match lead !! "status_name" with
        | Some status_name =>
            let! _ := update_lead_status scope_id status_id status_name in
            ret status_name
        | None => ret VNone
        end in
      let! status_name :=
        if negb (py_truthy status_name) then get_status_name scope_id status_id
        else ret status_name in
      ret (message +:+ "Статус: " +:+ py_str status_name +:+ nl)
    else ret message
  in
  ret (py_strip message).

(** The inner loop of the contact formatter: the first item of
    [field.get("values", [])] is rendered, then the loop breaks. *)
Definition first_value_line (label : string) (field : value) (message : string)
  : res string :=
  let? values := py_get field "values" (VList []) in
  let? items := py_iter values in
  match items with
  | [] => Ret message
  | value :: _ =>
      let? v := py_get value "value" (VStr "") in
      Ret (message +:+ label +:+ py_str v +:+ nl)
  end.

(** One turn of the loop over the custom fields. *)
Definition contact_field (field : value) (message : string) : res string :=
  let? code := py_get field "code" VNone in
  let? message :=
    if py_eq_str code "PHONE" then first_value_line "Телефон: " field message
    else Ret message in
  let? code := py_get field "code" VNone in
  if py_eq_str code "EMAIL" then first_value_line "Email: " field message
  else Ret message.

Fixpoint contact_fields (fields : list value) (message : string) : res string :=
  match fields with
  | [] => Ret message
  | field :: rest =>
      let? message := contact_field field message in
      contact_fields rest message
  end.

Definition contact_title (event_type : string) : string * string :=
  if String.eqb event_type "new" then ("👤", "Создан новый контакт")
  else ("👤", "Обновлен контакт").

Definition contact_head (contact : gmap string value) (event_type : string) : string :=
  let '(emoji, title) := contact_title event_type in
  let message := emoji +:+ " <b>" +:+ title +:+ "</b>" +:+ nl in
  let name := dict_get contact "name" (VStr "Без имени") in
  message +:+ "Имя: " +:+ py_str name +:+ nl.

Definition format_contact_message (contact : gmap string value) (event_type : string)
  : res string :=
  let message := contact_head contact event_type in
  let? message :=
    if dict_has contact "custom_fields" then
      let? fields := py_iter (dict_get contact "custom_fields" (VList [])) in
      contact_fields fields message
    else Ret message
  in
  Ret (py_strip message).

(** *** The lead dispatcher *)

Definition successful_status_ids : list string := ["142"; "143"].

(** The body of the loop of [process_leads]. *)
Definition process_lead (lead : gmap string value) (chat_id scope_id : string) : M unit :=
  if dict_has lead "add" then
    let! message := format_lead_message lead "new" scope_id in
    send_message chat_id message
  else if py_truthy (dict_get lead "status_id" VNone) then
    if bool_decide (py_str (dict_get lead "status_id" VNone) ∈ successful_status_ids) then
      let! message := format_lead_message lead "success" scope_id in
      send_message chat_id message
    else
      let! message := format_lead_message lead "update" scope_id in
      send_message chat_id message
  else if dict_has lead "update" then
    let! message := format_lead_message lead "update" scope_id in
    send_message chat_id message
  else ret ().

Fixpoint process_leads (leads : list (gmap string value)) (chat_id scope_id : string)
  : M unit :=
  match leads with
  | [] => ret ()
  | lead :: rest =>
      let! _ := process_lead lead chat_id scope_id in
      process_leads rest chat_id scope_id
  end.

End Program.

(** ** The other handlers *)

(** [for x in items: body(x)] *)
Fixpoint for_each (items : list value) (body : value → M unit) : M unit :=
  match items with
  | [] => ret ()
  | x :: rest =>
      let! _ := body x in
      for_each rest body
  end.

(** [for x in c: body(x)] over any value: what cannot be iterated raises. *)
Definition for_in (c : value) (body : value → M unit) : M unit :=
  let! items := lift (py_iter c) in
  for_each items body.

Section Handlers.

Variable py_repr : value → string.

(** [datetime.fromtimestamp(t).strftime("%d.%m.%Y %H:%M")]: the text depends
    on the time zone of the server.  For an instant the platform cannot
    represent the call raises ([ValueError], [OverflowError] or [OSError]
    in CPython); the exception the parameter gives stands for it, and nothing
    below depends on its class. *)
Variable local_time : Z → res string.

(** *** Tasks *)

Definition task_title (event_type : string) : string * string :=
  if String.eqb event_type "new" then ("⏰", "Создана новая задача")
  else if String.eqb event_type "completed" then ("✅", "Задача выполнена")
  else ("📋", "Информация о задаче").

Definition task_head (task : gmap string value) (event_type : string) : string :=
  let '(emoji, title) := task_title event_type in
  let message := emoji +:+ " <b>" +:+ title +:+ "</b>" +:+ nl in
  message +:+ "Текст: " +:+ py_str py_repr (dict_get task "text" (VStr "Без описания")) +:+ nl.

(** The deadline as the message shows it: an [int] above 1000000000 is
    read as a Unix time ([True] and [False] are [int]s too, but small). *)
Definition shown_deadline (complete_till : value) : res string :=
  match complete_till with
  | VInt n =>
      if (1000000000 <? n)%Z then local_time n
      else Ret (py_str py_repr complete_till)
  | _ => Ret (py_str py_repr complete_till)
  end.

Definition format_task_message (task : gmap string value) (event_type : string)
  : res string :=
  let message := task_head task event_type in
  let? message :=
    if dict_has task "complete_till" then
      let complete_till := dict_get task "complete_till" VNone in
      let? complete_till := shown_deadline complete_till in
      Ret (message +:+ "Срок: " +:+ complete_till +:+ nl)
    else Ret message
  in
  let message :=
    if dict_has task "responsible_user_name" then
      message +:+ "Ответственный: "
        +:+ py_str py_repr (dict_get task "responsible_user_name" (VStr "Не назначен")) +:+ nl
    else message in
  Ret (py_strip message).

(** *** Records that arrive as arbitrary JSON

    The formatters are annotated with [Dict], but the dispatcher hands them
    whatever the payload holds.  Each formatter first calls [.get] on its
    record, after choosing the title: anything but an object raises
    [AttributeError] there, before any effect. *)
Definition format_lead_message_of (lead : value) (event_type scope_id : string)
  : M string :=
  match lead with
  | VDict d => format_lead_message py_repr d event_type scope_id
  | _ => raise AttributeError
  end.

Definition format_task_message_of (task : value) (event_type : string) : res string :=
  match task with
  | VDict d => format_task_message d event_type
  | _ => Raise AttributeError
  end.

Definition format_contact_message_of (contact : value) (event_type : string)
  : res string :=
  match contact with
  | VDict d => format_contact_message py_repr d event_type
  | _ => Raise AttributeError
  end.

(** *** The dispatchers, on the payload as it arrives *)

(** The body of the loop of [process_leads], for any item. *)
Definition process_lead_item (lead : value) (chat_id scope_id : string) : M unit :=
  let! added := lift (py_in "add" lead) in
  if added then
    let! message := format_lead_message_of lead "new" scope_id in
    send_message chat_id message
  else
    let! status_id := lift (py_get lead "status_id" VNone) in
    if py_truthy status_id then
      if bool_decide (py_str py_repr status_id ∈ successful_status_ids) then
        let! message := format_lead_message_of lead "success" scope_id in
        send_message chat_id message
      else
        let! message := format_lead_message_of lead "update" scope_id in
        send_message chat_id message
    else
      let! updated := lift (py_in "update" lead) in
      if updated then
        let! message := format_lead_message_of lead "update" scope_id in
        send_message chat_id message
      else ret ().

(** [process_leads] on the value of the [leads] section. *)
Definition process_leads_payload (leads : value) (chat_id scope_id : string) : M unit :=
  for_in leads (λ lead, process_lead_item lead chat_id scope_id).

(** The body of the loop of [process_tasks]. *)
Definition process_task (task : value) (chat_id : string) : M unit :=
  let! added := lift (py_in "add" task) in
  if added then
    let! message := lift (format_task_message_of task "new") in
    send_message chat_id message
  else
    let! is_completed := lift (py_get task "is_completed" VNone) in
    if py_truthy is_completed then
      let! message := lift (format_task_message_of task "completed") in
      send_message chat_id message
    else
      let! updated := lift (py_in "update" task) in
      if updated then
        let! message := lift (format_task_message_of task "update") in
        send_message chat_id message
      else ret ().

Definition process_tasks (tasks : value) (chat_id : string) : M unit :=
  for_in tasks (λ task, process_task task chat_id).

(** The body of the loop of [process_contacts]. *)
Definition process_contact (contact : value) (chat_id : string) : M unit :=
  let! added := lift (py_in "add" contact) in
  if added then
    let! message := lift (format_contact_message_of contact "new") in
    send_message chat_id message
  else
    let! updated := lift (py_in "update" contact) in
    if updated then
      let! message := lift (format_contact_message_of contact "update") in
      send_message chat_id message
    else ret ().

Definition process_contacts (contacts : value) (chat_id : string) : M unit :=
  for_in contacts (λ contact, process_contact contact chat_id).

(** The body shared by the loops of [process_lead_statuses] and
    [process_pipelines]: an entry with a truthy id and a truthy name goes to
    the store. *)
Definition remember_status (scope_id : string) (status : value) : M unit :=
  let! status_id := lift (py_get status "id" VNone) in
  let! status_name := lift (py_get status "name" VNone) in
  if py_truthy status_id && py_truthy status_name then
    let! _ := update_lead_status py_repr scope_id status_id status_name in
    ret ()
  else ret ().

Definition process_lead_statuses (statuses : value) (scope_id : string) : M unit :=
  for_in statuses (remember_status scope_id).

(** The body of the outer loop of [process_pipelines]. *)
Definition process_pipeline (scope_id : string) (pipeline : value) : M unit :=
  let! listed := lift (py_in "statuses" pipeline) in
  if listed then
    let! statuses := lift (py_get pipeline "statuses" (VList [])) in
    for_in statuses (remember_status scope_id)
  else ret ().

Definition process_pipelines (pipelines : value) (scope_id : string) : M unit :=
  for_in pipelines (process_pipeline scope_id).

(** *** The two endpoints *)

(** The body of a request: the JSON it carries, or text that is not JSON. *)
Inductive request :=
| Body (data : value)
| Malformed.

(** The answer: the success object, or the [HTTPException] with status 500
    raised for the exception [e]. *)
Inductive response :=
| Success
| ServerError (e : exn).

(** The two log lines of the handler itself. *)
Inductive hook_line :=
| HookReceived (scope_id : string) (data : value)
| HookFailed (e : exn).

Definition TELEGRAM_CHAT_IDS : gmap string string := {[ "default" := "" ]}.

(** [if key in data: handler(data[key])] *)
Definition section_of (data : value) (key : string) (handler : value → M unit) : M unit :=
  let! present := lift (py_in key data) in
  if present then
    let! part := lift (py_getitem data key) in
    handler part
  else ret ().

(** What the handler does with a decoded body, inside its [try]. *)
Definition webhook_sections (scope_id : string) (data : value) : M unit :=
  let! fallback :=
    lift (match TELEGRAM_CHAT_IDS !! "default" with
          | Some c => Ret c
          | None => Raise KeyError
          end) in
  let chat_id := default fallback (TELEGRAM_CHAT_IDS !! scope_id) in
  let! _ := section_of data "leads"
              (λ leads, process_leads_payload leads chat_id scope_id) in
  let! _ := section_of data "tasks" (λ tasks, process_tasks tasks chat_id) in
  let! _ := section_of data "contacts" (λ contacts, process_contacts contacts chat_id) in
  let! _ := section_of data "lead_statuses"
              (λ statuses, process_lead_statuses statuses scope_id) in
  section_of data "pipelines" (λ pipelines, process_pipelines pipelines scope_id).

(** [POST /webhooks/amocrm/{scope_id}]: the answer, the lines the handler
    itself logs, and the world afterwards.  The store's own lines go to the
    journal of the world. *)
Definition amocrm_webhook (scope_id : string) (req : request) (w : world)
  : response * list hook_line * world :=
  match req with
  | Malformed => (ServerError JSONDecodeError, [HookFailed JSONDecodeError], w)
  | Body data =>
      match webhook_sections scope_id data w with
      | (Ret _, w') => (Success, [HookReceived scope_id data], w')
      | (Raise e, w') => (ServerError e, [HookReceived scope_id data; HookFailed e], w')
      end
  end.

(** [GET /status/{scope_id}] *)
Definition get_statuses (scope_id : string) : M (string * value) :=
  let! statuses := load_lead_statuses scope_id in
  ret (scope_id, statuses).

End Handlers.

(** ** Vocabulary of the specification *)

(** The mapping a scope's file holds, as [load] reports it: the decoded
    value of a readable JSON file, the empty mapping otherwise. *)
Definition store_view (w : world) (scope_id : string) : value :=
  match disk w !! get_status_file_path scope_id with
  | Some (Json v) => v
  | _ => VDict ∅
  end.

(** The fate of the next write. *)
Definition next_fate (w : world) : write_fate :=
  match plan w with
  | [] => Done
  | f :: _ => f
  end.

(** The data directory after a write of [v] to [path] that met fate [f]. *)
Definition disk_after (f : write_fate) (path : string) (v : value)
    (d : gmap string fnode) : gmap string fnode :=
  match f with
  | Done => <[path := Json v]> d
  | Refused => d
  | Torn => <[path := Corrupt]> d
  end.

(** Only the logger ran between [w] and [w']. *)
Definition quiet (w w' : world) : Prop :=
  disk w' = disk w ∧ plan w' = plan w ∧ clock w' = clock w ∧
  ticks w' = ticks w ∧ outbox w' = outbox w ∧ net w' = net w.

(** A status record as the store writes it, and a store made of such
    records: the shape every file written by [update_lead_status] has. *)
Definition record_ok (r : value) : bool :=
  match r with
  | VDict d => dict_has d "name" && dict_has d "first_seen"
  | _ => false
  end.

Definition store_ok (v : value) : bool :=
  match v with
  | VDict m => bool_decide (map_Forall (λ _ r, record_ok r = true) m)
  | _ => false
  end.

Definition sane (w : world) (scope_id : string) : Prop :=
  store_ok (store_view w scope_id) = true.

(** The record update of section 3 of the specification: a first sighting
    creates [{name, first_seen}], a later one sets [name] and
    [last_updated] and keeps the rest. *)
Definition touch (m : gmap string value) (sid : string) (name : value) (ts : string)
  : gmap string value :=
  match m !! sid with
  | Some (VDict d) =>
      <[sid := VDict (<["last_updated" := VStr ts]> (<["name" := name]> d))]> m
  | _ => <[sid := VDict {[ "name" := name; "first_seen" := VStr ts ]}]> m
  end.

(** The event kinds of a lead and the decision of section 4.2 of the
    specification, written from its four rules. *)
Inductive lead_kind := KindNew | KindSuccess | KindUpdate.

Definition kind_name (k : lead_kind) : string :=
  match k with
  | KindNew => "new"
  | KindSuccess => "success"
  | KindUpdate => "update"
  end.

Definition configured_successful_ids : gset string := {[ "142"; "143" ]}.

Definition spec_lead_kind (py_repr : value → string) (lead : gmap string value)
  : option lead_kind :=
  match lead !! "add" with
  | Some _ => Some KindNew
  | None =>
      match lead !! "status_id" with
      | Some id =>
          if py_truthy id then
            if decide (py_str py_repr id ∈ configured_successful_ids)
            then Some KindSuccess else Some KindUpdate
          else
            match lead !! "update" with Some _ => Some KindUpdate | None => None end
      | None =>
          match lead !! "update" with Some _ => Some KindUpdate | None => None end
      end
  end.

(** What the dispatcher does with a decided kind. *)
Definition emit (py_repr : value → string) (lead : gmap string value)
    (kind : option lead_kind) (chat_id scope_id : string) : M unit :=
  match kind with
  | Some k =>
      let! message := format_lead_message py_repr lead (kind_name k) scope_id in
      send_message chat_id message
  | None => ret ()
  end.

(** The lines of a text, and how many of them start with a given label. *)
Fixpoint lines_from (cur : string) (s : string) : list string :=
  match s with
  | EmptyString => [cur]
  | String c t =>
      if Ascii.eqb c "010"%char then cur :: lines_from "" t
      else lines_from (cur +:+ String c "") t
  end.

Definition lines (s : string) : list string := lines_from "" s.

Definition count_lines (label : string) (s : string) : nat :=
  length (filter (λ l, String.prefix label l = true) (lines s)).

(** The contact formatter, field by field, as the code treats a list of
    JSON objects: a field coded PHONE (EMAIL) with at least one value
    contributes one line made from its first value. *)
Definition as_dict (v : value) : option (gmap string value) :=
  match v with
  | VDict d => Some d
  | _ => None
  end.

Definition first_value (field : gmap string value) : option (gmap string value) :=
  match dict_get field "values" (VList []) with
  | VList (v :: _) => as_dict v
  | _ => None
  end.

Definition spec_field_line (py_repr : value → string) (field : gmap string value)
  : option string :=
  let code := dict_get field "code" VNone in
  let label :=
    if py_eq_str code "PHONE" then Some "Телефон: "
    else if py_eq_str code "EMAIL" then Some "Email: "
    else None in
  match label, first_value field with
  | Some label, Some v =>
      Some (label +:+ py_str py_repr (dict_get v "value" (VStr "")) +:+ nl)
  | _, _ => None
  end.

(** A custom field of the expected shape: an object whose [values], when
    present, is a list of objects. *)
Definition field_shaped (field : gmap string value) : bool :=
  match dict_get field "values" (VList []) with
  | VList vs => forallb (λ v, bool_decide (is_Some (as_dict v))) vs
  | _ => false
  end.

Definition phone_field (field : gmap string value) : bool :=
  py_eq_str (dict_get field "code" VNone) "PHONE" &&
  bool_decide (is_Some (first_value field)).

Definition email_field (field : gmap string value) : bool :=
  py_eq_str (dict_get field "code" VNone) "EMAIL" &&
  bool_decide (is_Some (first_value field)).

(** The custom fields of a contact the formatter gets through: the objects
    of the list under [custom_fields]. *)
Definition custom_fields (contact : gmap string value) : list (gmap string value) :=
  match contact !! "custom_fields" with
  | Some (VList fields) => omap as_dict fields
  | _ => []
  end.

(** The text extracted from a custom field: the first value, rendered, of
    a field coded PHONE or EMAIL. *)
Definition extracted (py_repr : value → string) (field : gmap string value)
  : option string :=
  let code := dict_get field "code" VNone in
  if py_eq_str code "PHONE" || py_eq_str code "EMAIL" then
    (λ v, py_str py_repr (dict_get v "value" (VStr ""))) <$> first_value field
  else None.

Fixpoint no_line_break (s : string) : bool :=
  match s with
  | EmptyString => true
  | String c t => negb (Ascii.eqb c "010"%char) && no_line_break t
  end.

(** The bytes of the characters [strip] removes, the texts made of such
    bytes only, and the labels that do not end in one. *)
Fixpoint has_byte (b : ascii) (s : string) : bool :=
  match s with
  | EmptyString => false
  | String c t => Ascii.eqb b c || has_byte b t
  end.

Definition blank_byte (b : ascii) : bool := existsb (has_byte b) whitespace.

Fixpoint blank (s : string) : bool :=
  match s with
  | EmptyString => true
  | String c t => blank_byte c && blank t
  end.

Fixpoint solid_end (s : string) : bool :=
  match s with
  | EmptyString => true
  | String c t =>
      match t with
      | EmptyString => negb (blank_byte c)
      | String _ _ => solid_end t
      end
  end.

(** The lead of section 8 of the specification, and the message it yields. *)
Definition won_lead : gmap string value :=
  {[ "status_id" := VInt 142; "status_name" := VStr "Won" ]}.

Definition won_message : string :=
  "🎉 <b>Успешно реализованная сделка</b>" +:+ nl +:+
  "Название: Без названия" +:+ nl +:+
  "Статус: Won".

(** The text the contact formatter appends for its custom fields. *)
Definition field_lines (py_repr : value → string) (fields : list (gmap string value))
  : list string :=
  omap (spec_field_line py_repr) fields.

(** A contact with two fields coded PHONE. *)
Definition two_phones : gmap string value :=
  {[ "name" := VStr "Ann";
     "custom_fields" :=
       VList [ VDict {[ "code" := VStr "PHONE";
                        "values" := VList [VDict {[ "value" := VStr "111" ]}] ]};
               VDict {[ "code" := VStr "PHONE";
                        "values" := VList [VDict {[ "value" := VStr "222" ]}] ]} ] ]}.

Definition two_phones_message : string :=
  "👤 <b>Создан новый контакт</b>" +:+ nl +:+
  "Имя: Ann" +:+ nl +:+
  "Телефон: 111" +:+ nl +:+
  "Телефон: 222".

(** [confined p c]: whatever [c] does, and whether it returns or raises, no
    file other than [p] changes. *)
Definition confined {A : Type} (p : string) (c : M A) : Prop :=
  ∀ w q, q ≠ p → disk (c w).2 !! q = disk w !! q.

(** [offline c]: [c] makes no call to the sink, whether it returns or
    raises. *)
Definition offline {A : Type} (c : M A) : Prop :=
  ∀ w, net (c w).2 = net w.

(** ** Sample inputs *)

(** A rendering of containers, a world with an empty data directory and no
    write failure ahead, and the same world about to refuse a write. *)
Definition plain_repr : value → string := λ _, "<object>".

Definition fresh_world : world :=
  World ∅ [] (λ n, "2024-05-01T10:00:0" +:+ pretty n) 0 [] [] [].

Definition refusing_world : world :=
  World ∅ [Refused] (λ n, "2024-05-01T10:00:0" +:+ pretty n) 0 [] [] [].

Definition zero_status_lead : gmap string value :=
  {[ "status_id" := VInt 0; "name" := VStr "Deal1" ]}.

(** A contact with a phone of two values, an email, a field of another
    code, a phone without values and, last, a phone whose value is empty. *)
Definition busy_contact : gmap string value :=
  {[ "name" := VStr "Ann";
     "custom_fields" :=
       VList [ VDict {[ "code" := VStr "PHONE";
                        "values" := VList [VDict {[ "value" := VStr "111" ]};
                                           VDict {[ "value" := VStr "999" ]}] ]};
               VDict {[ "code" := VStr "EMAIL";
                        "values" := VList [VDict {[ "value" := VStr "ann@example.org" ]}] ]};
               VDict {[ "code" := VStr "SITE";
                        "values" := VList [VDict {[ "value" := VStr "example.org" ]}] ]};
               VDict {[ "code" := VStr "PHONE"; "values" := VList [] ]};
               VDict {[ "code" := VStr "PHONE";
                        "values" := VList [VDict {[ "value" := VStr "" ]}] ]} ] ]}.

Definition busy_contact_message : string :=
  "👤 <b>Обновлен контакт</b>" +:+ nl +:+
  "Имя: Ann" +:+ nl +:+
  "Телефон: 111" +:+ nl +:+
  "Email: ann@example.org" +:+ nl +:+
  "Телефон:".

Definition new_deal_lead : gmap string value :=
  {[ "add" := VBool true; "name" := VStr "Deal1" ]}.

(** ** Vocabulary for the other handlers *)

(** [silent c]: [c] sends nothing, whether it returns or raises. *)
Definition silent {A : Type} (c : M A) : Prop :=
  ∀ w, outbox (c w).2 = outbox w.

(** [storeless c]: [c] leaves files, write plan, clock and journal alone and
    can only add to the outbox, whether it returns or raises. *)
Definition storeless {A : Type} (c : M A) : Prop :=
  ∀ w, disk (c w).2 = disk w ∧ plan (c w).2 = plan w ∧ clock (c w).2 = clock w ∧
       ticks (c w).2 = ticks w ∧ journal (c w).2 = journal w ∧
       ∃ sent, outbox (c w).2 = outbox w ++ sent.

(** The scope's store names [id] as [name]. *)
Definition resolves (py_repr : value → string) (w : world) (scope_id : string)
    (id name : value) : Prop :=
  ∃ m d, store_view w scope_id = VDict m ∧
         m !! py_str py_repr id = Some (VDict d) ∧ d !! "name" = Some name.

(** The kinds of a task and the decision of section 4.2 of the
    specification. *)
Inductive task_kind := TaskNew | TaskCompleted | TaskUpdate.

Definition task_kind_name (k : task_kind) : string :=
  match k with
  | TaskNew => "new"
  | TaskCompleted => "completed"
  | TaskUpdate => "update"
  end.

Definition spec_task_kind (task : gmap string value) : option task_kind :=
  match task !! "add" with
  | Some _ => Some TaskNew
  | None =>
      if py_truthy (dict_get task "is_completed" VNone) then Some TaskCompleted
      else match task !! "update" with
           | Some _ => Some TaskUpdate
           | None => None
           end
  end.

Definition emit_task (py_repr : value → string) (local_time : Z → res string)
    (task : gmap string value) (kind : option task_kind) (chat_id : string) : M unit :=
  match kind with
  | Some k =>
      let! message := lift (format_task_message py_repr local_time task (task_kind_name k)) in
      send_message chat_id message
  | None => ret ()
  end.

(** The exception a record that is not an object meets in the loops over
    leads and tasks. *)
Definition bad_item_error (item : value) : exn :=
  match item with
  | VStr _ | VList _ => AttributeError
  | _ => TypeError
  end.

(** A status entry that reaches the store. *)
Definition valid_status (entry : gmap string value) : bool :=
  py_truthy (dict_get entry "id" VNone) && py_truthy (dict_get entry "name" VNone).

(** A pipeline whose [statuses], when present, is a list, and that list. *)
Definition pipeline_shaped (pipeline : gmap string value) : bool :=
  match pipeline !! "statuses" with
  | None | Some (VList _) => true
  | Some _ => false
  end.

Definition pipeline_statuses (pipeline : gmap string value) : list value :=
  match pipeline !! "statuses" with
  | Some (VList l) => l
  | _ => []
  end.

(** The chat a scope's messages go to. *)
Definition chat_of (scope_id : string) : string :=
  default "" (TELEGRAM_CHAT_IDS !! scope_id).

Definition recognised_sections : list string :=
  ["leads"; "tasks"; "contacts"; "lead_statuses"; "pipelines"].

(** ** More sample inputs *)

(** A rendering of time that shows the seconds themselves, and one that
    cannot render anything. *)
Definition sample_time : Z → res string := λ t, Ret ("t+" +:+ pretty t).

Definition no_time : Z → res string := λ _, Raise OSError.

(** A world whose scope 42 already holds status 5 under the name Old. *)
Definition old_record : gmap string value :=
  {[ "name" := VStr "Old"; "first_seen" := VStr "2024-04-30T09:00:00" ]}.

Definition old_store : gmap string value := {[ "5" := VDict old_record ]}.

Definition seeded_world : world :=
  World {[ get_status_file_path "42" := Json (VDict old_store) ]} []
        (λ n, "2024-05-01T10:00:0" +:+ pretty n) 0 [] [] [].

Definition lead_with_id_only : gmap string value :=
  {[ "status_id" := VInt 5; "update" := VStr "1" ]}.

Definition lead_with_name : gmap string value :=
  {[ "status_id" := VInt 5; "status_name" := VStr "Negotiation" ]}.

Definition lead_with_null_name : gmap string value :=
  {[ "status_id" := VInt 5; "status_name" := VNone ]}.

Definition phone_field_two_values : gmap string value :=
  {[ "code" := VStr "PHONE" ]}.

Definition contact_two_values : gmap string value :=
  {[ "name" := VStr "Ann";
     "custom_fields" :=
       VList ([] ++ VDict (<["values" := VList (VDict {[ "value" := VStr "111" ]}
                                                  :: [VInt 7])]>
                              phone_field_two_values) :: []) ]}.

Definition contact_bad_field : gmap string value :=
  {[ "custom_fields" := VList ((VDict <$> []) ++ VStr "PHONE" :: []) ]}.

Definition task_at_the_bound : gmap string value :=
  {[ "text" := VStr "Call"; "complete_till" := VInt 1000000000 ]}.

Definition task_next_year : gmap string value :=
  {[ "text" := VStr "Call"; "complete_till" := VInt 1700000000 ]}.

Definition status_entry (id : Z) (name : string) : gmap string value :=
  {[ "id" := VInt id; "name" := VStr name ]}.

Definition sample_pipeline : gmap string value :=
  {[ "name" := VStr "Sales";
     "statuses" := VList [VDict (status_entry 5 "New"); VDict (status_entry 6 "Won")] ]}.

Definition body_leads_and_bad_tasks : gmap string value :=
  {[ "leads" := VList (VDict <$> [new_deal_lead]); "tasks" := VNone ]}.

Definition body_leads_only : gmap string value :=
  {[ "leads" := VList (VDict <$> [new_deal_lead]) ]}.

Definition body_lead_and_definition : gmap string value :=
  {[ "leads" := VList [VDict lead_with_id_only];
     "lead_statuses" := VList [VDict (status_entry 5 "New")] ]}.

(** A lead message whose status line shows [shown]. *)
Definition lead_message_with (py_repr : value → string) (lead : gmap string value)
    (event_type : string) (shown : value) : string :=
  py_strip (lead_head py_repr lead event_type +:+
            "Статус: " +:+ py_str py_repr shown +:+ nl).

(** The leads the dispatcher has a message for. *)
Definition decided (py_repr : value → string) (lead : gmap string value) : bool :=
  bool_decide (is_Some (spec_lead_kind py_repr lead)).

(** The line a task message ends with when a responsible user is named. *)
Definition task_responsible (py_repr : value → string) (task : gmap string value)
  : string :=
  if dict_has task "responsible_user_name" then
    "Ответственный: "
      +:+ py_str py_repr (dict_get task "responsible_user_name" (VStr "Не назначен")) +:+ nl
  else "".

(** The completed task of section 8 of the specification. *)
Definition completed_task : gmap string value :=
  {[ "is_completed" := VBool true; "text" := VStr "Call client" ]}.

Definition completed_message : string :=
  "✅ <b>Задача выполнена</b>" +:+ nl +:+ "Текст: Call client".

(** * Proofs *)

(** ** The embedding on small inputs *)

Example code_points_of_mixed_text : code_points "aЖ🎉b" = ["a"; "Ж"; "🎉"; "b"].
Proof. reflexivity. Qed.

Example strip_removes_both_ends :
  py_strip ("  a b " +:+ nl +:+ bytes [194; 160]) = "a b".
Proof. vm_compute. reflexivity. Qed.

Example str_of_negative_id : py_str plain_repr (VInt (-7)) = "-7".
Proof. reflexivity. Qed.

Example numeric_and_text_ids_collide :
  py_str plain_repr (VInt 142) = py_str plain_repr (VStr "142").
Proof. reflexivity. Qed.

(** A new deal: the note emoji, the name, and no file written. *)
Example new_deal_is_announced :
  let '(r, w) := process_lead plain_repr new_deal_lead "chat" "42" fresh_world in
  r = Ret () ∧
  outbox w = [("chat", "📝 <b>Создана новая сделка</b>" +:+ nl +:+ "Название: Deal1")] ∧
  disk w = ∅.
Proof. vm_compute. done. Qed.

(** A send that is posted but whose reply cannot be decoded raises, with
    the message delivered; the lead after it is not handled. *)
Example undecodable_reply_stops_the_leads :
  let w0 := World ∅ [] (clock fresh_world) 0 [] [] [Unanswered JSONDecodeError] in
  let '(r, w) := process_leads plain_repr [new_deal_lead; new_deal_lead] "chat" "42" w0 in
  r = Raise JSONDecodeError ∧
  outbox w = [("chat", "📝 <b>Создана новая сделка</b>" +:+ nl +:+ "Название: Deal1")] ∧
  net w = [].
Proof. vm_compute. done. Qed.

(** A torn write leaves a file that the next load reads as the empty
    mapping, with one line in the log for each failure. *)
Example torn_write_then_load :
  let w0 := World ∅ [Torn] (clock fresh_world) 0 [] [] [] in
  let '(_, w1) := update_lead_status plain_repr "42" (VInt 5) (VStr "Foo") w0 in
  let '(r, w2) := load_lead_statuses "42" w1 in
  disk w1 !! get_status_file_path "42" = Some Corrupt ∧
  r = Ret (VDict ∅) ∧
  journal w2 = [LogSaveError OSError; LogLoadError JSONDecodeError].
Proof. vm_compute. done. Qed.

(** ** Strings and paths *)

Lemma append_cons (c : ascii) (a b : string) : String c a +:+ b = String c (a +:+ b).
Proof. reflexivity. Qed.

Lemma append_length (a b : string) :
  String.length (a +:+ b) = String.length a + String.length b.
Proof. induction a as [|c a IH]; [done | rewrite append_cons; simpl; by rewrite IH]. Qed.

Lemma append_cancel_r (a b s : string) : a +:+ s = b +:+ s → a = b.
Proof.
  revert b. induction a as [|c a IH]; intros [|c' b] H.
  - done.
  - apply (f_equal String.length) in H. rewrite !append_length in H. simpl in H. lia.
  - apply (f_equal String.length) in H. rewrite !append_length in H. simpl in H. lia.
  - rewrite !append_cons in H. injection H as -> H. f_equal. by apply IH.
Qed.

Lemma append_assoc (a b c : string) : (a +:+ b) +:+ c = a +:+ (b +:+ c).
Proof. induction a as [|x a IH]; [done | by rewrite !append_cons, IH]. Qed.

Lemma append_nil_r (a : string) : a +:+ "" = a.
Proof. induction a as [|x a IH]; [done | by rewrite append_cons, IH]. Qed.

Lemma prefix_append (a x : string) : String.prefix a (a +:+ x) = true.
Proof.
  induction a as [|c a IH]; [by destruct x|].
  rewrite append_cons. simpl. by destruct (ascii_dec c c).
Qed.

Lemma get_status_file_path_inj (a b : string) :
  get_status_file_path a = get_status_file_path b → a = b.
Proof.
  unfold get_status_file_path, DATA_DIR. intros H.
  apply (inj (String.append _)) in H.
  apply (inj (String.append _)) in H.
  apply (inj (String.append _)) in H.
  by apply append_cancel_r in H.
Qed.

(** ** Computations confined to one file *)

Lemma confined_ret {A : Type} (p : string) (a : A) : confined p (ret a).
Proof. by intros w q _. Qed.

Lemma confined_lift {A : Type} (p : string) (r : res A) : confined p (lift r).
Proof. by intros w q _. Qed.

Lemma confined_log (p : string) (l : log_line) : confined p (log l).
Proof. by intros w q _. Qed.

Lemma confined_now (p : string) : confined p now_isoformat.
Proof. by intros w q _. Qed.

Lemma confined_send (p chat_id text : string) : confined p (send_message chat_id text).
Proof. intros w q _. unfold send_message. by destruct (net w) as [|[| |] ?]. Qed.

Lemma confined_path_exists (p path : string) : confined p (path_exists path).
Proof. by intros w q _. Qed.

Lemma confined_read_json (p path : string) : confined p (read_json path).
Proof. intros w q _. unfold read_json. by destruct (disk w !! path) as [[| |]|]. Qed.

Lemma confined_write_json (p : string) (v : value) : confined p (write_json p v).
Proof.
  intros w q Hq. unfold write_json.
  destruct (plan w) as [|[| |] ?]; simpl; by rewrite ?lookup_insert_ne.
Qed.

Lemma confined_bind {A B : Type} (p : string) (c : M A) (k : A → M B) :
  confined p c → (∀ a, confined p (k a)) → confined p (bind c k).
Proof.
  intros Hc Hk w q Hq. unfold bind. specialize (Hc w q Hq).
  destruct (c w) as [[a|e] w1]; simpl in *; [|done].
  by rewrite (Hk a w1 q Hq).
Qed.

Lemma confined_try_except {A : Type} (p : string) (c : M A) (h : exn → M A) :
  confined p c → (∀ e, confined p (h e)) → confined p (try_except c h).
Proof.
  intros Hc Hh w q Hq. unfold try_except. specialize (Hc w q Hq).
  destruct (c w) as [[a|e] w1]; simpl in *; [done|].
  by rewrite (Hh e w1 q Hq).
Qed.

Lemma confined_if {A : Type} (p : string) (b : bool) (c1 c2 : M A) :
  confined p c1 → confined p c2 → confined p (if b then c1 else c2).
Proof. by destruct b. Qed.

Create HintDb confined.
#[local] Hint Resolve confined_ret confined_lift confined_log confined_now confined_send
  confined_path_exists confined_read_json confined_write_json confined_if : confined.
#[local] Hint Extern 2 (confined _ (bind _ _)) =>
  apply confined_bind; [|intros ?] : confined.
#[local] Hint Extern 2 (confined _ (try_except _ _)) =>
  apply confined_try_except; [|intros ?] : confined.

Lemma offline_ret {A : Type} (a : A) : offline (ret a).
Proof. by intros w. Qed.

Lemma offline_lift {A : Type} (r : res A) : offline (lift r).
Proof. by intros w. Qed.

Lemma offline_log (l : log_line) : offline (log l).
Proof. by intros w. Qed.

Lemma offline_now : offline now_isoformat.
Proof. by intros w. Qed.

Lemma offline_path_exists (path : string) : offline (path_exists path).
Proof. by intros w. Qed.

Lemma offline_read_json (path : string) : offline (read_json path).
Proof. intros w. unfold read_json. by destruct (disk w !! path) as [[| |]|]. Qed.

Lemma offline_write_json (path : string) (v : value) : offline (write_json path v).
Proof. intros w. unfold write_json. by destruct (plan w) as [|[| |] ?]. Qed.

Lemma offline_bind {A B : Type} (c : M A) (k : A → M B) :
  offline c → (∀ a, offline (k a)) → offline (bind c k).
Proof.
  intros Hc Hk w. unfold bind. specialize (Hc w).
  destruct (c w) as [[a|e] w1]; simpl in *; [|done].
  by rewrite (Hk a w1).
Qed.

Lemma offline_try_except {A : Type} (c : M A) (h : exn → M A) :
  offline c → (∀ e, offline (h e)) → offline (try_except c h).
Proof.
  intros Hc Hh w. unfold try_except. specialize (Hc w).
  destruct (c w) as [[a|e] w1]; simpl in *; [done|].
  by rewrite (Hh e w1).
Qed.

Lemma offline_if {A : Type} (b : bool) (c1 c2 : M A) :
  offline c1 → offline c2 → offline (if b then c1 else c2).
Proof. by destruct b. Qed.

Create HintDb offline.
#[local] Hint Resolve offline_ret offline_lift offline_log offline_now offline_path_exists
  offline_read_json offline_write_json offline_if : offline.
#[local] Hint Extern 2 (offline (bind _ _)) => apply offline_bind; [|intros ?] : offline.
#[local] Hint Extern 2 (offline (try_except _ _)) =>
  apply offline_try_except; [|intros ?] : offline.

Section Proofs.

Variable py_repr : value → string.

Abbreviation update_lead_status := (update_lead_status py_repr).
Abbreviation get_status_name := (get_status_name py_repr).
Abbreviation format_lead_message := (format_lead_message py_repr).
Abbreviation process_lead := (process_lead py_repr).
Abbreviation py_str := (py_str py_repr).

(** ** The store, one operation at a time *)

Lemma quiet_refl w : quiet w w.
Proof. by repeat split. Qed.

Lemma load_run (scope_id : string) (w : world) :
  ∃ w', load_lead_statuses scope_id w = (Ret (store_view w scope_id), w') ∧ quiet w w'.
Proof.
  unfold load_lead_statuses, store_view, try_except, bind, path_exists, read_json.
  destruct (disk w !! get_status_file_path scope_id) as [[v| |]|] eqn:E; simpl;
    rewrite ?E; eexists; (split; [reflexivity | by repeat split]).
Qed.

Lemma save_run (scope_id : string) (v : value) (w : world) :
  ∃ w', save_lead_statuses scope_id v w = (Ret (), w') ∧
        disk w' = disk_after (next_fate w) (get_status_file_path scope_id) v (disk w) ∧
        plan w' = tail (plan w) ∧ clock w' = clock w ∧ ticks w' = ticks w ∧
        outbox w' = outbox w.
Proof.
  unfold save_lead_statuses, try_except, bind, write_json, next_fate.
  destruct (plan w) as [|[| |] later]; simpl; eexists; (split; [reflexivity | done]).
Qed.

Lemma py_setitem2_dict (m d : gmap string value) (k1 k2 : string) (v : value) :
  m !! k1 = Some (VDict d) →
  py_setitem2 (VDict m) k1 k2 v = Ret (VDict (<[k1 := VDict (<[k2 := v]> d)]> m)).
Proof. intros H. unfold py_setitem2. simpl. by rewrite H. Qed.

Lemma update_run (scope_id : string) (status_id status_name : value) (w : world)
    (m : gmap string value) :
  store_view w scope_id = VDict m →
  (∀ r, m !! py_str status_id = Some r → ∃ d, r = VDict d) →
  let m' := touch m (py_str status_id) status_name (clock w (ticks w)) in
  ∃ w', update_lead_status scope_id status_id status_name w = (Ret (VDict m'), w') ∧
        disk w' = disk_after (next_fate w) (get_status_file_path scope_id) (VDict m')
                    (disk w) ∧
        plan w' = tail (plan w) ∧ clock w' = clock w ∧ ticks w' = S (ticks w) ∧
        outbox w' = outbox w.
Proof.
  intros Hm Hshape m'. subst m'.
  unfold update_lead_status, bind.
  destruct (load_run scope_id w) as (w1 & -> & Hd & Hp & Hc & Ht & Ho & _).
  rewrite Hm. unfold lift, touch. simpl.
  destruct (m !! py_str status_id) as [r|] eqn:E; simpl.
  - destruct (Hshape r eq_refl) as [d ->].
    rewrite (py_setitem2_dict _ _ _ _ _ E).
    rewrite (py_setitem2_dict _ _ _ _ _ (lookup_insert_eq _ _ _)).
    rewrite insert_insert_eq.
    rewrite Hc, Ht.
    match goal with |- context [save_lead_statuses ?s ?v ?w0] =>
      destruct (save_run s v w0) as (w2 & -> & Hd2 & Hp2 & Hc2 & Ht2 & Ho2) end.
    simpl in *. eexists. split; [reflexivity|].
    unfold next_fate in *. simpl in *. rewrite Hd2, Hp2, Hc2, Ht2, Ho2, ?Hd, ?Hp, ?Hc, ?Ht, ?Ho. done.
  - rewrite Hc, Ht.
    match goal with |- context [save_lead_statuses ?s ?v ?w0] =>
      destruct (save_run s v w0) as (w2 & -> & Hd2 & Hp2 & Hc2 & Ht2 & Ho2) end.
    simpl in *. eexists. split; [reflexivity|].
    unfold next_fate in *. simpl in *. rewrite Hd2, Hp2, Hc2, Ht2, Ho2, ?Hd, ?Hp, ?Hc, ?Ht, ?Ho. done.
Qed.

Lemma get_status_name_run (scope_id : string) (status_id : value) (w : world) :
  ∃ w', get_status_name scope_id status_id w =
          (let? record := py_get (store_view w scope_id) (py_str status_id) (VDict ∅) in
           py_get record "name" (VStr ("Статус " +:+ py_str status_id)), w') ∧
        quiet w w'.
Proof.
  unfold get_status_name, bind, lift.
  destruct (load_run scope_id w) as (w1 & -> & Hq).
  exists w1. split; [|done].
  by destruct (py_get (store_view w scope_id) (py_str status_id) (VDict ∅)).
Qed.

(** ** The shape of the store *)

Lemma record_ok_inv (r : value) :
  record_ok r = true →
  ∃ d, r = VDict d ∧ is_Some (d !! "name") ∧ is_Some (d !! "first_seen").
Proof.
  destruct r as [| | | | |d]; try done. unfold record_ok, dict_has.
  intros [H1 H2]%andb_true_iff. apply bool_decide_eq_true in H1, H2. eauto.
Qed.

Lemma store_ok_inv (v : value) :
  store_ok v = true →
  ∃ m, v = VDict m ∧ ∀ k r, m !! k = Some r → record_ok r = true.
Proof.
  destruct v as [| | | | |m]; try done. unfold store_ok.
  intros H%bool_decide_eq_true. exists m. split; [done|].
  intros k r Hk. by apply (H k r).
Qed.

Lemma store_ok_intro (m : gmap string value) :
  (∀ k r, m !! k = Some r → record_ok r = true) → store_ok (VDict m) = true.
Proof. intros H. apply bool_decide_eq_true. intros k r Hk. by apply (H k r). Qed.

Lemma touch_ok (m : gmap string value) (sid : string) (name : value) (ts : string) :
  store_ok (VDict m) = true → store_ok (VDict (touch m sid name ts)) = true.
Proof.
  intros (m0 & [= <-] & Hall)%store_ok_inv. apply store_ok_intro.
  intros k r. unfold touch.
  destruct (m !! sid) as [r0|] eqn:E.
  - destruct (record_ok_inv r0 (Hall _ _ E)) as (d & -> & Hn & Hf).
    rewrite lookup_insert. case_decide as Hk.
    + intros [= <-]. unfold record_ok, dict_has.
      rewrite (lookup_insert_ne _ "last_updated" "name") by done.
      rewrite lookup_insert_eq.
      rewrite !(lookup_insert_ne _ _ "first_seen") by done.
      by rewrite (bool_decide_eq_true_2 _ Hf).
    + apply Hall.
  - rewrite lookup_insert. case_decide as Hk; [|apply Hall].
    by intros [= <-].
Qed.

Lemma store_view_written (w w' : world) (scope_id : string) (v : value) :
  disk w' = disk_after (next_fate w) (get_status_file_path scope_id) v (disk w) →
  store_view w' scope_id =
    match next_fate w with
    | Done => v
    | Refused => store_view w scope_id
    | Torn => VDict ∅
    end.
Proof.
  intros H. unfold store_view. rewrite H.
  destruct (next_fate w); simpl; by rewrite ?lookup_insert_eq.
Qed.

Lemma store_view_elsewhere (w w' : world) (a b : string) :
  a ≠ b →
  (∀ q, q ≠ get_status_file_path a → disk w' !! q = disk w !! q) →
  store_view w' b = store_view w b.
Proof.
  intros Hab H. unfold store_view. rewrite H; [done|].
  intros Hp. by apply get_status_file_path_inj in Hp.
Qed.

Lemma disk_after_elsewhere (f : write_fate) (p q : string) (v : value)
    (d : gmap string fnode) :
  q ≠ p → disk_after f p v d !! q = d !! q.
Proof. intros H. destruct f; simpl; by rewrite ?lookup_insert_ne. Qed.

Lemma load_confined (scope_id : string) :
  confined (get_status_file_path scope_id) (load_lead_statuses scope_id).
Proof. unfold load_lead_statuses. auto 10 with confined. Qed.

Lemma save_confined (scope_id : string) (v : value) :
  confined (get_status_file_path scope_id) (save_lead_statuses scope_id v).
Proof. unfold save_lead_statuses. auto 10 with confined. Qed.

Lemma update_confined (scope_id : string) (status_id status_name : value) :
  confined (get_status_file_path scope_id)
    (update_lead_status scope_id status_id status_name).
Proof.
  pose proof load_confined. pose proof save_confined.
  unfold update_lead_status. auto 10 with confined.
Qed.

Lemma update_offline (scope_id : string) (status_id status_name : value) :
  offline (update_lead_status scope_id status_id status_name).
Proof.
  unfold update_lead_status, load_lead_statuses, save_lead_statuses.
  auto 12 with offline.
Qed.

Lemma get_status_name_offline (scope_id : string) (status_id : value) :
  offline (get_status_name scope_id status_id).
Proof. unfold get_status_name, load_lead_statuses. auto 12 with offline. Qed.

Lemma get_status_name_confined (scope_id : string) (status_id : value) :
  confined (get_status_file_path scope_id) (get_status_name scope_id status_id).
Proof. pose proof load_confined. unfold get_status_name. auto 10 with confined. Qed.

Lemma update_sane (scope_id : string) (status_id status_name : value) (w : world) :
  sane w scope_id →
  ∃ m w', store_view w scope_id = VDict m ∧
    let m' := touch m (py_str status_id) status_name (clock w (ticks w)) in
    update_lead_status scope_id status_id status_name w = (Ret (VDict m'), w') ∧
    disk w' = disk_after (next_fate w) (get_status_file_path scope_id) (VDict m')
                (disk w) ∧
    plan w' = tail (plan w) ∧ clock w' = clock w ∧ ticks w' = S (ticks w) ∧
    outbox w' = outbox w.
Proof.
  intros (m & Hm & Hall)%store_ok_inv.
  destruct (update_run scope_id status_id status_name w m Hm) as (w' & H).
  - intros r Hr. destruct (record_ok_inv r (Hall _ _ Hr)) as (d & -> & _). eauto.
  - exists m, w'. by split.
Qed.

(** Every store stays well formed under [update_lead_status]: the shape
    holds of the empty data directory and is kept by each update, whatever
    the fate of its write. *)
Lemma sane_empty (w : world) (scope_id : string) : disk w = ∅ → sane w scope_id.
Proof. intros H. unfold sane, store_view. by rewrite H, lookup_empty. Qed.

Lemma update_keeps_sane (scope_id : string) (status_id status_name : value)
    (w : world) (other : string) :
  sane w scope_id → sane w other →
  sane (update_lead_status scope_id status_id status_name w).2 other.
Proof.
  intros Hs Ho.
  destruct (update_sane scope_id status_id status_name w Hs)
    as (m & w' & Hm & Hrun & Hd & _).
  rewrite Hrun. simpl. unfold sane.
  destruct (decide (other = scope_id)) as [->|Hne].
  - rewrite (store_view_written _ _ _ _ Hd).
    destruct (next_fate w); [|done|done].
    apply touch_ok. unfold sane in Hs. by rewrite Hm in Hs.
  - unfold store_view. rewrite Hd, disk_after_elsewhere; [done|].
    intros Hp. by apply get_status_file_path_inj in Hp.
Qed.

Lemma touch_new (m : gmap string value) (sid : string) (name : value) (ts : string) :
  m !! sid = None →
  touch m sid name ts = <[sid := VDict {[ "name" := name; "first_seen" := VStr ts ]}]> m.
Proof. intros H. unfold touch. by rewrite H. Qed.

Lemma touch_known (m d : gmap string value) (sid : string) (name : value) (ts : string) :
  m !! sid = Some (VDict d) →
  touch m sid name ts =
    <[sid := VDict (<["last_updated" := VStr ts]> (<["name" := name]> d))]> m.
Proof. intros H. unfold touch. by rewrite H. Qed.

(** After any update the record of the id is an object carrying the new
    name and a [first_seen]. *)
Lemma touch_lookup (m : gmap string value) (sid : string) (name : value) (ts : string) :
  store_ok (VDict m) = true →
  ∃ d, touch m sid name ts !! sid = Some (VDict d) ∧ d !! "name" = Some name ∧
       is_Some (d !! "first_seen").
Proof.
  intros (m0 & [= <-] & Hall)%store_ok_inv.
  destruct (m !! sid) as [r|] eqn:E.
  - destruct (record_ok_inv r (Hall _ _ E)) as (d & -> & _ & Hf).
    rewrite (touch_known _ _ _ _ _ E), lookup_insert_eq. eexists. split; [done|].
    rewrite lookup_insert_ne by done. rewrite lookup_insert_eq.
    by rewrite !lookup_insert_ne.
  - rewrite (touch_new _ _ _ _ E), lookup_insert_eq. eexists. split; [done|].
    rewrite lookup_insert_eq. split; [done|].
    rewrite lookup_insert_ne by done. by rewrite lookup_singleton_eq.
Qed.

(** * The claims *)

(** C1. Two updates of the same id in a row: whatever the two names (the
    claim takes Foo then Bar), when the first write reaches the disk the
    mapping returned by the second call holds a record for the id with the
    second name, the [first_seen] the record had after the first call, and
    a [last_updated]; that mapping is also what the second call writes. *)
Theorem update_twice_keeps_first_seen (scope_id : string) (status_id n1 n2 : value)
    (w : world) :
  sane w scope_id →
  next_fate w = Done →
  ∃ m1 w1 m2 w2 r1 r2 seen,
    update_lead_status scope_id status_id n1 w = (Ret (VDict m1), w1) ∧
    update_lead_status scope_id status_id n2 w1 = (Ret (VDict m2), w2) ∧
    m1 !! py_str status_id = Some (VDict r1) ∧
    m2 !! py_str status_id = Some (VDict r2) ∧
    r1 !! "first_seen" = Some seen ∧
    r2 !! "first_seen" = Some seen ∧
    r2 !! "name" = Some n2 ∧
    r2 !! "last_updated" = Some (VStr (clock w1 (ticks w1))) ∧
    disk w2 = disk_after (next_fate w1) (get_status_file_path scope_id) (VDict m2)
                (disk w1).
Proof.
  intros Hs Hf.
  destruct (update_sane scope_id status_id n1 w Hs)
    as (m & w1 & Hm & Hrun1 & Hd1 & _).
  assert (Hok : store_ok (VDict m) = true) by (unfold sane in Hs; by rewrite Hm in Hs).
  set (m1 := touch m (py_str status_id) n1 (clock w (ticks w))) in *.
  destruct (touch_lookup m (py_str status_id) n1 (clock w (ticks w)) Hok)
    as (r1 & Hr1 & _ & [seen Hseen]).
  fold m1 in Hr1.
  assert (Hv1 : store_view w1 scope_id = VDict m1).
  { rewrite (store_view_written _ _ _ _ Hd1). by rewrite Hf. }
  destruct (update_run scope_id status_id n2 w1 m1 Hv1) as (w2 & Hrun2 & Hd2 & _).
  { intros r Hr. rewrite Hr1 in Hr. injection Hr as <-. eauto. }
  rewrite (touch_known _ _ _ _ _ Hr1) in Hrun2, Hd2.
  eexists m1, w1, _, w2, r1, _, seen.
  split; [exact Hrun1|]. split; [exact Hrun2|]. split; [exact Hr1|].
  split; [apply lookup_insert_eq|].
  split; [exact Hseen|].
  split; [by rewrite !lookup_insert_ne|].
  split; [rewrite lookup_insert_ne by done; apply lookup_insert_eq|].
  split; [apply lookup_insert_eq|exact Hd2].
Qed.

(** C9. The first update of an id the store does not hold creates a record
    with exactly the fields [name] and [first_seen]: no [last_updated]. *)
Theorem first_update_has_no_last_updated (scope_id : string) (status_id status_name : value)
    (w : world) (m : gmap string value) :
  store_view w scope_id = VDict m →
  m !! py_str status_id = None →
  ∃ m' w' d,
    update_lead_status scope_id status_id status_name w = (Ret (VDict m'), w') ∧
    m' !! py_str status_id = Some (VDict d) ∧
    dom d = {[ "name"; "first_seen" ]} ∧
    d !! "name" = Some status_name ∧
    d !! "first_seen" = Some (VStr (clock w (ticks w))) ∧
    d !! "last_updated" = None.
Proof.
  intros Hm Hnew.
  destruct (update_run scope_id status_id status_name w m Hm) as (w' & Hrun & _).
  { intros r Hr. by rewrite Hnew in Hr. }
  rewrite (touch_new _ _ _ _ Hnew) in Hrun.
  eexists _, w', _. split; [exact Hrun|]. split; [apply lookup_insert_eq|].
  split; [|split; [|split]].
  - rewrite dom_insert_L, dom_singleton_L. done.
  - apply lookup_insert_eq.
  - rewrite lookup_insert_ne by done. apply lookup_singleton_eq.
  - rewrite lookup_insert_ne by done. by apply lookup_singleton_ne.
Qed.


(** C4. A mapping saved by a write that completes is the mapping the next
    load returns. *)
Theorem save_then_load (scope_id : string) (M0 : gmap string value) (w : world) :
  next_fate w = Done →
  ∃ w1 w2,
    save_lead_statuses scope_id (VDict M0) w = (Ret (), w1) ∧
    load_lead_statuses scope_id w1 = (Ret (VDict M0), w2).
Proof.
  intros Hf.
  destruct (save_run scope_id (VDict M0) w) as (w1 & Hsave & Hd & _).
  destruct (load_run scope_id w1) as (w2 & Hload & _).
  exists w1, w2. split; [done|].
  rewrite Hload, (store_view_written _ _ _ _ Hd). by rewrite Hf.
Qed.

(** C7. A load always returns: the decoded content of a readable JSON file,
    and the empty mapping when the file is missing, corrupt or unreadable.
    Only the logger runs. *)
Theorem load_never_raises (scope_id : string) (w : world) :
  ∃ w',
    load_lead_statuses scope_id w =
      (Ret match disk w !! get_status_file_path scope_id with
           | Some (Json v) => v
           | Some Corrupt | Some Unreadable | None => VDict ∅
           end, w') ∧
    quiet w w'.
Proof.
  destruct (load_run scope_id w) as (w' & Hload & Hq).
  exists w'. split; [|done]. rewrite Hload. unfold store_view.
  by destruct (disk w !! get_status_file_path scope_id) as [[| |]|].
Qed.

Lemma fallback_run (scope_id : string) (status_id : value) (w : world)
    (m : gmap string value) :
  store_view w scope_id = VDict m →
  m !! py_str status_id = None →
  ∃ w1, get_status_name scope_id status_id w =
          (Ret (VStr ("Статус " +:+ py_str status_id)), w1) ∧
        quiet w w1.
Proof.
  intros Hm Hnew.
  destruct (get_status_name_run scope_id status_id w) as (w1 & H1 & Hq1).
  rewrite Hm in H1. simpl in H1. rewrite Hnew in H1. by exists w1.
Qed.

Lemma quiet_store_view (w w' : world) (scope_id : string) :
  quiet w w' → store_view w' scope_id = store_view w scope_id.
Proof. intros (Hd & _). unfold store_view. by rewrite Hd. Qed.

(** C2, amended. For an id the store of the scope does not hold, the lookup
    returns the fallback made of the prefix the code uses, [Статус ], and
    the id as [str] renders it; a second lookup returns the same string, and
    neither changes a file, the write plan, the clock or the outbox. *)
Theorem get_status_name_fallback (scope_id : string) (status_id : value) (w : world)
    (m : gmap string value) :
  store_view w scope_id = VDict m →
  m !! py_str status_id = None →
  ∃ w1 w2,
    get_status_name scope_id status_id w =
      (Ret (VStr ("Статус " +:+ py_str status_id)), w1) ∧
    get_status_name scope_id status_id w1 =
      (Ret (VStr ("Статус " +:+ py_str status_id)), w2) ∧
    quiet w w1 ∧ quiet w1 w2.
Proof.
  intros Hm Hnew.
  destruct (fallback_run scope_id status_id w m Hm Hnew) as (w1 & H1 & Hq1).
  assert (Hm1 : store_view w1 scope_id = VDict m)
    by (by rewrite (quiet_store_view w w1)).
  destruct (fallback_run scope_id status_id w1 m Hm1 Hnew) as (w2 & H2 & Hq2).
  by exists w1, w2.
Qed.

(** C3. An update in scope [a] changes no file of another scope [b]: what
    [b] holds, what a load of [b] returns and what a lookup in [b] returns
    (for every id) are as before; a lookup of an id that [b] does not
    hold still returns the fallback. *)
Theorem update_leaves_other_scopes (a b : string) (status_id status_name : value)
    (w : world) (mb : gmap string value) :
  a ≠ b →
  store_view w b = VDict mb →
  mb !! py_str status_id = None →
  let w' := (update_lead_status a status_id status_name w).2 in
  disk w' !! get_status_file_path b = disk w !! get_status_file_path b ∧
  store_view w' b = store_view w b ∧
  (load_lead_statuses b w').1 = (load_lead_statuses b w).1 ∧
  (∀ j, (get_status_name b j w').1 = (get_status_name b j w).1) ∧
  (get_status_name b status_id w').1 = Ret (VStr ("Статус " +:+ py_str status_id)).
Proof.
  intros Hab Hmb Hnew w'.
  assert (Hframe : ∀ q, q ≠ get_status_file_path a → disk w' !! q = disk w !! q).
  { intros q Hq. by apply update_confined. }
  assert (Hview : store_view w' b = store_view w b).
  { by apply (store_view_elsewhere w w' a b). }
  assert (Hget : ∀ j, (get_status_name b j w').1 = (get_status_name b j w).1).
  { intros j.
    destruct (get_status_name_run b j w') as (? & -> & _).
    destruct (get_status_name_run b j w) as (? & -> & _).
    simpl. by rewrite Hview. }
  split; [|split; [|split; [|split]]]; try done.
  - apply Hframe. intros Hp. by apply get_status_file_path_inj in Hp.
  - destruct (load_run b w') as (? & -> & _). destruct (load_run b w) as (? & -> & _).
    simpl. by rewrite Hview.
  - rewrite Hget.
    by destruct (fallback_run b status_id w mb Hmb Hnew) as (? & -> & _).
Qed.

(** ** The dispatcher *)

Lemma successful_ids_agree (x : string) :
  x ∈ successful_status_ids ↔ x ∈ configured_successful_ids.
Proof.
  unfold successful_status_ids, configured_successful_ids.
  rewrite !elem_of_cons, elem_of_nil, elem_of_union, !elem_of_singleton. tauto.
Qed.

Lemma process_lead_emit (lead : gmap string value) (chat_id scope_id : string) :
  process_lead lead chat_id scope_id =
  emit py_repr lead (spec_lead_kind py_repr lead) chat_id scope_id.
Proof.
  unfold process_lead, spec_lead_kind, emit, dict_has, dict_get.
  destruct (lead !! "add") as [?|]; simpl; [done|].
  destruct (lead !! "status_id") as [id|]; simpl.
  - destruct (py_truthy id); simpl.
    + case_bool_decide as Hin; case_decide as Hin'; try done;
        rewrite successful_ids_agree in Hin; done.
    + by destruct (lead !! "update").
  - by destruct (lead !! "update").
Qed.

Lemma lead_head_without_status (lead : gmap string value) (event_type : string) :
  lead_head py_repr (delete "status_id" lead) event_type = lead_head py_repr lead event_type.
Proof.
  unfold lead_head, dict_has, dict_get. by rewrite !lookup_delete_ne.
Qed.

Lemma format_without_status (lead : gmap string value) (event_type scope_id : string)
    (w : world) :
  py_truthy (dict_get lead "status_id" VNone) = false →
  format_lead_message lead event_type scope_id w =
    (Ret (py_strip (lead_head py_repr lead event_type)), w).
Proof. intros H. unfold format_lead_message, bind. by rewrite H. Qed.

Lemma won_lead_message :
  py_strip (lead_head py_repr won_lead "success" +:+ "Статус: " +:+ py_str (VStr "Won") +:+ nl)
  = won_message.
Proof. vm_compute. reflexivity. Qed.

Lemma won_lead_run (scope_id : string) (w : world) :
  sane w scope_id →
  next_fate w = Done →
  ∃ w1 m d,
    format_lead_message won_lead "success" scope_id w = (Ret won_message, w1) ∧
    store_view w1 scope_id = VDict m ∧
    m !! "142" = Some (VDict d) ∧
    d !! "name" = Some (VStr "Won") ∧
    outbox w1 = outbox w ∧ net w1 = net w.
Proof.
  intros Hs Hf.
  unfold format_lead_message, bind.
  change (dict_get won_lead "status_id" VNone) with (VInt 142).
  change (won_lead !! "status_name") with (Some (VStr "Won")).
  change (py_truthy (VInt 142)) with true. cbv beta iota.
  pose proof (update_offline scope_id (VInt 142) (VStr "Won") w) as Hnet.
  destruct (update_sane scope_id (VInt 142) (VStr "Won") w Hs)
    as (m & w1 & Hm & Hrun & Hd & _ & _ & _ & Ho).
  assert (Hok : store_ok (VDict m) = true) by (unfold sane in Hs; by rewrite Hm in Hs).
  destruct (touch_lookup m "142" (VStr "Won") (clock w (ticks w)) Hok)
    as (d & Hd1 & Hname & _).
  rewrite Hrun in Hnet |- *. cbv beta iota. unfold ret.
  change (negb (py_truthy (VStr "Won"))) with false. cbv beta iota.
  rewrite won_lead_message.
  eexists _, _, d. split; [reflexivity|].
  split; [|done].
  unfold store_view. rewrite Hd, Hf. simpl. by rewrite lookup_insert_eq.
Qed.

(** C5. The dispatcher sends exactly the message of the kind the four rules
    of the specification decide, and sends nothing when they decide none.
    The lead [{status_id: 142, status_name: Won}] is a success: over a well
    formed store and with a write that completes, its message is the party
    one, the store of the scope holds a record for 142 named Won, and this
    message is what is handed to the sink, whatever becomes of the call;
    when the call is answered the message is in the outbox. *)
Theorem lead_dispatch_follows_precedence :
  (∀ lead chat_id scope_id,
     process_lead lead chat_id scope_id =
     emit py_repr lead (spec_lead_kind py_repr lead) chat_id scope_id) ∧
  spec_lead_kind py_repr won_lead = Some KindSuccess ∧
  (∀ chat_id scope_id w,
     sane w scope_id →
     next_fate w = Done →
     ∃ w1 m d,
       format_lead_message won_lead "success" scope_id w = (Ret won_message, w1) ∧
       process_lead won_lead chat_id scope_id w = send_message chat_id won_message w1 ∧
       String.prefix "🎉" won_message = true ∧
       store_view w1 scope_id = VDict m ∧
       m !! "142" = Some (VDict d) ∧
       d !! "name" = Some (VStr "Won")) ∧
  (∀ chat_id scope_id w,
     sane w scope_id →
     next_fate w = Done →
     net w = [] →
     ∃ w' m d,
       process_lead won_lead chat_id scope_id w = (Ret (), w') ∧
       outbox w' = outbox w ++ [(chat_id, won_message)] ∧
       String.prefix "🎉" won_message = true ∧
       store_view w' scope_id = VDict m ∧
       m !! "142" = Some (VDict d) ∧
       d !! "name" = Some (VStr "Won")).
Proof.
  assert (Hsend : ∀ chat_id scope_id w w1,
            format_lead_message won_lead "success" scope_id w = (Ret won_message, w1) →
            process_lead won_lead chat_id scope_id w = send_message chat_id won_message w1).
  { intros chat_id scope_id w w1 Hfmt. rewrite process_lead_emit.
    change (spec_lead_kind py_repr won_lead) with (Some KindSuccess).
    unfold emit, kind_name, bind. by rewrite Hfmt. }
  split; [apply process_lead_emit|]. split; [done|]. split.
  - intros chat_id scope_id w Hs Hf.
    destruct (won_lead_run scope_id w Hs Hf) as (w1 & m & d & Hfmt & Hm & Hd & Hn & _).
    exists w1, m, d. split; [done|]. split; [by apply Hsend|]. done.
  - intros chat_id scope_id w Hs Hf Hnet.
    destruct (won_lead_run scope_id w Hs Hf)
      as (w1 & m & d & Hfmt & Hm & Hd & Hn & Ho & Hnet1).
    rewrite (Hsend chat_id scope_id w w1 Hfmt).
    unfold send_message. rewrite Hnet1, Hnet.
    eexists _, m, d. split; [reflexivity|]. cbn [outbox].
    split; [by rewrite Ho|]. split; [done|]. split; [|done].
    unfold store_view in *. by cbn [disk].
Qed.

(** C10. A lead whose [status_id] is present but falsy is handled as the
    same lead without the key: the formatter returns the message without a
    status block and leaves the world as it was (no file read or written, no
    clock reading, no log line), and the dispatcher decides on the markers
    alone: new with an add marker, else update with an update marker, else
    nothing is sent. *)
Theorem falsy_status_id_is_no_status_id (lead : gmap string value) (id : value)
    (event_type chat_id scope_id : string) (w : world) :
  lead !! "status_id" = Some id →
  py_truthy id = false →
  format_lead_message lead event_type scope_id w =
    (Ret (py_strip (lead_head py_repr lead event_type)), w) ∧
  format_lead_message lead event_type scope_id w =
    format_lead_message (delete "status_id" lead) event_type scope_id w ∧
  process_lead lead chat_id scope_id w =
    process_lead (delete "status_id" lead) chat_id scope_id w ∧
  process_lead lead chat_id scope_id w =
    (if dict_has lead "add" then
       send_message chat_id (py_strip (lead_head py_repr lead "new")) w
     else if dict_has lead "update" then
       send_message chat_id (py_strip (lead_head py_repr lead "update")) w
     else (Ret (), w)).
Proof.
  intros Hid Hfalsy.
  assert (H1 : py_truthy (dict_get lead "status_id" VNone) = false)
    by (unfold dict_get; by rewrite Hid).
  assert (H2 : py_truthy (dict_get (delete "status_id" lead) "status_id" VNone) = false)
    by (unfold dict_get; by rewrite lookup_delete_eq).
  assert (Hfmt : ∀ k w0, format_lead_message lead k scope_id w0 =
                         format_lead_message (delete "status_id" lead) k scope_id w0).
  { intros k w0. rewrite !format_without_status by done.
    by rewrite lead_head_without_status. }
  split; [by apply format_without_status|]. split; [apply Hfmt|].
  unfold process_lead. rewrite H1, H2. unfold dict_has.
  rewrite !(lookup_delete_ne lead "status_id") by done.
  split.
  - destruct (lead !! "add"), (lead !! "update"); simpl; unfold bind;
      by rewrite ?Hfmt.
  - destruct (lead !! "add"), (lead !! "update"); simpl; unfold bind;
      by rewrite ?format_without_status.
Qed.

(** ** The contact formatter *)

Lemma phone_is_not_email (code : value) :
  py_eq_str code "PHONE" = true → py_eq_str code "EMAIL" = false.
Proof.
  destruct code as [| | |s| |]; try done. simpl.
  by intros ->%String.eqb_eq.
Qed.

Lemma first_value_line_shaped (label : string) (field : gmap string value)
    (message : string) :
  field_shaped field = true →
  first_value_line py_repr label (VDict field) message =
    Ret match first_value field with
        | Some v =>
            message +:+ label +:+ py_str (dict_get v "value" (VStr "")) +:+ nl
        | None => message
        end.
Proof.
  unfold field_shaped, first_value_line, first_value. simpl.
  fold (dict_get field "values" (VList [])).
  destruct (dict_get field "values" (VList [])) as [| | | |vs|]; try done.
  destruct vs as [|v vs]; [done|]. simpl.
  intros [Hv _]%andb_true_iff. apply bool_decide_eq_true in Hv.
  destruct v as [| | | | |d]; by destruct Hv.
Qed.

Lemma contact_field_shaped (field : gmap string value) (message : string) :
  field_shaped field = true →
  contact_field py_repr (VDict field) message =
    Ret (message +:+ default "" (spec_field_line py_repr field)).
Proof.
  intros Hshape. unfold contact_field, spec_field_line. simpl.
  fold (dict_get field "code" VNone).
  destruct (py_eq_str (dict_get field "code" VNone) "PHONE") eqn:Hphone.
  - rewrite (phone_is_not_email _ Hphone).
    rewrite (first_value_line_shaped _ _ _ Hshape). simpl.
    destruct (first_value field); simpl; by rewrite ?append_nil_r.
  - simpl. destruct (py_eq_str (dict_get field "code" VNone) "EMAIL").
    + rewrite (first_value_line_shaped _ _ _ Hshape).
      destruct (first_value field); simpl; by rewrite ?append_nil_r.
    + simpl. by rewrite append_nil_r.
Qed.

Lemma contact_fields_shaped (fields : list (gmap string value)) (message : string) :
  forallb field_shaped fields = true →
  contact_fields py_repr (VDict <$> fields) message =
    Ret (message +:+ foldr String.append "" (field_lines py_repr fields)).
Proof.
  revert message. induction fields as [|f fs IH]; intros message; simpl.
  - intros _. by rewrite append_nil_r.
  - intros [Hf Hfs]%andb_true_iff.
    rewrite (contact_field_shaped _ _ Hf). simpl.
    rewrite (IH _ Hfs). unfold field_lines. simpl.
    destruct (spec_field_line py_repr f); simpl.
    + by rewrite append_assoc.
    + by rewrite append_nil_r.
Qed.

Lemma first_value_line_returns (label : string) (field : gmap string value)
    (message result : string) :
  first_value_line py_repr label (VDict field) message = Ret result →
  result =
    match first_value field with
    | Some v => message +:+ label +:+ py_str (dict_get v "value" (VStr "")) +:+ nl
    | None => message
    end.
Proof.
  unfold first_value_line, first_value. simpl.
  fold (dict_get field "values" (VList [])).
  destruct (dict_get field "values" (VList [])) as [| | |s|vs|d]; simpl; try done.
  - destruct (code_points s); simpl; [by intros [= <-] | done].
  - destruct vs as [|v vs]; simpl; [by intros [= <-]|].
    destruct v; simpl; try done. by intros [= <-].
  - destruct ((map_to_list d).*1); simpl; [by intros [= <-] | done].
Qed.

Lemma contact_field_returns (field : value) (message result : string) :
  contact_field py_repr field message = Ret result →
  ∃ f, field = VDict f ∧
       result = message +:+ default "" (spec_field_line py_repr f).
Proof.
  destruct field as [| | | | |f]; try done.
  intros Hrun. exists f. split; [done|]. revert Hrun.
  unfold contact_field, spec_field_line. simpl.
  fold (dict_get f "code" VNone).
  destruct (py_eq_str (dict_get f "code" VNone) "PHONE") eqn:Hphone.
  - rewrite (phone_is_not_email _ Hphone).
    destruct (first_value_line py_repr "Телефон: " (VDict f) message) as [m1|e] eqn:Hline;
      simpl; [|done].
    intros [= <-]. rewrite (first_value_line_returns _ _ _ _ Hline).
    destruct (first_value f); simpl; by rewrite ?append_nil_r.
  - simpl. destruct (py_eq_str (dict_get f "code" VNone) "EMAIL").
    + intros Hline. rewrite (first_value_line_returns _ _ _ _ Hline).
      destruct (first_value f); simpl; by rewrite ?append_nil_r.
    + intros [= <-]. simpl. by rewrite append_nil_r.
Qed.

Lemma contact_fields_return (fields : list value) (message result : string) :
  contact_fields py_repr fields message = Ret result →
  result = message +:+ foldr String.append "" (field_lines py_repr (omap as_dict fields)) ∧
  (fields ≠ [] → ∃ f rest, fields = VDict f :: rest).
Proof.
  revert message. induction fields as [|field rest IH]; intros message; simpl.
  - intros [= <-]. by rewrite append_nil_r.
  - destruct (contact_field py_repr field message) as [m1|e] eqn:Hfield; simpl; [|done].
    destruct (contact_field_returns _ _ _ Hfield) as (f & -> & ->).
    intros Hrest. destruct (IH _ Hrest) as [-> _]. split; [|by eauto].
    unfold field_lines. simpl. destruct (spec_field_line py_repr f); simpl.
    + by rewrite append_assoc.
    + by rewrite append_nil_r.
Qed.

Lemma contact_message_returns (contact : gmap string value) (event_type message : string) :
  format_contact_message py_repr contact event_type = Ret message →
  message =
    py_strip (contact_head py_repr contact event_type +:+
              foldr String.append "" (field_lines py_repr (custom_fields contact))).
Proof.
  unfold format_contact_message, custom_fields, dict_has, dict_get.
  destruct (contact !! "custom_fields") as [v|]; simpl.
  2:{ intros [= <-]. by rewrite append_nil_r. }
  destruct (py_iter v) as [fields|e] eqn:Hiter; simpl; [|done].
  destruct (contact_fields py_repr fields (contact_head py_repr contact event_type))
    as [m1|e] eqn:Hfields; simpl; [|done].
  intros [= <-]. destruct (contact_fields_return _ _ _ Hfields) as [-> Hdict].
  destruct v as [| | |s|vs|d]; simpl in Hiter; try done.
  - injection Hiter as <-. destruct (code_points s) as [|c cs]; [done|].
    by destruct Hdict as (? & ? & ?).
  - by injection Hiter as <-.
  - injection Hiter as <-. destruct ((map_to_list d).*1) as [|k ks]; [done|].
    by destruct Hdict as (? & ? & ?).
Qed.

(** ** The lines of a stripped message *)

Lemma concat_cons (x : string) (xs : list string) :
  String.concat "" (x :: xs) = x +:+ String.concat "" xs.
Proof. destruct xs; [simpl; by rewrite append_nil_r | reflexivity]. Qed.

Lemma concat_app (a b : list string) :
  String.concat "" (a ++ b) = String.concat "" a +:+ String.concat "" b.
Proof.
  induction a as [|x a IH]; [done|].
  by rewrite <- app_comm_cons, !concat_cons, IH, append_assoc.
Qed.

Lemma concat_code_points (s : string) : String.concat "" (code_points s) = s.
Proof.
  induction s as [|b t IH]; [done|]. cbn [code_points].
  destruct (code_points t) as [|c rest].
  - simpl in IH. by subst.
  - rewrite concat_cons in IH.
    destruct (starts_with_continuation t); rewrite concat_cons, append_cons.
    + by rewrite IH.
    + rewrite concat_cons. change ("" +:+ ?x) with x. by rewrite IH.
Qed.

Lemma code_points_cons (b : ascii) (t : string) :
  ∃ x rest, code_points (String b t) = String b x :: rest.
Proof.
  cbn [code_points]. destruct (code_points t) as [|c rest]; [by eexists _, _|].
  destruct (starts_with_continuation t); by eexists _, _.
Qed.

Lemma rstrip_chars_split (cs : list string) :
  ∃ rest, cs = rstrip_chars cs ++ rest ∧ forallb is_space rest = true.
Proof.
  induction cs as [|c t (rest & Ht & Hrest)]; [by exists []|].
  cbn [rstrip_chars]. destruct (rstrip_chars t) as [|x t'] eqn:E.
  - simpl in Ht. subst t. destruct (is_space c) eqn:Hc.
    + exists (c :: rest). simpl. by rewrite Hc.
    + by exists rest.
  - exists rest. split; [|done]. by rewrite Ht at 1.
Qed.

Lemma rstrip_chars_head (c : string) (cs : list string) :
  is_space c = false → ∃ kept, rstrip_chars (c :: cs) = c :: kept.
Proof.
  intros Hc. cbn [rstrip_chars]. destruct (rstrip_chars cs); rewrite ?Hc; by eexists.
Qed.

Lemma blank_app (a b : string) : blank (a +:+ b) = blank a && blank b.
Proof.
  induction a as [|c a IH]; [done|]. rewrite append_cons. simpl.
  by rewrite IH, andb_assoc.
Qed.

Lemma is_space_blank (c : string) : is_space c = true → blank c = true.
Proof.
  unfold is_space. intros (x & Hin & Heq)%existsb_exists.
  apply String.eqb_eq in Heq. subst x.
  assert (Hall : forallb blank whitespace = true) by (vm_compute; reflexivity).
  exact (proj1 (forallb_forall _ _) Hall c Hin).
Qed.

Lemma blank_concat (cs : list string) :
  forallb is_space cs = true → blank (String.concat "" cs) = true.
Proof.
  induction cs as [|c cs IH]; [done|]. simpl forallb.
  intros [Hc Hcs]%andb_true_iff.
  by rewrite concat_cons, blank_app, (is_space_blank _ Hc), IH.
Qed.

Lemma py_strip_split (b : ascii) (t : string) :
  (∀ x, is_space (String b x) = false) →
  ∃ tail, String b t = py_strip (String b t) +:+ tail ∧ blank tail = true.
Proof.
  intros Hb. unfold py_strip.
  destruct (code_points_cons b t) as (x & rest & Hcp).
  destruct (rstrip_chars_split (code_points (String b t))) as (dropped & Hsplit & Hdropped).
  destruct (rstrip_chars_head (String b x) rest (Hb x)) as (kept & Hkept).
  rewrite Hcp in Hsplit |- *. rewrite Hkept in Hsplit |- *.
  cbn [lstrip_chars]. rewrite (Hb x).
  exists (String.concat "" dropped). split; [|by apply blank_concat].
  by rewrite <- concat_app, <- Hsplit, <- Hcp, concat_code_points.
Qed.

Lemma prefix_blank_byte (label cur : string) (c : ascii) :
  solid_end label = true → blank_byte c = true →
  String.prefix label (cur +:+ String c "") = String.prefix label cur.
Proof.
  intros Hlabel Hc. revert label Hlabel.
  induction cur as [|x cur IH]; intros [|a label] Hlabel; try done.
  - change ("" +:+ String c "") with (String c ""). simpl.
    destruct (ascii_dec a c) as [->|]; [|done].
    destruct label; [|done]. simpl in Hlabel. by rewrite Hc in Hlabel.
  - rewrite append_cons. simpl. destruct (ascii_dec a x); [|done].
    apply IH. by destruct label.
Qed.

Lemma blank_tail_lines (label : string) (tail cur : string) :
  solid_end label = true → String.prefix label "" = false → blank tail = true →
  length (filter (λ l, String.prefix label l = true) (lines_from cur tail)) =
  length (filter (λ l, String.prefix label l = true) [cur]).
Proof.
  intros Hlabel Hne. revert cur. induction tail as [|c tail IH]; intros cur; [done|].
  simpl. intros [Hc Htail]%andb_true_iff.
  destruct (Ascii.eqb c "010"%char).
  - rewrite filter_cons. rewrite (filter_cons _ cur []).
    destruct (decide (String.prefix label cur = true)); simpl; rewrite (IH "" Htail);
      by rewrite filter_cons_False by (by rewrite Hne).
  - rewrite (IH _ Htail). rewrite !(filter_cons _ _ []).
    pose proof (prefix_blank_byte _ cur _ Hlabel Hc) as Hsame.
    repeat case_decide; simpl; congruence.
Qed.

Lemma stripped_lines (label : string) (text tail cur : string) :
  solid_end label = true → String.prefix label "" = false → blank tail = true →
  length (filter (λ l, String.prefix label l = true) (lines_from cur (text +:+ tail))) =
  length (filter (λ l, String.prefix label l = true) (lines_from cur text)).
Proof.
  intros Hlabel Hne Htail. revert cur.
  induction text as [|c text IH]; intros cur.
  - change ("" +:+ tail) with tail. by apply blank_tail_lines.
  - rewrite append_cons. simpl. destruct (Ascii.eqb c "010"%char).
    + rewrite !(filter_cons _ cur). by destruct (decide _); simpl; rewrite IH.
    + apply IH.
Qed.

Lemma count_lines_strip (label : string) (b : ascii) (t : string) :
  (∀ x, is_space (String b x) = false) →
  solid_end label = true → String.prefix label "" = false →
  count_lines label (py_strip (String b t)) = count_lines label (String b t).
Proof.
  intros Hb Hlabel Hne. destruct (py_strip_split b t Hb) as (tail & Hsplit & Htail).
  unfold count_lines, lines. rewrite Hsplit at 2. symmetry. by apply stripped_lines.
Qed.

Lemma lines_from_line (x cur rest : string) :
  no_line_break x = true →
  lines_from cur (x +:+ nl +:+ rest) = (cur +:+ x) :: lines_from "" rest.
Proof.
  revert cur. induction x as [|c x IH]; intros cur.
  - intros _. by rewrite append_nil_r.
  - cbn [no_line_break]. intros [Hc Hx]%andb_true_iff.
    rewrite append_cons. cbn [lines_from].
    destruct (Ascii.eqb c "010"%char); [done|].
    rewrite (IH _ Hx). by rewrite append_assoc.
Qed.

Lemma no_line_break_app (a b : string) :
  no_line_break (a +:+ b) = no_line_break a && no_line_break b.
Proof.
  induction a as [|c a IH]; [done|]. rewrite append_cons. simpl.
  by rewrite IH, andb_assoc.
Qed.

Lemma spec_field_line_cases (f : gmap string value) :
  (phone_field f = true ∧ email_field f = false ∧
   ∃ x, extracted py_repr f = Some x ∧
        spec_field_line py_repr f = Some ("Телефон: " +:+ x +:+ nl)) ∨
  (phone_field f = false ∧ email_field f = true ∧
   ∃ x, extracted py_repr f = Some x ∧
        spec_field_line py_repr f = Some ("Email: " +:+ x +:+ nl)) ∨
  (phone_field f = false ∧ email_field f = false ∧
   extracted py_repr f = None ∧ spec_field_line py_repr f = None).
Proof.
  unfold phone_field, email_field, spec_field_line, extracted.
  destruct (py_eq_str (dict_get f "code" VNone) "PHONE") eqn:Hphone.
  - rewrite (phone_is_not_email _ Hphone).
    destruct (first_value f) as [v|]; cbn [andb orb bool_decide fmap option_fmap option_map].
    + left. split; [done|]. split; [done|]. by eexists.
    + right; right. by repeat split.
  - destruct (py_eq_str (dict_get f "code" VNone) "EMAIL"), (first_value f) as [v|];
      cbn [andb orb bool_decide fmap option_fmap option_map].
    + right; left. split; [done|]. split; [done|]. by eexists.
    + right; right. by repeat split.
    + right; right. by repeat split.
    + right; right. by repeat split.
Qed.

Lemma coded_lines_counted (fields : list (gmap string value)) :
  forallb no_line_break (omap (extracted py_repr) fields) = true →
  length (filter (λ l, String.prefix "Телефон:" l = true)
            (lines_from "" (foldr String.append "" (field_lines py_repr fields)))) =
    length (filter (λ f, phone_field f = true) fields) ∧
  length (filter (λ l, String.prefix "Email:" l = true)
            (lines_from "" (foldr String.append "" (field_lines py_repr fields)))) =
    length (filter (λ f, email_field f = true) fields).
Proof.
  induction fields as [|f fs IH]; [done|].
  unfold field_lines in *. cbn [omap list_omap].
  destruct (spec_field_line_cases f)
    as [(Hp & He & x & -> & ->)|[(Hp & He & x & -> & ->)|(Hp & He & -> & ->)]].
  - cbn [forallb foldr]. intros [Hx Hfs]%andb_true_iff. destruct (IH Hfs) as [IHp IHe].
    rewrite !append_assoc, <- !(append_assoc _ x), !lines_from_line
      by (by rewrite no_line_break_app, Hx).
    change ("" +:+ ?s) with s.
    rewrite !(filter_cons _ f), Hp, He.
    rewrite (filter_cons_True (λ l, String.prefix "Телефон:" l = true))
      by (change ("Телефон: " +:+ x) with ("Телефон:" +:+ (" " +:+ x)); apply prefix_append).
    rewrite (filter_cons_False (λ l, String.prefix "Email:" l = true))
      by (rewrite append_cons; simpl; discriminate).
    simpl. by rewrite IHp, IHe.
  - cbn [forallb foldr]. intros [Hx Hfs]%andb_true_iff. destruct (IH Hfs) as [IHp IHe].
    rewrite !append_assoc, <- !(append_assoc _ x), !lines_from_line
      by (by rewrite no_line_break_app, Hx).
    change ("" +:+ ?s) with s.
    rewrite !(filter_cons _ f), Hp, He.
    rewrite (filter_cons_False (λ l, String.prefix "Телефон:" l = true))
      by (rewrite append_cons; simpl; discriminate).
    rewrite (filter_cons_True (λ l, String.prefix "Email:" l = true))
      by (change ("Email: " +:+ x) with ("Email:" +:+ (" " +:+ x)); apply prefix_append).
    simpl. by rewrite IHp, IHe.
  - intros Hfs. destruct (IH Hfs) as [IHp IHe].
    rewrite !(filter_cons _ f), Hp, He. simpl. by rewrite IHp, IHe.
Qed.

Lemma contact_head_lines (contact : gmap string value) (event_type rest : string) :
  ∃ title h,
    title = String "240" h ∧
    no_line_break title = true ∧
    String.prefix "Телефон:" title = false ∧
    String.prefix "Email:" title = false ∧
    contact_head py_repr contact event_type +:+ rest =
      title +:+ nl +:+
      ("Имя: " +:+ py_str (dict_get contact "name" (VStr "Без имени"))) +:+ nl +:+ rest.
Proof.
  unfold contact_head, contact_title.
  destruct (String.eqb event_type "new").
  - exists "👤 <b>Создан новый контакт</b>". eexists.
    do 4 (split; [reflexivity|]). by rewrite !append_assoc.
  - exists "👤 <b>Обновлен контакт</b>". eexists.
    do 4 (split; [reflexivity|]). by rewrite !append_assoc.
Qed.

(** C6, amended. The contact formatter returns a message for every contact
    whose custom fields are a list of objects with lists of objects as
    values.  Whenever it returns a message for a contact, the message is
    the stripped text of the head followed by one line for each custom field
    coded PHONE that has a value and one line for each custom field coded
    EMAIL that has a value, in the order of the fields, each made from the
    first value of its field; there is no limit of one line per code.  When
    neither the name nor an extracted value holds a line break, the message
    therefore has as many lines that start with the phone label as there
    are fields coded PHONE with a value, and as many lines that start with
    the email label as there are fields coded EMAIL with a value.  The
    labels are counted without their trailing space, which stripping
    removes after an empty last value. *)
Theorem contact_one_line_per_coded_field (contact : gmap string value)
    (event_type : string) :
  (∀ fields,
     contact !! "custom_fields" = Some (VList (VDict <$> fields)) →
     forallb field_shaped fields = true →
     ∃ message, format_contact_message py_repr contact event_type = Ret message) ∧
  (∀ message,
     format_contact_message py_repr contact event_type = Ret message →
     message =
       py_strip (contact_head py_repr contact event_type +:+
                 foldr String.append "" (field_lines py_repr (custom_fields contact))) ∧
     (no_line_break (py_str (dict_get contact "name" (VStr "Без имени"))) = true →
      forallb no_line_break (omap (extracted py_repr) (custom_fields contact)) = true →
      count_lines "Телефон:" message =
        length (filter (λ f, phone_field f = true) (custom_fields contact)) ∧
      count_lines "Email:" message =
        length (filter (λ f, email_field f = true) (custom_fields contact)))).
Proof.
  split.
  { intros fields Hcf Hshape.
    unfold format_contact_message, dict_has, dict_get. rewrite Hcf. simpl.
    rewrite (contact_fields_shaped _ _ Hshape). by eexists. }
  intros message Hrun. pose proof (contact_message_returns _ _ _ Hrun) as ->.
  split; [done|]. intros Hname Hvalues.
  destruct (contact_head_lines contact event_type
              (foldr String.append "" (field_lines py_repr (custom_fields contact))))
    as (title & h & -> & Htitle & Hphone & Hemail & ->).
  destruct (coded_lines_counted _ Hvalues) as [Hp He].
  rewrite append_cons, !count_lines_strip by reflexivity.
  rewrite <- append_cons. unfold count_lines, lines.
  rewrite (lines_from_line _ _ _ Htitle), lines_from_line
    by (by rewrite no_line_break_app, Hname).
  change ("" +:+ ?s) with s.
  rewrite !(filter_cons_False _ (String "240" h)) by (by rewrite ?Hphone, ?Hemail).
  rewrite !filter_cons_False by (rewrite !append_cons; simpl; discriminate).
  by rewrite Hp, He.
Qed.

End Proofs.

(** * More of the store *)

Section StoreProofs.

Variable py_repr : value → string.

Abbreviation upd := (update_lead_status py_repr).
Abbreviation lookup_name := (get_status_name py_repr).
Abbreviation str := (py_str py_repr).

Lemma touch_elsewhere (m : gmap string value) (sid k : string) (name : value)
    (ts : string) :
  k ≠ sid → touch m sid name ts !! k = m !! k.
Proof.
  intros Hk. unfold touch.
  destruct (m !! sid) as [[| | | | |d]|]; by rewrite lookup_insert_ne.
Qed.

Lemma touch_dom (m : gmap string value) (sid : string) (name : value) (ts : string) :
  dom (touch m sid name ts) = {[ sid ]} ∪ dom m.
Proof.
  unfold touch. destruct (m !! sid) as [[| | | | |d]|]; by rewrite dom_insert_L.
Qed.

Lemma sane_store (w : world) (scope_id : string) :
  sane w scope_id →
  ∃ m, store_view w scope_id = VDict m ∧ store_ok (VDict m) = true.
Proof.
  intros Hs. destruct (store_ok_inv _ Hs) as (m & Hm & _).
  exists m. split; [done|]. unfold sane in Hs. by rewrite Hm in Hs.
Qed.

(** The name a lookup finds in a mapping. *)
Lemma lookup_in_store (scope_id : string) (id : value) (w : world)
    (m d : gmap string value) (name : value) :
  store_view w scope_id = VDict m →
  m !! str id = Some (VDict d) →
  d !! "name" = Some name →
  ∃ w', lookup_name scope_id id w = (Ret name, w') ∧ quiet w w'.
Proof.
  intros Hm Hd Hn.
  destruct (get_status_name_run py_repr scope_id id w) as (w' & Hrun & Hq).
  exists w'. split; [|done]. rewrite Hrun, Hm. simpl. rewrite Hd. simpl. by rewrite Hn.
Qed.

Lemma lookup_sane (scope_id : string) (id : value) (w : world) :
  sane w scope_id →
  ∃ v w', lookup_name scope_id id w = (Ret v, w') ∧ quiet w w'.
Proof.
  intros Hs. destruct (store_ok_inv _ Hs) as (m & Hm & Hall).
  destruct (m !! str id) as [r|] eqn:E.
  - destruct (record_ok_inv r (Hall _ _ E)) as (d & -> & [n Hn] & _).
    destruct (lookup_in_store scope_id id w m d n Hm E Hn) as (w' & ? & ?). eauto.
  - destruct (fallback_run py_repr scope_id id w m Hm E) as (w' & ? & ?). eauto.
Qed.

(** X1. An update changes the record of its own id only, and removes no
    id: the ids after it are the ids before it and its own. *)
Theorem update_changes_only_its_record (scope_id : string) (status_id status_name : value)
    (w : world) :
  sane w scope_id →
  ∃ m m' w',
    store_view w scope_id = VDict m ∧
    upd scope_id status_id status_name w = (Ret (VDict m'), w') ∧
    (∀ k, k ≠ str status_id → m' !! k = m !! k) ∧
    dom m' = {[ str status_id ]} ∪ dom m.
Proof.
  intros Hs.
  destruct (update_sane py_repr scope_id status_id status_name w Hs)
    as (m & w' & Hm & Hrun & _).
  eexists m, _, w'. split; [done|]. split; [exact Hrun|]. split.
  - intros k Hk. by apply touch_elsewhere.
  - apply touch_dom.
Qed.

(** X2. An update of an id the store holds keeps every field of its record
    but [name] and [last_updated]: [first_seen] in particular. *)
Theorem update_keeps_the_other_fields (scope_id : string) (status_id status_name : value)
    (w : world) (m d : gmap string value) :
  store_view w scope_id = VDict m →
  m !! str status_id = Some (VDict d) →
  ∃ m' w' d',
    upd scope_id status_id status_name w = (Ret (VDict m'), w') ∧
    m' !! str status_id = Some (VDict d') ∧
    d' !! "name" = Some status_name ∧
    d' !! "first_seen" = d !! "first_seen" ∧
    (∀ field, field ≠ "name" → field ≠ "last_updated" → d' !! field = d !! field).
Proof.
  intros Hm Hd.
  destruct (update_run py_repr scope_id status_id status_name w m Hm) as (w' & Hrun & _).
  { intros r Hr. rewrite Hd in Hr. injection Hr as <-. eauto. }
  rewrite (touch_known _ _ _ _ _ Hd) in Hrun.
  eexists _, w', _. split; [exact Hrun|]. split; [apply lookup_insert_eq|].
  split; [rewrite lookup_insert_ne by done; apply lookup_insert_eq|].
  split; [by rewrite !lookup_insert_ne|].
  intros field H1 H2. by rewrite !lookup_insert_ne.
Qed.

(** The store names the id as given once an update has been written. *)
Lemma update_resolves (scope_id : string) (status_id status_name : value) (w : world) :
  sane w scope_id →
  next_fate w = Done →
  resolves py_repr (upd scope_id status_id status_name w).2 scope_id status_id status_name.
Proof.
  intros Hs Hf.
  destruct (update_sane py_repr scope_id status_id status_name w Hs)
    as (m & w' & Hm & Hrun & Hd & _).
  destruct (sane_store w scope_id Hs) as (m0 & Hm0 & Hok).
  rewrite Hm in Hm0. injection Hm0 as <-.
  destruct (touch_lookup m (str status_id) status_name (clock w (ticks w)) Hok)
    as (d & Hd1 & Hname & _).
  rewrite Hrun. simpl. eexists _, d. split; [|done].
  rewrite (store_view_written _ _ _ _ Hd). by rewrite Hf.
Qed.

Lemma resolves_lookup (scope_id : string) (id j name : value) (w : world) :
  resolves py_repr w scope_id id name →
  str j = str id →
  (lookup_name scope_id j w).1 = Ret name.
Proof.
  intros (m & d & Hm & Hd & Hn) Hj. rewrite <- Hj in Hd.
  by destruct (lookup_in_store scope_id j w m d name Hm Hd Hn) as (w' & -> & _).
Qed.

(** X3. Update then lookup: once the write is done, a lookup of the id
    returns the name given, also under another spelling of the id
    (the number 142 and the text 142 are one key). *)
Theorem update_then_lookup (scope_id : string) (status_id other_spelling status_name : value)
    (w : world) :
  sane w scope_id →
  next_fate w = Done →
  str other_spelling = str status_id →
  (lookup_name scope_id other_spelling (upd scope_id status_id status_name w).2).1
    = Ret status_name.
Proof.
  intros Hs Hf Hj.
  apply (resolves_lookup scope_id status_id); [by apply update_resolves | done].
Qed.

(** What a lookup returns depends on the record of its id only. *)
Lemma lookup_agree (scope_id : string) (j : value) (w w' : world)
    (m m' : gmap string value) :
  store_view w scope_id = VDict m →
  store_view w' scope_id = VDict m' →
  m' !! str j = m !! str j →
  (lookup_name scope_id j w').1 = (lookup_name scope_id j w).1.
Proof.
  intros Hm Hm' Hj.
  destruct (get_status_name_run py_repr scope_id j w') as (? & -> & _).
  destruct (get_status_name_run py_repr scope_id j w) as (? & -> & _).
  simpl. rewrite Hm, Hm'. simpl. by rewrite Hj.
Qed.

(** X4. An update whose write is not torn leaves the names of all other ids
    as they were. *)
Theorem update_keeps_other_names (scope_id : string) (status_id other status_name : value)
    (w : world) :
  sane w scope_id →
  next_fate w ≠ Torn →
  str other ≠ str status_id →
  (lookup_name scope_id other (upd scope_id status_id status_name w).2).1
    = (lookup_name scope_id other w).1.
Proof.
  intros Hs Hf Hj.
  destruct (update_sane py_repr scope_id status_id status_name w Hs)
    as (m & w' & Hm & Hrun & Hd & _).
  rewrite Hrun. simpl.
  pose proof (store_view_written _ _ _ _ Hd) as Hv.
  destruct (next_fate w); [| |done].
  - apply (lookup_agree scope_id other w w' m _ Hm Hv). by apply touch_elsewhere.
  - rewrite Hm in Hv. by apply (lookup_agree scope_id other w w' m m Hm Hv).
Qed.

(** X5. A refused write loses the update without a trace in the store:
    the files are as before, and so is every later load and lookup. *)
Theorem refused_write_loses_the_update (scope_id : string) (status_id status_name : value)
    (w : world) :
  sane w scope_id →
  next_fate w = Refused →
  let w' := (upd scope_id status_id status_name w).2 in
  disk w' = disk w ∧
  (load_lead_statuses scope_id w').1 = (load_lead_statuses scope_id w).1 ∧
  ∀ j, (lookup_name scope_id j w').1 = (lookup_name scope_id j w).1.
Proof.
  intros Hs Hf w'.
  destruct (update_sane py_repr scope_id status_id status_name w Hs)
    as (m & w1 & Hm & Hrun & Hd & _).
  subst w'. rewrite Hrun. simpl. rewrite Hf in Hd. simpl in Hd.
  assert (Hv : ∀ s, store_view w1 s = store_view w s)
    by (intros s; unfold store_view; by rewrite Hd).
  split; [done|]. split.
  - destruct (load_run scope_id w1) as (? & -> & _).
    destruct (load_run scope_id w) as (? & -> & _). simpl. by rewrite Hv.
  - intros j.
    destruct (get_status_name_run py_repr scope_id j w1) as (? & -> & _).
    destruct (get_status_name_run py_repr scope_id j w) as (? & -> & _).
    simpl. by rewrite Hv.
Qed.

(** X6. The last save wins: with no write failure ahead, a load after two
    saves returns what the second one saved, whatever the two values. *)
Theorem last_save_wins (scope_id : string) (first second : value) (w : world) :
  plan w = [] →
  ∃ w1 w2 w3,
    save_lead_statuses scope_id first w = (Ret (), w1) ∧
    save_lead_statuses scope_id second w1 = (Ret (), w2) ∧
    load_lead_statuses scope_id w2 = (Ret second, w3).
Proof.
  intros Hp.
  destruct (save_run scope_id first w) as (w1 & H1 & _ & Hp1 & _).
  destruct (save_run scope_id second w1) as (w2 & H2 & Hd2 & _).
  destruct (load_run scope_id w2) as (w3 & H3 & _).
  exists w1, w2, w3. split; [done|]. split; [done|].
  rewrite H3, (store_view_written _ _ _ _ Hd2).
  unfold next_fate. rewrite Hp1, Hp. done.
Qed.

(** X7. Over a well formed store a lookup returns without raising and
    without changing anything but the log; it returns the fallback for an
    id the store does not hold and the stored name otherwise. *)
Theorem lookup_returns_name_or_fallback (scope_id : string) (status_id : value)
    (w : world) :
  sane w scope_id →
  ∃ m v w',
    store_view w scope_id = VDict m ∧
    lookup_name scope_id status_id w = (Ret v, w') ∧
    quiet w w' ∧
    ((m !! str status_id = None ∧ v = VStr ("Статус " +:+ str status_id)) ∨
     (∃ d, m !! str status_id = Some (VDict d) ∧ d !! "name" = Some v)).
Proof.
  intros Hs. destruct (store_ok_inv _ Hs) as (m & Hm & Hall).
  destruct (m !! str status_id) as [r|] eqn:E.
  - destruct (record_ok_inv r (Hall _ _ E)) as (d & -> & [n Hn] & _).
    destruct (lookup_in_store scope_id status_id w m d n Hm E Hn) as (w' & ? & ?).
    exists m, n, w'. split; [done|]. split; [done|]. split; [done|]. right. eauto.
  - destruct (fallback_run py_repr scope_id status_id w m Hm E) as (w' & ? & ?).
    eexists m, _, w'. split; [done|]. split; [eassumption|]. split; [done|]. by left.
Qed.

End StoreProofs.

(** * More of the lead formatter and dispatcher *)

Lemma for_each_app (a b : list value) (body : value → M unit) (w : world) :
  for_each (a ++ b) body w = bind (for_each a body) (λ _, for_each b body) w.
Proof.
  revert w. induction a as [|x a IH]; intros w; simpl.
  - done.
  - unfold bind in *. destruct (body x w) as [[[]|e] w1]; [|done]. apply IH.
Qed.

Section LeadProofs.

Variable py_repr : value → string.

Abbreviation upd := (update_lead_status py_repr).
Abbreviation lookup_name := (get_status_name py_repr).
Abbreviation str := (py_str py_repr).
Abbreviation fmt := (format_lead_message py_repr).
Abbreviation msg_with := (lead_message_with py_repr).

(** The formatter when the lead carries a truthy status id. *)
Lemma format_with_status (lead : gmap string value) (id : value)
    (event_type scope_id : string) (w : world) :
  lead !! "status_id" = Some id →
  py_truthy id = true →
  fmt lead event_type scope_id w =
    match lead !! "status_name" with
    | Some n =>
        match upd scope_id id n w with
        | (Ret _, w1) =>
            if py_truthy n then (Ret (msg_with lead event_type n), w1)
            else match lookup_name scope_id id w1 with
                 | (Ret v, w2) => (Ret (msg_with lead event_type v), w2)
                 | (Raise e, w2) => (Raise e, w2)
                 end
        | (Raise e, w1) => (Raise e, w1)
        end
    | None =>
        match lookup_name scope_id id w with
        | (Ret v, w2) => (Ret (msg_with lead event_type v), w2)
        | (Raise e, w2) => (Raise e, w2)
        end
    end.
Proof.
  intros Hid Ht. unfold format_lead_message, bind, dict_get, lead_message_with.
  rewrite Hid. simpl. rewrite Ht.
  destruct (lead !! "status_name") as [n|].
  - destruct (upd scope_id id n w) as [[m|e] w1]; [|done]. unfold ret.
    destruct (py_truthy n); simpl; [done|].
    by destruct (lookup_name scope_id id w1) as [[v|e] w2].
  - unfold ret. simpl. by destruct (lookup_name scope_id id w) as [[v|e] w2].
Qed.

(** X8. A lead with a status id and no status name is enriched from the
    store: its status line shows the stored name, and nothing is written. *)
Theorem lead_status_from_cache (lead : gmap string value) (id name : value)
    (event_type scope_id : string) (w : world) (m d : gmap string value) :
  lead !! "status_id" = Some id →
  py_truthy id = true →
  lead !! "status_name" = None →
  store_view w scope_id = VDict m →
  m !! str id = Some (VDict d) →
  d !! "name" = Some name →
  ∃ w', fmt lead event_type scope_id w = (Ret (msg_with lead event_type name), w') ∧
        quiet w w'.
Proof.
  intros Hid Ht Hnone Hm Hd Hn.
  rewrite (format_with_status lead id _ _ _ Hid Ht), Hnone.
  destruct (lookup_in_store py_repr scope_id id w m d name Hm Hd Hn) as (w' & -> & Hq).
  by exists w'.
Qed.

(** X9. When the store does not hold the id either, the status line shows
    the fallback, so that it reads [Статус: Статус 142]; nothing is written. *)
Theorem lead_status_fallback_line (lead : gmap string value) (id : value)
    (event_type scope_id : string) (w : world) (m : gmap string value) :
  lead !! "status_id" = Some id →
  py_truthy id = true →
  lead !! "status_name" = None →
  store_view w scope_id = VDict m →
  m !! str id = None →
  ∃ w', fmt lead event_type scope_id w =
          (Ret (msg_with lead event_type (VStr ("Статус " +:+ str id))), w') ∧
        quiet w w'.
Proof.
  intros Hid Ht Hnone Hm Hd.
  rewrite (format_with_status lead id _ _ _ Hid Ht), Hnone.
  destruct (fallback_run py_repr scope_id id w m Hm Hd) as (w' & -> & Hq).
  by exists w'.
Qed.

(** X10. A lead with a status id and a truthy status name shows that name,
    whatever the store holds and whatever becomes of the write, and leaves
    the world as the update of that id leaves it. *)
Theorem lead_with_explicit_status_name (lead : gmap string value) (id name : value)
    (event_type scope_id : string) (w : world) :
  sane w scope_id →
  lead !! "status_id" = Some id →
  py_truthy id = true →
  lead !! "status_name" = Some name →
  py_truthy name = true →
  fmt lead event_type scope_id w =
    (Ret (msg_with lead event_type name), (upd scope_id id name w).2).
Proof.
  intros Hs Hid Ht Hname Htn.
  rewrite (format_with_status lead id _ _ _ Hid Ht), Hname.
  destruct (update_sane py_repr scope_id id name w Hs) as (m & w1 & _ & -> & _).
  by rewrite Htn.
Qed.

(** X11. A status name that is present but falsy (null, the empty text, 0)
    is still written to the store, and once written it is what the status
    line shows: null is rendered as [None], not as the fallback. *)
Theorem lead_with_falsy_status_name (lead : gmap string value) (id name : value)
    (event_type scope_id : string) (w : world) :
  sane w scope_id →
  next_fate w = Done →
  lead !! "status_id" = Some id →
  py_truthy id = true →
  lead !! "status_name" = Some name →
  py_truthy name = false →
  (fmt lead event_type scope_id w).1 = Ret (msg_with lead event_type name) ∧
  resolves py_repr (fmt lead event_type scope_id w).2 scope_id id name.
Proof.
  intros Hs Hf Hid Ht Hname Htn.
  rewrite (format_with_status lead id _ _ _ Hid Ht), Hname.
  pose proof (update_resolves py_repr scope_id id name w Hs Hf) as Hres.
  destruct (upd scope_id id name w) as [[m1|e] w1] eqn:Hrun.
  2:{ destruct (update_sane py_repr scope_id id name w Hs) as (? & ? & _ & Hr & _).
      rewrite Hr in Hrun. discriminate. }
  rewrite Htn. simpl in Hres.
  destruct Hres as (m & d & Hm & Hd & Hn).
  destruct (lookup_in_store py_repr scope_id id w1 m d name Hm Hd Hn) as (w2 & -> & Hq).
  simpl. split; [done|].
  exists m, d. split; [|done]. by rewrite (quiet_store_view w1 w2).
Qed.

Lemma format_lead_offline (lead : gmap string value) (event_type scope_id : string) :
  offline (fmt lead event_type scope_id).
Proof.
  pose proof (update_offline py_repr). pose proof (get_status_name_offline py_repr).
  unfold format_lead_message.
  destruct (py_truthy (dict_get lead "status_id" VNone)); [|auto 10 with offline].
  destruct (lead !! "status_name"); auto 10 with offline.
Qed.

(** The formatter over a well formed store: it returns, keeps the store
    well formed, sends nothing and schedules no failure. *)
Lemma format_lead_sane (lead : gmap string value) (event_type scope_id : string)
    (w : world) :
  sane w scope_id →
  ∃ msg w', fmt lead event_type scope_id w = (Ret msg, w') ∧
            sane w' scope_id ∧ outbox w' = outbox w ∧ (plan w = [] → plan w' = []) ∧
            net w' = net w.
Proof.
  intros Hs.
  assert (Hlook : ∀ w0, sane w0 scope_id → ∀ id,
            ∃ v w2, lookup_name scope_id id w0 = (Ret v, w2) ∧ sane w2 scope_id ∧
                    outbox w2 = outbox w0 ∧ plan w2 = plan w0).
  { intros w0 Hs0 id.
    destruct (lookup_sane py_repr scope_id id w0 Hs0) as (v & w2 & Hrun & Hq).
    exists v, w2. split; [done|]. split.
    - unfold sane. by rewrite (quiet_store_view w0 w2).
    - by destruct Hq as (_ & -> & _ & _ & -> & _). }
  pose proof (format_lead_offline lead event_type scope_id w) as Hnet.
  destruct (lead !! "status_id") as [id|] eqn:Hid.
  2:{ rewrite format_without_status by (unfold dict_get; by rewrite Hid). eauto 10. }
  destruct (py_truthy id) eqn:Ht.
  2:{ rewrite format_without_status by (unfold dict_get; by rewrite Hid). eauto 10. }
  rewrite (format_with_status lead id _ _ _ Hid Ht) in Hnet |- *.
  destruct (lead !! "status_name") as [n|].
  - destruct (update_sane py_repr scope_id id n w Hs)
      as (m & w1 & _ & Hrun & _ & Hp & _ & _ & Ho).
    pose proof (update_keeps_sane py_repr scope_id id n w scope_id Hs Hs) as Hs1.
    rewrite Hrun in Hs1, Hnet |- *. simpl in Hs1.
    assert (Hp1 : plan w = [] → plan w1 = []) by (intros E; by rewrite Hp, E).
    destruct (py_truthy n); [eauto 10|].
    destruct (Hlook w1 Hs1 id) as (v & w2 & Hrun2 & Hs2 & Ho2 & Hp2).
    rewrite Hrun2 in Hnet |- *.
    eexists _, w2. split; [done|]. split; [done|]. split; [congruence|].
    split; [|done]. intros E. rewrite Hp2. by apply Hp1.
  - destruct (Hlook w Hs id) as (v & w2 & Hrun2 & Hs2 & Ho2 & Hp2).
    rewrite Hrun2 in Hnet |- *.
    eexists _, w2. split; [done|]. split; [done|]. split; [done|].
    split; [congruence | done].
Qed.

Lemma send_answered (chat_id text : string) (w : world) :
  net w = [] →
  send_message chat_id text w =
    (Ret (), World (disk w) (plan w) (clock w) (ticks w) (journal w)
               (outbox w ++ [(chat_id, text)]) []).
Proof. intros H. unfold send_message. by rewrite H. Qed.

Lemma send_keeps_files (chat_id text : string) (w : world) :
  disk (send_message chat_id text w).2 = disk w.
Proof. unfold send_message. by destruct (net w) as [|[| |] ?]. Qed.

Lemma process_lead_sane (lead : gmap string value) (chat_id scope_id : string)
    (w : world) :
  sane w scope_id →
  net w = [] →
  ∃ w' sent,
    process_lead py_repr lead chat_id scope_id w = (Ret (), w') ∧
    sane w' scope_id ∧ (plan w = [] → plan w' = []) ∧ net w' = [] ∧
    outbox w' = outbox w ++ ((λ text, (chat_id, text)) <$> sent) ∧
    length sent = (if decided py_repr lead then 1 else 0).
Proof.
  intros Hs Hnet. rewrite process_lead_emit. unfold decided.
  destruct (spec_lead_kind py_repr lead) as [k|]; simpl.
  - unfold bind.
    destruct (format_lead_sane lead (kind_name k) scope_id w Hs)
      as (msg & w1 & -> & Hs1 & Ho & Hp & Hn).
    rewrite send_answered by congruence. eexists _, [msg]. split; [done|]. simpl.
    split; [done|]. split; [done|]. split; [done|]. by rewrite Ho.
  - exists w, []. simpl. by rewrite app_nil_r.
Qed.

Lemma process_leads_sane (leads : list (gmap string value))
    (chat_id scope_id : string) (w : world) :
  sane w scope_id →
  net w = [] →
  ∃ w' sent,
    process_leads py_repr leads chat_id scope_id w = (Ret (), w') ∧
    sane w' scope_id ∧ (plan w = [] → plan w' = []) ∧ net w' = [] ∧
    outbox w' = outbox w ++ ((λ text, (chat_id, text)) <$> sent) ∧
    length sent = length (filter (λ lead, decided py_repr lead = true) leads).
Proof.
  revert w. induction leads as [|lead leads IH]; intros w Hs Hnet.
  - exists w, []. simpl. by rewrite app_nil_r.
  - simpl. unfold bind.
    destruct (process_lead_sane lead chat_id scope_id w Hs Hnet)
      as (w1 & sent1 & -> & Hs1 & Hp1 & Hn1 & Ho1 & Hl1).
    destruct (IH w1 Hs1 Hn1) as (w2 & sent2 & -> & Hs2 & Hp2 & Hn2 & Ho2 & Hl2).
    exists w2, (sent1 ++ sent2). split; [done|]. split; [done|].
    split; [auto|]. split; [done|]. split.
    + by rewrite Ho2, Ho1, fmap_app, app_assoc.
    + rewrite length_app, Hl1, Hl2, filter_cons.
      destruct (decided py_repr lead); by case_decide.
Qed.

(** The store stays well formed whatever becomes of the calls to the sink. *)
Lemma process_lead_keeps_sane (lead : gmap string value) (chat_id scope_id : string)
    (w : world) :
  sane w scope_id → sane (process_lead py_repr lead chat_id scope_id w).2 scope_id.
Proof.
  intros Hs. rewrite process_lead_emit.
  destruct (spec_lead_kind py_repr lead) as [k|]; simpl; [|done].
  unfold bind.
  destruct (format_lead_sane lead (kind_name k) scope_id w Hs) as (msg & w1 & -> & Hs1 & _).
  unfold sane, store_view in *. by rewrite send_keeps_files.
Qed.

Lemma process_leads_keep_sane (leads : list (gmap string value))
    (chat_id scope_id : string) (w : world) :
  sane w scope_id → sane (process_leads py_repr leads chat_id scope_id w).2 scope_id.
Proof.
  revert w. induction leads as [|lead leads IH]; intros w Hs; [done|].
  simpl. unfold bind.
  pose proof (process_lead_keeps_sane lead chat_id scope_id w Hs) as Hs1.
  destruct (process_lead py_repr lead chat_id scope_id w) as [[[]|e] w1]; [|done].
  by apply IH.
Qed.

(** X12. Over a well formed store the lead dispatcher keeps the store well
    formed, whatever becomes of its calls to the sink; when no call fails
    it returns without raising and has added to the outbox one message, to
    the given chat, for each lead the rules decide a kind for. *)
Theorem process_leads_over_a_sane_store (leads : list (gmap string value))
    (chat_id scope_id : string) (w : world) :
  sane w scope_id →
  sane (process_leads py_repr leads chat_id scope_id w).2 scope_id ∧
  (net w = [] →
   ∃ w' sent,
     process_leads py_repr leads chat_id scope_id w = (Ret (), w') ∧
     sane w' scope_id ∧
     outbox w' = outbox w ++ ((λ text, (chat_id, text)) <$> sent) ∧
     length sent = length (filter (λ lead, decided py_repr lead = true) leads)).
Proof.
  intros Hs. split; [by apply process_leads_keep_sane|]. intros Hnet.
  destruct (process_leads_sane leads chat_id scope_id w Hs Hnet)
    as (w' & sent & ? & ? & _ & _ & ? & ?).
  by exists w', sent.
Qed.

Lemma format_lead_confined (lead : gmap string value) (event_type scope_id : string) :
  confined (get_status_file_path scope_id) (fmt lead event_type scope_id).
Proof.
  pose proof (update_confined py_repr). pose proof (get_status_name_confined py_repr).
  unfold format_lead_message.
  destruct (py_truthy (dict_get lead "status_id" VNone)); [|auto 10 with confined].
  destruct (lead !! "status_name"); auto 10 with confined.
Qed.

Lemma process_lead_confined (lead : gmap string value) (chat_id scope_id : string) :
  confined (get_status_file_path scope_id) (process_lead py_repr lead chat_id scope_id).
Proof.
  pose proof format_lead_confined.
  unfold process_lead. auto 10 with confined.
Qed.

Lemma process_leads_confined (leads : list (gmap string value)) (chat_id scope_id : string) :
  confined (get_status_file_path scope_id) (process_leads py_repr leads chat_id scope_id).
Proof.
  pose proof process_lead_confined.
  induction leads as [|lead leads IH]; simpl; auto 10 with confined.
Qed.

(** X13. Dispatching the leads of one scope changes no file of another
    scope, whether it returns or raises: what the other scope holds and
    every lookup in it are as before. *)
Theorem process_leads_keeps_other_scopes (leads : list (gmap string value))
    (chat_id a b : string) (w : world) :
  a ≠ b →
  let w' := (process_leads py_repr leads chat_id a w).2 in
  store_view w' b = store_view w b ∧
  (load_lead_statuses b w').1 = (load_lead_statuses b w).1 ∧
  ∀ j, (lookup_name b j w').1 = (lookup_name b j w).1.
Proof.
  intros Hab w'.
  assert (Hview : store_view w' b = store_view w b).
  { apply (store_view_elsewhere w w' a b Hab). intros q Hq.
    by apply process_leads_confined. }
  split; [done|]. split.
  - destruct (load_run b w') as (? & -> & _). destruct (load_run b w) as (? & -> & _).
    simpl. by rewrite Hview.
  - intros j.
    destruct (get_status_name_run py_repr b j w') as (? & -> & _).
    destruct (get_status_name_run py_repr b j w) as (? & -> & _).
    simpl. by rewrite Hview.
Qed.

(** The loop over a payload of objects is the loop over the records. *)
Lemma process_lead_item_dict (lead : gmap string value) (chat_id scope_id : string)
    (w : world) :
  process_lead_item py_repr (VDict lead) chat_id scope_id w =
  process_lead py_repr lead chat_id scope_id w.
Proof.
  unfold process_lead_item, process_lead, bind, lift, dict_has, dict_get. simpl.
  destruct (lead !! "add"); simpl; [done|].
  destruct (py_truthy (default VNone (lead !! "status_id"))); [done|].
  by destruct (lead !! "update").
Qed.

Lemma for_each_leads (leads : list (gmap string value)) (chat_id scope_id : string)
    (w : world) :
  for_each (VDict <$> leads) (λ lead, process_lead_item py_repr lead chat_id scope_id) w =
  process_leads py_repr leads chat_id scope_id w.
Proof.
  revert w. induction leads as [|lead leads IH]; intros w; simpl; [done|].
  unfold bind. rewrite process_lead_item_dict.
  destruct (process_lead py_repr lead chat_id scope_id w) as [[[]|e] w1]; [|done].
  apply IH.
Qed.

Lemma process_lead_item_bad (item : value) (chat_id scope_id : string) (w : world) :
  as_dict item = None →
  process_lead_item py_repr item chat_id scope_id w = (Raise (bad_item_error item), w).
Proof.
  intros Hbad. unfold process_lead_item, bind, lift.
  destruct item as [| | |s|l|d]; try done; simpl.
  - by destruct (is_substring "add" s).
  - by destruct (existsb (λ x, py_eq_str x "add") l).
Qed.

(** X14. An item of the leads section that is not an object stops the loop:
    when the leads before it have been handled without raising, their
    messages and stored statuses stay, the exception is [AttributeError]
    for a text or a list and [TypeError] for null, a boolean or a number,
    and nothing after the item is looked at. *)
Theorem bad_lead_item_aborts (before : list (gmap string value)) (item : value)
    (after : list value) (chat_id scope_id : string) (w : world) :
  (process_leads py_repr before chat_id scope_id w).1 = Ret () →
  as_dict item = None →
  process_leads_payload py_repr (VList ((VDict <$> before) ++ item :: after))
    chat_id scope_id w =
  (Raise (bad_item_error item), (process_leads py_repr before chat_id scope_id w).2).
Proof.
  intros Hbefore Hbad. unfold process_leads_payload, for_in, bind at 1, lift. simpl.
  rewrite for_each_app. unfold bind. rewrite for_each_leads.
  destruct (process_leads py_repr before chat_id scope_id w) as [[[]|e] w1];
    [|discriminate].
  simpl. unfold bind. by rewrite process_lead_item_bad.
Qed.

End LeadProofs.

(** * The contact and task formatters *)

Section ContactTaskProofs.

Variable py_repr : value → string.

Abbreviation str := (py_str py_repr).

Lemma contact_fields_app (a b : list value) (message : string) :
  contact_fields py_repr (a ++ b) message =
  (let? message := contact_fields py_repr a message in contact_fields py_repr b message).
Proof.
  revert message. induction a as [|x a IH]; intros message; simpl; [done|].
  destruct (contact_field py_repr x message) as [m1|e]; simpl; [apply IH | done].
Qed.

Lemma contact_field_first_value (field : gmap string value) (v : value)
    (rest : list value) (message : string) :
  contact_field py_repr (VDict (<["values" := VList (v :: rest)]> field)) message =
  contact_field py_repr (VDict (<["values" := VList [v]]> field)) message.
Proof.
  unfold contact_field, first_value_line. simpl.
  rewrite !(lookup_insert_ne _ "values" "code") by done.
  by rewrite !lookup_insert_eq.
Qed.

(** X15. Of the values of a custom field only the first is ever looked at:
    dropping the others, whatever they are, changes neither the message nor
    whether the formatter raises. *)
Theorem contact_uses_first_value_only (contact field : gmap string value)
    (event_type : string) (before after rest : list value) (v : value) :
  contact !! "custom_fields" =
    Some (VList (before ++ VDict (<["values" := VList (v :: rest)]> field) :: after)) →
  format_contact_message py_repr contact event_type =
  format_contact_message py_repr
    (<["custom_fields" :=
         VList (before ++ VDict (<["values" := VList [v]]> field) :: after)]> contact)
    event_type.
Proof.
  intros Hcf.
  assert (Hhead : contact_head py_repr
                    (<["custom_fields" :=
                         VList (before ++ VDict (<["values" := VList [v]]> field) :: after)]>
                       contact) event_type
                  = contact_head py_repr contact event_type).
  { unfold contact_head, dict_get. by rewrite lookup_insert_ne. }
  unfold format_contact_message, dict_has, dict_get.
  rewrite Hhead, Hcf, lookup_insert_eq.
  rewrite !bool_decide_eq_true_2 by eauto.
  cbn [default from_option id py_iter rbind]. unfold id. cbn [py_iter rbind].
  rewrite !contact_fields_app.
  destruct (contact_fields py_repr before (contact_head py_repr contact event_type))
    as [m0|e]; cbn [rbind contact_fields]; [|done].
  by rewrite contact_field_first_value.
Qed.

(** X16. A custom field that is not an object makes the formatter raise
    [AttributeError], whatever follows it. *)
Theorem contact_bad_field_raises (contact : gmap string value) (event_type : string)
    (before : list (gmap string value)) (item : value) (after : list value) :
  contact !! "custom_fields" = Some (VList ((VDict <$> before) ++ item :: after)) →
  forallb field_shaped before = true →
  as_dict item = None →
  format_contact_message py_repr contact event_type = Raise AttributeError.
Proof.
  intros Hcf Hshape Hbad. unfold format_contact_message, dict_has, dict_get.
  rewrite Hcf. simpl. rewrite contact_fields_app.
  rewrite (contact_fields_shaped py_repr _ _ Hshape). simpl.
  by destruct item.
Qed.

(** ** Tasks *)

Lemma process_task_emit (local_time : Z → res string) (task : gmap string value)
    (chat_id : string) (w : world) :
  process_task py_repr local_time (VDict task) chat_id w =
  emit_task py_repr local_time task (spec_task_kind task) chat_id w.
Proof.
  unfold process_task, spec_task_kind, emit_task, bind, lift, dict_get. simpl.
  destruct (task !! "add"); simpl; [done|].
  destruct (py_truthy (default VNone (task !! "is_completed"))); simpl; [done|].
  by destruct (task !! "update").
Qed.

(** X17. The task dispatcher sends the message of the kind decided by the
    rules of the specification (new with an add marker, else completed with
    a truthy completion flag, else update with an update marker) and nothing
    when they decide none; the completed task of the specification formats
    to the check-mark message, which is what is handed to the sink, and
    which is in the outbox when the call is answered. *)
Theorem task_dispatch_follows_precedence (local_time : Z → res string) :
  (∀ task chat_id w,
     process_task py_repr local_time (VDict task) chat_id w =
     emit_task py_repr local_time task (spec_task_kind task) chat_id w) ∧
  format_task_message py_repr local_time completed_task "completed"
    = Ret completed_message ∧
  (∀ chat_id w,
     process_task py_repr local_time (VDict completed_task) chat_id w =
     send_message chat_id completed_message w) ∧
  (∀ chat_id w,
     net w = [] →
     (process_task py_repr local_time (VDict completed_task) chat_id w).1 = Ret () ∧
     outbox (process_task py_repr local_time (VDict completed_task) chat_id w).2 =
       outbox w ++ [(chat_id, completed_message)]).
Proof.
  assert (H : format_task_message py_repr local_time completed_task "completed"
              = Ret completed_message) by (vm_compute; reflexivity).
  assert (Hsend : ∀ chat_id w,
            process_task py_repr local_time (VDict completed_task) chat_id w =
            send_message chat_id completed_message w).
  { intros chat_id w. rewrite process_task_emit.
    change (spec_task_kind completed_task) with (Some TaskCompleted).
    unfold emit_task, task_kind_name, bind, lift. by rewrite H. }
  split; [apply process_task_emit|]. split; [done|]. split; [done|].
  intros chat_id w Hnet. by rewrite Hsend, send_answered.
Qed.

Lemma shown_deadline_small (local_time : Z → res string) (v : value) :
  (∀ n, v = VInt n → (n ≤ 1000000000)%Z) →
  shown_deadline py_repr local_time v = Ret (str v).
Proof.
  intros H. destruct v as [| |n| | |]; try done. simpl.
  specialize (H n eq_refl). by rewrite (proj2 (Z.ltb_ge _ _)).
Qed.

(** X18. A task whose deadline is absent, is not an integer, or is an
    integer up to 1000000000 inclusive is formatted without asking for the
    local time: the formatter returns, and the message is the same under
    every rendering of time. *)
Theorem task_without_large_deadline (task : gmap string value) (event_type : string) :
  (∀ n, task !! "complete_till" = Some (VInt n) → (n ≤ 1000000000)%Z) →
  ∃ message, ∀ local_time,
    format_task_message py_repr local_time task event_type = Ret message.
Proof.
  intros H. unfold format_task_message, dict_has, dict_get.
  destruct (task !! "complete_till") as [v|] eqn:E; simpl.
  - eexists. intros local_time.
    rewrite shown_deadline_small; [reflexivity|]. intros n ->. by apply H.
  - eexists. intros local_time. reflexivity.
Qed.

(** X19. An integer deadline above 1000000000 is shown as the local time of
    that instant, between the text and the responsible user; when the
    instant cannot be rendered the formatter raises what the rendering
    raised. *)
Theorem task_with_large_deadline (local_time : Z → res string)
    (task : gmap string value) (event_type : string) (n : Z) :
  task !! "complete_till" = Some (VInt n) →
  (1000000000 < n)%Z →
  format_task_message py_repr local_time task event_type =
    match local_time n with
    | Ret shown =>
        Ret (py_strip (task_head py_repr task event_type +:+
                       "Срок: " +:+ shown +:+ nl +:+ task_responsible py_repr task))
    | Raise e => Raise e
    end.
Proof.
  intros Hd Hn. unfold format_task_message, task_responsible, dict_has, dict_get.
  rewrite Hd. simpl. rewrite (proj2 (Z.ltb_lt _ _) Hn).
  destruct (local_time n) as [shown|e]; simpl; [|done].
  destruct (bool_decide (is_Some (task !! "responsible_user_name"))).
  - by rewrite !append_assoc.
  - by rewrite append_nil_r.
Qed.

End ContactTaskProofs.

(** * Computations that do not send, and computations that do not store *)

Lemma silent_ret {A : Type} (a : A) : silent (ret a).
Proof. by intros w. Qed.

Lemma silent_lift {A : Type} (r : res A) : silent (lift r).
Proof. by intros w. Qed.

Lemma silent_log (l : log_line) : silent (log l).
Proof. by intros w. Qed.

Lemma silent_now : silent now_isoformat.
Proof. by intros w. Qed.

Lemma silent_path_exists (path : string) : silent (path_exists path).
Proof. by intros w. Qed.

Lemma silent_read_json (path : string) : silent (read_json path).
Proof. intros w. unfold read_json. by destruct (disk w !! path) as [[| |]|]. Qed.

Lemma silent_write_json (path : string) (v : value) : silent (write_json path v).
Proof. intros w. unfold write_json. by destruct (plan w) as [|[| |] ?]. Qed.

Lemma silent_bind {A B : Type} (c : M A) (k : A → M B) :
  silent c → (∀ a, silent (k a)) → silent (bind c k).
Proof.
  intros Hc Hk w. unfold bind. specialize (Hc w).
  destruct (c w) as [[a|e] w1]; simpl in *; [|done].
  by rewrite (Hk a w1).
Qed.

Lemma silent_try_except {A : Type} (c : M A) (h : exn → M A) :
  silent c → (∀ e, silent (h e)) → silent (try_except c h).
Proof.
  intros Hc Hh w. unfold try_except. specialize (Hc w).
  destruct (c w) as [[a|e] w1]; simpl in *; [done|].
  by rewrite (Hh e w1).
Qed.

Lemma silent_if {A : Type} (b : bool) (c1 c2 : M A) :
  silent c1 → silent c2 → silent (if b then c1 else c2).
Proof. by destruct b. Qed.

Lemma silent_for_each (items : list value) (body : value → M unit) :
  (∀ x, silent (body x)) → silent (for_each items body).
Proof.
  intros Hb. induction items as [|x items IH]; simpl.
  - apply silent_ret.
  - apply silent_bind; [apply Hb | by intros _].
Qed.

Lemma silent_for_in (c : value) (body : value → M unit) :
  (∀ x, silent (body x)) → silent (for_in c body).
Proof.
  intros Hb. unfold for_in. apply silent_bind; [apply silent_lift|].
  intros items. by apply silent_for_each.
Qed.

Create HintDb silent.
#[local] Hint Resolve silent_ret silent_lift silent_log silent_now silent_path_exists
  silent_read_json silent_write_json silent_if : silent.
#[local] Hint Extern 2 (silent (bind _ _)) => apply silent_bind; [|intros ?] : silent.
#[local] Hint Extern 2 (silent (try_except _ _)) =>
  apply silent_try_except; [|intros ?] : silent.
#[local] Hint Extern 2 (silent (for_in _ _)) => apply silent_for_in; intros ? : silent.

Lemma storeless_ret {A : Type} (a : A) : storeless (ret a).
Proof. intros w. simpl. repeat split. exists []. by rewrite app_nil_r. Qed.

Lemma storeless_lift {A : Type} (r : res A) : storeless (lift r).
Proof. intros w. simpl. repeat split. exists []. by rewrite app_nil_r. Qed.

Lemma storeless_send (chat_id text : string) : storeless (send_message chat_id text).
Proof.
  intros w. unfold send_message.
  destruct (net w) as [|[|e|e] later]; simpl; repeat split;
    first [by eexists | exists []; by rewrite app_nil_r].
Qed.

Lemma storeless_bind {A B : Type} (c : M A) (k : A → M B) :
  storeless c → (∀ a, storeless (k a)) → storeless (bind c k).
Proof.
  intros Hc Hk w. unfold bind.
  destruct (Hc w) as (Hd & Hp & Hcl & Ht & Hj & sent & Ho).
  destruct (c w) as [[a|e] w1]; simpl in *; [|by eauto 10].
  destruct (Hk a w1) as (Hd' & Hp' & Hcl' & Ht' & Hj' & sent' & Ho').
  rewrite Hd', Hp', Hcl', Ht', Hj', Ho', Ho. repeat split; try done.
  exists (sent ++ sent'). by rewrite app_assoc.
Qed.

Lemma storeless_if {A : Type} (b : bool) (c1 c2 : M A) :
  storeless c1 → storeless c2 → storeless (if b then c1 else c2).
Proof. by destruct b. Qed.

Lemma storeless_for_in (c : value) (body : value → M unit) :
  (∀ x, storeless (body x)) → storeless (for_in c body).
Proof.
  intros Hb. unfold for_in. apply storeless_bind; [apply storeless_lift|].
  intros items. induction items as [|x items IH]; simpl.
  - apply storeless_ret.
  - apply storeless_bind; [apply Hb | by intros _].
Qed.

Create HintDb storeless.
#[local] Hint Resolve storeless_ret storeless_lift storeless_send storeless_if : storeless.
#[local] Hint Extern 2 (storeless (bind _ _)) =>
  apply storeless_bind; [|intros ?] : storeless.
#[local] Hint Extern 2 (storeless (for_in _ _)) =>
  apply storeless_for_in; intros ? : storeless.

(** * Tasks, contacts, statuses and pipelines as the payload brings them *)

Section PayloadProofs.

Variable py_repr : value → string.
Variable local_time : Z → res string.

Abbreviation upd := (update_lead_status py_repr).
Abbreviation lookup_name := (get_status_name py_repr).
Abbreviation str := (py_str py_repr).
Abbreviation remember := (remember_status py_repr).

(** X20. Tasks and contacts never touch the status store: whatever the two
    sections hold, and whether the loops return or raise, files, write
    plan, clock and journal are as before and the outbox only grows. *)
Theorem tasks_and_contacts_leave_the_store_alone (tasks contacts : value)
    (chat_id : string) :
  storeless (process_tasks py_repr local_time tasks chat_id) ∧
  storeless (process_contacts py_repr contacts chat_id).
Proof.
  split.
  - unfold process_tasks, process_task. auto 12 with storeless.
  - unfold process_contacts, process_contact. auto 12 with storeless.
Qed.

Lemma update_silent (scope_id : string) (id name : value) : silent (upd scope_id id name).
Proof.
  unfold update_lead_status, load_lead_statuses, save_lead_statuses.
  auto 12 with silent.
Qed.

Lemma remember_silent (scope_id : string) (status : value) :
  silent (remember scope_id status).
Proof. pose proof update_silent. unfold remember_status. auto 12 with silent. Qed.

(** X21. Status and pipeline sections are silent: whatever they hold, and
    whether the loops return or raise, no message is sent. *)
Theorem status_events_send_nothing (statuses pipelines : value) (scope_id : string) :
  silent (process_lead_statuses py_repr statuses scope_id) ∧
  silent (process_pipelines py_repr pipelines scope_id).
Proof.
  pose proof remember_silent. split.
  - unfold process_lead_statuses. auto 12 with silent.
  - unfold process_pipelines, process_pipeline. auto 12 with silent.
Qed.

Lemma remember_dict (scope_id : string) (entry : gmap string value) (w : world) :
  remember scope_id (VDict entry) w =
    if valid_status entry then
      match upd scope_id (dict_get entry "id" VNone) (dict_get entry "name" VNone) w with
      | (Ret _, w') => (Ret (), w')
      | (Raise e, w') => (Raise e, w')
      end
    else (Ret (), w).
Proof.
  unfold remember_status, valid_status, bind, lift, dict_get. simpl.
  destruct (py_truthy (default VNone (entry !! "id")) &&
            py_truthy (default VNone (entry !! "name"))); [|done].
  by destruct (upd _ _ _ w) as [[?|?] ?].
Qed.

(** One entry over a well formed store with no write failure ahead. *)
Lemma remember_sane (scope_id : string) (entry : gmap string value) (w : world) :
  sane w scope_id →
  plan w = [] →
  ∃ w', remember scope_id (VDict entry) w = (Ret (), w') ∧
        sane w' scope_id ∧ plan w' = [] ∧
        (valid_status entry = true →
         resolves py_repr w' scope_id (dict_get entry "id" VNone)
           (dict_get entry "name" VNone)) ∧
        (∀ i n, resolves py_repr w scope_id i n →
                (valid_status entry = true → str (dict_get entry "id" VNone) ≠ str i) →
                resolves py_repr w' scope_id i n).
Proof.
  intros Hs Hp. rewrite remember_dict.
  destruct (valid_status entry) eqn:Hv.
  2:{ exists w. split; [done|]. split; [done|]. split; [done|]. split; [done|]. auto. }
  assert (Hf : next_fate w = Done) by (unfold next_fate; by rewrite Hp).
  pose proof (update_resolves py_repr scope_id (dict_get entry "id" VNone)
                (dict_get entry "name" VNone) w Hs Hf) as Hres.
  pose proof (update_keeps_sane py_repr scope_id (dict_get entry "id" VNone)
                (dict_get entry "name" VNone) w scope_id Hs Hs) as Hs1.
  destruct (update_sane py_repr scope_id (dict_get entry "id" VNone)
              (dict_get entry "name" VNone) w Hs)
    as (m & w1 & Hm & Hrun & Hd & Hp1 & _).
  rewrite Hrun in Hres, Hs1 |- *. simpl in Hres, Hs1.
  exists w1. split; [done|]. split; [done|]. split; [by rewrite Hp1, Hp|].
  split; [done|].
  intros i n (m0 & d & Hm0 & Hd0 & Hn) Hne. specialize (Hne eq_refl).
  rewrite Hm in Hm0. injection Hm0 as <-.
  eexists _, d. split; [|split; [|done]].
  - rewrite (store_view_written _ _ _ _ Hd). by rewrite Hf.
  - rewrite touch_elsewhere by done. done.
Qed.

Lemma remember_all_sane (scope_id : string) (entries : list (gmap string value))
    (w : world) :
  sane w scope_id →
  plan w = [] →
  ∃ w', for_each (VDict <$> entries) (remember scope_id) w = (Ret (), w') ∧
        sane w' scope_id ∧ plan w' = [] ∧
        (∀ i n, resolves py_repr w scope_id i n →
                Forall (λ entry, valid_status entry = true →
                                 str (dict_get entry "id" VNone) ≠ str i) entries →
                resolves py_repr w' scope_id i n).
Proof.
  revert w. induction entries as [|entry entries IH]; intros w Hs Hp.
  - exists w. simpl. by repeat split.
  - rewrite fmap_cons. cbn [for_each]. unfold bind.
    destruct (remember_sane scope_id entry w Hs Hp) as (w1 & -> & Hs1 & Hp1 & _ & Hk1).
    destruct (IH w1 Hs1 Hp1) as (w2 & -> & Hs2 & Hp2 & Hk2).
    exists w2. split; [done|]. split; [done|]. split; [done|].
    intros i n Hres Hall. inversion Hall as [|? ? Hhead Htail]; subst.
    apply Hk2; [|done]. by apply Hk1.
Qed.

(** X22. Cache warming: over a well formed store and with no write failure
    ahead, a status section made of objects is processed without raising,
    and an entry with a truthy id and name whose id no later valid entry
    repeats is afterwards what the lookup and the status endpoint show. *)
Theorem last_status_entry_wins (scope_id : string)
    (before after : list (gmap string value)) (entry : gmap string value)
    (w : world) :
  sane w scope_id →
  plan w = [] →
  valid_status entry = true →
  Forall (λ later, valid_status later = true →
                   str (dict_get later "id" VNone) ≠ str (dict_get entry "id" VNone))
    after →
  ∃ w' m d w'',
    process_lead_statuses py_repr (VList (VDict <$> (before ++ entry :: after)))
      scope_id w = (Ret (), w') ∧
    (lookup_name scope_id (dict_get entry "id" VNone) w').1
      = Ret (dict_get entry "name" VNone) ∧
    get_statuses scope_id w' = (Ret (scope_id, VDict m), w'') ∧
    m !! str (dict_get entry "id" VNone) = Some (VDict d) ∧
    d !! "name" = Some (dict_get entry "name" VNone).
Proof.
  intros Hs Hp Hv Hafter.
  unfold process_lead_statuses, for_in, bind at 1, lift. cbn [py_iter].
  rewrite fmap_app, for_each_app. unfold bind.
  destruct (remember_all_sane scope_id before w Hs Hp) as (w1 & -> & Hs1 & Hp1 & _).
  rewrite fmap_cons. cbn [for_each]. unfold bind.
  destruct (remember_sane scope_id entry w1 Hs1 Hp1) as (w2 & -> & Hs2 & Hp2 & Hres & _).
  destruct (remember_all_sane scope_id after w2 Hs2 Hp2) as (w3 & -> & Hs3 & Hp3 & Hkeep).
  pose proof (Hkeep _ _ (Hres Hv) Hafter) as Hfinal.
  pose proof (resolves_lookup py_repr scope_id _ _ _ w3 Hfinal eq_refl) as Hlook.
  destruct Hfinal as (m & d & Hm & Hd & Hn).
  destruct (load_run scope_id w3) as (w4 & Hload & _).
  exists w3, m, d, w4. split; [done|]. split; [done|]. split; [|done].
  unfold get_statuses, bind. by rewrite Hload, Hm.
Qed.

(** X23. Entries without a truthy id or without a truthy name (no id, id 0,
    an empty name) are skipped: a status section made of such entries
    leaves the world as it is. *)
Theorem entries_without_id_or_name_are_skipped (scope_id : string)
    (entries : list (gmap string value)) (w : world) :
  Forall (λ entry, valid_status entry = false) entries →
  process_lead_statuses py_repr (VList (VDict <$> entries)) scope_id w = (Ret (), w).
Proof.
  intros Hall. unfold process_lead_statuses, for_in, bind, lift. cbn [py_iter].
  induction Hall as [|entry entries Hv _ IH]; [done|].
  rewrite fmap_cons. cbn [for_each]. unfold bind. rewrite remember_dict, Hv. apply IH.
Qed.

Lemma process_pipeline_shaped (scope_id : string) (pipeline : gmap string value)
    (w : world) :
  pipeline_shaped pipeline = true →
  process_pipeline py_repr scope_id (VDict pipeline) w =
  for_each (pipeline_statuses pipeline) (remember scope_id) w.
Proof.
  unfold pipeline_shaped, pipeline_statuses, process_pipeline, for_in, bind, lift. simpl.
  destruct (pipeline !! "statuses") as [[| | | |l|]|]; try done.
Qed.

Lemma for_each_pipelines (scope_id : string) (pipelines : list (gmap string value))
    (w : world) :
  forallb pipeline_shaped pipelines = true →
  for_each (VDict <$> pipelines) (process_pipeline py_repr scope_id) w =
  for_each (concat (pipeline_statuses <$> pipelines)) (remember scope_id) w.
Proof.
  revert w. induction pipelines as [|p ps IH]; intros w; [done|].
  cbn [forallb]. intros [Hp Hps]%andb_true_iff.
  rewrite !fmap_cons. cbn [concat for_each].
  rewrite for_each_app. unfold bind. rewrite (process_pipeline_shaped _ _ _ Hp).
  destruct (for_each (pipeline_statuses p) (remember scope_id) w) as [[[]|e] w1];
    [by apply IH | done].
Qed.

(** X24. Pipelines are flattened: a pipeline section made of objects whose
    [statuses], where present, are lists is processed exactly as the status
    section that lists all their statuses in order. *)
Theorem pipelines_are_flattened (scope_id : string)
    (pipelines : list (gmap string value)) (w : world) :
  forallb pipeline_shaped pipelines = true →
  process_pipelines py_repr (VList (VDict <$> pipelines)) scope_id w =
  process_lead_statuses py_repr (VList (concat (pipeline_statuses <$> pipelines)))
    scope_id w.
Proof.
  intros Hshape. unfold process_pipelines, process_lead_statuses, for_in, bind, lift.
  cbn [py_iter]. by apply for_each_pipelines.
Qed.

End PayloadProofs.

(** * The webhook *)

Lemma bind_ext {A B : Type} (c c' : M A) (k k' : A → M B) (w : world) :
  c w = c' w → (∀ a w1, k a w1 = k' a w1) → bind c k w = bind c' k' w.
Proof.
  intros Hc Hk. unfold bind. rewrite Hc.
  destruct (c' w) as [[a|e] w1]; [apply Hk | done].
Qed.

Lemma bind_ret_run {A B : Type} (c : M A) (k : A → M B) (w w1 : world) (a : A) :
  c w = (Ret a, w1) → bind c k w = k a w1.
Proof. intros H. unfold bind. by rewrite H. Qed.

Lemma bind_raise_run {A B : Type} (c : M A) (k : A → M B) (w w1 : world) (e : exn) :
  c w = (Raise e, w1) → bind c k w = (Raise e, w1).
Proof. intros H. unfold bind. by rewrite H. Qed.

Lemma section_absent (data : gmap string value) (key : string) (handler : value → M unit)
    (w : world) :
  data !! key = None → section_of (VDict data) key handler w = (Ret (), w).
Proof. intros H. unfold section_of, bind, lift. simpl. by rewrite H. Qed.

Lemma section_of_dict (data : gmap string value) (key : string) (handler : value → M unit)
    (w : world) :
  section_of (VDict data) key handler w =
    match data !! key with
    | Some part => handler part w
    | None => (Ret (), w)
    end.
Proof.
  unfold section_of, bind, lift. simpl. by destruct (data !! key).
Qed.

Lemma section_of_other_key (data : gmap string value) (k key : string) (v : value)
    (handler : value → M unit) (w : world) :
  key ≠ k →
  section_of (VDict (<[k := v]> data)) key handler w =
  section_of (VDict data) key handler w.
Proof. intros H. by rewrite !section_of_dict, lookup_insert_ne. Qed.

Section WebhookProofs.

Variable py_repr : value → string.
Variable local_time : Z → res string.

Abbreviation hook := (amocrm_webhook py_repr local_time).
Abbreviation str := (py_str py_repr).

(** The sections in order, for the chat of the scope. *)
Lemma webhook_sections_run (scope_id : string) (data : value) (w : world) :
  webhook_sections py_repr local_time scope_id data w =
  (let! _ := section_of data "leads"
               (λ leads, process_leads_payload py_repr leads (chat_of scope_id) scope_id) in
   let! _ := section_of data "tasks"
               (λ tasks, process_tasks py_repr local_time tasks (chat_of scope_id)) in
   let! _ := section_of data "contacts"
               (λ contacts, process_contacts py_repr contacts (chat_of scope_id)) in
   let! _ := section_of data "lead_statuses"
               (λ statuses, process_lead_statuses py_repr statuses scope_id) in
   section_of data "pipelines"
     (λ pipelines, process_pipelines py_repr pipelines scope_id)) w.
Proof. reflexivity. Qed.

(** X25. Sections the handler does not know are ignored: adding any other
    key to the body changes neither the answer nor the world. *)
Theorem webhook_ignores_other_sections (scope_id : string) (data : gmap string value)
    (k : string) (v : value) (w : world) :
  k ∉ recognised_sections →
  (hook scope_id (Body (VDict (<[k := v]> data))) w).1.1 =
    (hook scope_id (Body (VDict data)) w).1.1 ∧
  (hook scope_id (Body (VDict (<[k := v]> data))) w).2 =
    (hook scope_id (Body (VDict data)) w).2.
Proof.
  intros Hk. unfold recognised_sections in Hk.
  rewrite !not_elem_of_cons in Hk. destruct Hk as (H1 & H2 & H3 & H4 & H5 & _).
  assert (Heq : webhook_sections py_repr local_time scope_id (VDict (<[k := v]> data)) w =
                webhook_sections py_repr local_time scope_id (VDict data) w).
  { rewrite !webhook_sections_run.
    apply bind_ext; [by apply section_of_other_key|]. intros _ w1.
    apply bind_ext; [by apply section_of_other_key|]. intros _ w2.
    apply bind_ext; [by apply section_of_other_key|]. intros _ w3.
    apply bind_ext; [by apply section_of_other_key|]. intros _ w4.
    by apply section_of_other_key. }
  unfold amocrm_webhook. rewrite Heq.
  by destruct (webhook_sections py_repr local_time scope_id (VDict data) w) as [[?|?] ?].
Qed.

Lemma leads_section_run (scope_id : string) (data : gmap string value)
    (leads : list (gmap string value)) (w : world) :
  data !! "leads" = Some (VList (VDict <$> leads)) →
  section_of (VDict data) "leads"
    (λ leads, process_leads_payload py_repr leads (chat_of scope_id) scope_id) w =
  process_leads py_repr leads (chat_of scope_id) scope_id w.
Proof.
  intros Hl. rewrite section_of_dict, Hl.
  unfold process_leads_payload, for_in, bind, lift. cbn [py_iter].
  apply for_each_leads.
Qed.

Lemma leads_section_returns (scope_id : string) (data : gmap string value)
    (leads : list (gmap string value)) (w : world) :
  data !! "leads" = Some (VList (VDict <$> leads)) →
  (process_leads py_repr leads (chat_of scope_id) scope_id w).1 = Ret () →
  section_of (VDict data) "leads"
    (λ leads, process_leads_payload py_repr leads (chat_of scope_id) scope_id) w =
  (Ret (), (process_leads py_repr leads (chat_of scope_id) scope_id w).2).
Proof.
  intros Hl Hr. rewrite (leads_section_run _ _ _ _ Hl).
  by destruct (process_leads py_repr leads (chat_of scope_id) scope_id w) as [r w1];
    simpl in *; subst.
Qed.

Lemma leads_section_raises (scope_id : string) (data : gmap string value)
    (leads : list (gmap string value)) (e : exn) (w : world) :
  data !! "leads" = Some (VList (VDict <$> leads)) →
  (process_leads py_repr leads (chat_of scope_id) scope_id w).1 = Raise e →
  section_of (VDict data) "leads"
    (λ leads, process_leads_payload py_repr leads (chat_of scope_id) scope_id) w =
  (Raise e, (process_leads py_repr leads (chat_of scope_id) scope_id w).2).
Proof.
  intros Hl Hr. rewrite (leads_section_run _ _ _ _ Hl).
  by destruct (process_leads py_repr leads (chat_of scope_id) scope_id w) as [r w1];
    simpl in *; subst.
Qed.

(** X26. A failure is answered with status 500 and is not rolled back:
    when the tasks section cannot be iterated (null, a number, a boolean),
    the request is answered with status 500 whatever the sends of the leads
    do, and the world is left as the lead dispatcher leaves it, with the
    messages it has sent and the store writes it has made.  The exception
    reported is the one of the lead dispatcher when a send or a lead fails
    there, and the one of the tasks section when the lead dispatcher
    returns. *)
Theorem webhook_failure_is_not_rolled_back (scope_id : string)
    (data : gmap string value) (leads : list (gmap string value)) (tasks : value)
    (e : exn) (w : world) :
  data !! "leads" = Some (VList (VDict <$> leads)) →
  data !! "tasks" = Some tasks →
  py_iter tasks = Raise e →
  hook scope_id (Body (VDict data)) w =
    (let failure :=
       match (process_leads py_repr leads (chat_of scope_id) scope_id w).1 with
       | Ret _ => e
       | Raise earlier => earlier
       end in
     (ServerError failure,
      [HookReceived scope_id (VDict data); HookFailed failure],
      (process_leads py_repr leads (chat_of scope_id) scope_id w).2)).
Proof.
  intros Hl Ht Hbad. unfold amocrm_webhook.
  rewrite webhook_sections_run.
  destruct (process_leads py_repr leads (chat_of scope_id) scope_id w).1
    as [[]|earlier] eqn:Hrun.
  - rewrite (bind_ret_run _ _ _ _ _ (leads_section_returns _ _ _ _ Hl Hrun)).
    erewrite bind_raise_run; [reflexivity|].
    rewrite section_of_dict, Ht.
    unfold process_tasks, for_in. apply bind_raise_run. unfold lift. by rewrite Hbad.
  - by rewrite (bind_raise_run _ _ _ _ _ (leads_section_raises _ _ _ _ _ Hl Hrun)).
Qed.

(** X27. A body whose only known section is a leads array of objects
    leaves the world as the lead dispatcher leaves it, and is answered as
    the lead dispatcher ends: with success when it returns, with status 500
    and its exception when a send or a lead raises.  Over a well formed
    store, and when every send is answered, the answer is success. *)
Theorem webhook_with_leads_only (scope_id : string) (data : gmap string value)
    (leads : list (gmap string value)) (w : world) :
  data !! "leads" = Some (VList (VDict <$> leads)) →
  data !! "tasks" = None →
  data !! "contacts" = None →
  data !! "lead_statuses" = None →
  data !! "pipelines" = None →
  hook scope_id (Body (VDict data)) w =
    (match (process_leads py_repr leads (chat_of scope_id) scope_id w).1 with
     | Ret _ => (Success, [HookReceived scope_id (VDict data)])
     | Raise e => (ServerError e, [HookReceived scope_id (VDict data); HookFailed e])
     end,
     (process_leads py_repr leads (chat_of scope_id) scope_id w).2) ∧
  (sane w scope_id → net w = [] →
   hook scope_id (Body (VDict data)) w =
     (Success, [HookReceived scope_id (VDict data)],
      (process_leads py_repr leads (chat_of scope_id) scope_id w).2)).
Proof.
  intros Hl Ht Hc Hst Hp.
  assert (Hret : (process_leads py_repr leads (chat_of scope_id) scope_id w).1 = Ret () →
    hook scope_id (Body (VDict data)) w =
      (Success, [HookReceived scope_id (VDict data)],
       (process_leads py_repr leads (chat_of scope_id) scope_id w).2)).
  { intros Hrun. unfold amocrm_webhook. rewrite webhook_sections_run.
    rewrite (bind_ret_run _ _ _ _ _ (leads_section_returns _ _ _ _ Hl Hrun)).
    rewrite (bind_ret_run _ _ _ _ _ (section_absent _ _ _ _ Ht)).
    rewrite (bind_ret_run _ _ _ _ _ (section_absent _ _ _ _ Hc)).
    rewrite (bind_ret_run _ _ _ _ _ (section_absent _ _ _ _ Hst)).
    by rewrite (section_absent _ _ _ _ Hp). }
  split.
  - destruct (process_leads py_repr leads (chat_of scope_id) scope_id w).1
      as [[]|e] eqn:Hrun.
    + by rewrite Hret.
    + unfold amocrm_webhook. rewrite webhook_sections_run.
      by rewrite (bind_raise_run _ _ _ _ _ (leads_section_raises _ _ _ _ _ Hl Hrun)).
  - intros Hs Hnet. apply Hret.
    by destruct (process_leads_sane py_repr leads (chat_of scope_id) scope_id w Hs Hnet)
      as (w1 & ? & -> & _).
Qed.

Lemma lead_with_unknown_status (scope_id : string) (lead : gmap string value)
    (id : value) (k : lead_kind) (m : gmap string value) (w : world) :
  lead !! "status_id" = Some id →
  py_truthy id = true →
  lead !! "status_name" = None →
  spec_lead_kind py_repr lead = Some k →
  store_view w scope_id = VDict m →
  m !! str id = None →
  net w = [] →
  ∃ w1,
    process_leads_payload py_repr (VList [VDict lead]) (chat_of scope_id) scope_id w
      = (Ret (), w1) ∧
    disk w1 = disk w ∧ plan w1 = plan w ∧
    outbox w1 =
      outbox w ++
      [(chat_of scope_id,
        lead_message_with py_repr lead (kind_name k) (VStr ("Статус " +:+ str id)))].
Proof.
  intros Hid Htr Hname Hk Hm Hnew Hnet.
  unfold process_leads_payload, for_in, bind, lift. cbn [py_iter for_each].
  unfold bind. rewrite process_lead_item_dict, process_lead_emit, Hk.
  unfold emit, bind.
  rewrite (format_with_status py_repr lead id _ _ _ Hid Htr), Hname.
  destruct (fallback_run py_repr scope_id id w m Hm Hnew)
    as (w1 & -> & Hd & Hp & _ & _ & Ho & Hn).
  rewrite send_answered by congruence.
  unfold ret. eexists. split; [reflexivity|]. cbn [disk plan outbox].
  by rewrite Hd, Hp, Ho.
Qed.

(** X28. Leads come before status definitions: when one body brings a lead
    that carries only a status id the store does not hold and a status
    entry that names this id, and the send of the lead is answered, the
    message of the lead still shows the fallback, and the name is in the
    store only afterwards. *)
Theorem status_definition_comes_too_late (scope_id : string)
    (data lead entry : gmap string value) (id : value) (k : lead_kind)
    (m : gmap string value) (w : world) :
  data !! "leads" = Some (VList [VDict lead]) →
  data !! "tasks" = None →
  data !! "contacts" = None →
  data !! "lead_statuses" = Some (VList [VDict entry]) →
  data !! "pipelines" = None →
  lead !! "status_id" = Some id →
  py_truthy id = true →
  lead !! "status_name" = None →
  spec_lead_kind py_repr lead = Some k →
  valid_status entry = true →
  str (dict_get entry "id" VNone) = str id →
  sane w scope_id →
  store_view w scope_id = VDict m →
  m !! str id = None →
  plan w = [] →
  net w = [] →
  ∃ w',
    hook scope_id (Body (VDict data)) w =
      (Success, [HookReceived scope_id (VDict data)], w') ∧
    outbox w' =
      outbox w ++
      [(chat_of scope_id,
        lead_message_with py_repr lead (kind_name k) (VStr ("Статус " +:+ str id)))] ∧
    (get_status_name py_repr scope_id id w').1 = Ret (dict_get entry "name" VNone).
Proof.
  intros Hl Ht Hc Hst Hp Hid Htr Hname Hk Hv Hsame Hs Hm Hnew Hplan Hnet.
  destruct (lead_with_unknown_status scope_id lead id k m w Hid Htr Hname Hk Hm Hnew Hnet)
    as (w1 & Hrun1 & Hd1 & Hp1 & Ho1).
  assert (Hs1 : sane w1 scope_id) by (unfold sane, store_view in *; by rewrite Hd1).
  assert (Hplan1 : plan w1 = []) by congruence.
  destruct (remember_sane py_repr scope_id entry w1 Hs1 Hplan1)
    as (w2 & Hrun2 & _ & _ & Hres & _).
  pose proof (remember_silent py_repr scope_id (VDict entry) w1) as Ho2.
  rewrite Hrun2 in Ho2. simpl in Ho2.
  exists w2. split; [|split].
  - unfold amocrm_webhook. rewrite webhook_sections_run.
    erewrite bind_ret_run; [|by rewrite section_of_dict, Hl].
    rewrite (bind_ret_run _ _ _ _ _ (section_absent _ _ _ _ Ht)).
    rewrite (bind_ret_run _ _ _ _ _ (section_absent _ _ _ _ Hc)).
    erewrite bind_ret_run.
    2:{ rewrite section_of_dict, Hst.
        unfold process_lead_statuses, for_in, lift. cbn [py_iter].
        erewrite bind_ret_run; [|reflexivity]. cbn [for_each].
        erewrite bind_ret_run; [|exact Hrun2]. reflexivity. }
    by rewrite (section_absent _ _ _ _ Hp).
  - by rewrite Ho2, Ho1.
  - by apply (resolves_lookup py_repr scope_id (dict_get entry "id" VNone)); [apply Hres|].
Qed.

End WebhookProofs.

(** * The claims on concrete inputs *)

Lemma update_twice_witness :
  sane fresh_world "42" ∧ next_fate fresh_world = Done ∧
  ∃ m1 w1 m2 w2 r1 r2 seen,
    update_lead_status plain_repr "42" (VInt 5) (VStr "Foo") fresh_world
      = (Ret (VDict m1), w1) ∧
    update_lead_status plain_repr "42" (VInt 5) (VStr "Bar") w1 = (Ret (VDict m2), w2) ∧
    m1 !! py_str plain_repr (VInt 5) = Some (VDict r1) ∧
    m2 !! py_str plain_repr (VInt 5) = Some (VDict r2) ∧
    r1 !! "first_seen" = Some seen ∧
    r2 !! "first_seen" = Some seen ∧
    r2 !! "name" = Some (VStr "Bar") ∧
    r2 !! "last_updated" = Some (VStr (clock w1 (ticks w1))) ∧
    disk w2 = disk_after (next_fate w1) (get_status_file_path "42") (VDict m2) (disk w1).
Proof.
  split; [vm_compute; reflexivity|]. split; [reflexivity|].
  apply (update_twice_keeps_first_seen plain_repr "42" (VInt 5) (VStr "Foo") (VStr "Bar")
           fresh_world); [vm_compute; reflexivity | reflexivity].
Defined.

Lemma fallback_witness :
  store_view fresh_world "42" = VDict ∅ ∧
  (∅ : gmap string value) !! py_str plain_repr (VInt 5) = None ∧
  ∃ w1 w2,
    get_status_name plain_repr "42" (VInt 5) fresh_world =
      (Ret (VStr ("Статус " +:+ py_str plain_repr (VInt 5))), w1) ∧
    get_status_name plain_repr "42" (VInt 5) w1 =
      (Ret (VStr ("Статус " +:+ py_str plain_repr (VInt 5))), w2) ∧
    quiet fresh_world w1 ∧ quiet w1 w2.
Proof.
  split; [reflexivity|]. split; [reflexivity|].
  apply (get_status_name_fallback plain_repr "42" (VInt 5) fresh_world ∅);
    reflexivity.
Defined.

(** C2, as stated, fails: the fallback for id 5 is not [Status 5]. *)
Lemma fallback_prefix_is_not_Status :
  (get_status_name plain_repr "42" (VInt 5) fresh_world).1 = Ret (VStr "Статус 5") ∧
  (get_status_name plain_repr "42" (VInt 5) fresh_world).1 ≠ Ret (VStr "Status 5").
Proof. split; [vm_compute; reflexivity | vm_compute; discriminate]. Qed.

Lemma other_scope_witness :
  "1" ≠ "2" ∧ store_view fresh_world "2" = VDict ∅ ∧
  (∅ : gmap string value) !! py_str plain_repr (VInt 5) = None ∧
  let w' := (update_lead_status plain_repr "1" (VInt 5) (VStr "X") fresh_world).2 in
  disk w' !! get_status_file_path "2" = disk fresh_world !! get_status_file_path "2" ∧
  store_view w' "2" = store_view fresh_world "2" ∧
  (load_lead_statuses "2" w').1 = (load_lead_statuses "2" fresh_world).1 ∧
  (∀ j, (get_status_name plain_repr "2" j w').1 =
        (get_status_name plain_repr "2" j fresh_world).1) ∧
  (get_status_name plain_repr "2" (VInt 5) w').1 =
    Ret (VStr ("Статус " +:+ py_str plain_repr (VInt 5))).
Proof.
  split; [discriminate|]. split; [reflexivity|]. split; [reflexivity|].
  apply (update_leaves_other_scopes plain_repr "1" "2" (VInt 5) (VStr "X") fresh_world ∅);
    [discriminate | reflexivity | reflexivity].
Defined.

Lemma save_then_load_witness :
  next_fate fresh_world = Done ∧
  ∃ w1 w2,
    save_lead_statuses "42" (VDict {[ "5" := VDict {[ "name" := VStr "Foo" ]} ]}) fresh_world
      = (Ret (), w1) ∧
    load_lead_statuses "42" w1
      = (Ret (VDict {[ "5" := VDict {[ "name" := VStr "Foo" ]} ]}), w2).
Proof.
  split; [reflexivity|].
  apply (save_then_load "42" {[ "5" := VDict {[ "name" := VStr "Foo" ]} ]} fresh_world).
  reflexivity.
Defined.

Lemma dispatch_witness :
  sane fresh_world "42" ∧ next_fate fresh_world = Done ∧ net fresh_world = [] ∧
  (∃ w1 m d,
     format_lead_message plain_repr won_lead "success" "42" fresh_world =
       (Ret won_message, w1) ∧
     process_lead plain_repr won_lead "chat" "42" fresh_world =
       send_message "chat" won_message w1 ∧
     String.prefix "🎉" won_message = true ∧
     store_view w1 "42" = VDict m ∧
     m !! "142" = Some (VDict d) ∧
     d !! "name" = Some (VStr "Won")) ∧
  ∃ w' m d,
    process_lead plain_repr won_lead "chat" "42" fresh_world = (Ret (), w') ∧
    outbox w' = outbox fresh_world ++ [("chat", won_message)] ∧
    String.prefix "🎉" won_message = true ∧
    store_view w' "42" = VDict m ∧
    m !! "142" = Some (VDict d) ∧
    d !! "name" = Some (VStr "Won").
Proof.
  split; [vm_compute; reflexivity|]. split; [reflexivity|]. split; [reflexivity|].
  destruct (lead_dispatch_follows_precedence plain_repr) as (_ & _ & Hhanded & Hsent).
  split.
  - apply (Hhanded "chat" "42" fresh_world); [vm_compute; reflexivity | reflexivity].
  - apply (Hsent "chat" "42" fresh_world);
      [vm_compute; reflexivity | reflexivity | reflexivity].
Defined.

(** C6, as stated, fails: two fields coded PHONE give two phone lines,
    whether the label is counted with or without its trailing space. *)
Lemma two_phone_fields_give_two_lines :
  format_contact_message plain_repr two_phones "new" = Ret two_phones_message ∧
  count_lines "Телефон: " two_phones_message = 2 ∧
  ¬ (count_lines "Телефон: " two_phones_message ≤ 1)%nat ∧
  count_lines "Телефон:" two_phones_message = 2 ∧
  ¬ (count_lines "Телефон:" two_phones_message ≤ 1)%nat.
Proof.
  split; [vm_compute; reflexivity|].
  assert (H : count_lines "Телефон: " two_phones_message = 2) by (vm_compute; reflexivity).
  assert (H' : count_lines "Телефон:" two_phones_message = 2) by (vm_compute; reflexivity).
  split; [exact H|]. split; [rewrite H; lia|]. split; [exact H' | rewrite H'; lia].
Qed.

Lemma contact_lines_witness :
  busy_contact !! "custom_fields" = Some (VList (VDict <$> custom_fields busy_contact)) ∧
  forallb field_shaped (custom_fields busy_contact) = true ∧
  format_contact_message plain_repr busy_contact "update" = Ret busy_contact_message ∧
  no_line_break (py_str plain_repr (dict_get busy_contact "name" (VStr "Без имени"))) = true ∧
  forallb no_line_break (omap (extracted plain_repr) (custom_fields busy_contact)) = true ∧
  (∃ message, format_contact_message plain_repr busy_contact "update" = Ret message) ∧
  busy_contact_message =
    py_strip (contact_head plain_repr busy_contact "update" +:+
              foldr String.append "" (field_lines plain_repr (custom_fields busy_contact))) ∧
  count_lines "Телефон:" busy_contact_message =
    length (filter (λ f, phone_field f = true) (custom_fields busy_contact)) ∧
  count_lines "Email:" busy_contact_message =
    length (filter (λ f, email_field f = true) (custom_fields busy_contact)).
Proof.
  assert (Hrun : format_contact_message plain_repr busy_contact "update" =
                 Ret busy_contact_message) by (vm_compute; reflexivity).
  split; [vm_compute; reflexivity|]. split; [vm_compute; reflexivity|].
  split; [exact Hrun|]. split; [vm_compute; reflexivity|].
  split; [vm_compute; reflexivity|].
  destruct (contact_one_line_per_coded_field plain_repr busy_contact "update")
    as [Hreturns Hlines].
  split; [apply (Hreturns (custom_fields busy_contact)); vm_compute; reflexivity|].
  destruct (Hlines busy_contact_message Hrun) as [Htext Hcount].
  split; [exact Htext|]. apply Hcount; vm_compute; reflexivity.
Defined.


Lemma first_update_witness :
  store_view fresh_world "42" = VDict ∅ ∧
  (∅ : gmap string value) !! py_str plain_repr (VInt 5) = None ∧
  ∃ m' w' d,
    update_lead_status plain_repr "42" (VInt 5) (VStr "Foo") fresh_world
      = (Ret (VDict m'), w') ∧
    m' !! py_str plain_repr (VInt 5) = Some (VDict d) ∧
    dom d = {[ "name"; "first_seen" ]} ∧
    d !! "name" = Some (VStr "Foo") ∧
    d !! "first_seen" = Some (VStr (clock fresh_world (ticks fresh_world))) ∧
    d !! "last_updated" = None.
Proof.
  split; [reflexivity|]. split; [reflexivity|].
  apply (first_update_has_no_last_updated plain_repr "42" (VInt 5) (VStr "Foo")
           fresh_world ∅); reflexivity.
Defined.

Lemma falsy_status_witness :
  zero_status_lead !! "status_id" = Some (VInt 0) ∧ py_truthy (VInt 0) = false ∧
  format_lead_message plain_repr zero_status_lead "update" "42" fresh_world =
    (Ret (py_strip (lead_head plain_repr zero_status_lead "update")), fresh_world) ∧
  format_lead_message plain_repr zero_status_lead "update" "42" fresh_world =
    format_lead_message plain_repr (delete "status_id" zero_status_lead) "update" "42"
      fresh_world ∧
  process_lead plain_repr zero_status_lead "chat" "42" fresh_world =
    process_lead plain_repr (delete "status_id" zero_status_lead) "chat" "42" fresh_world ∧
  process_lead plain_repr zero_status_lead "chat" "42" fresh_world =
    (if dict_has zero_status_lead "add" then
       send_message "chat" (py_strip (lead_head plain_repr zero_status_lead "new")) fresh_world
     else if dict_has zero_status_lead "update" then
       send_message "chat" (py_strip (lead_head plain_repr zero_status_lead "update"))
         fresh_world
     else (Ret (), fresh_world)).
Proof.
  split; [vm_compute; reflexivity|]. split; [reflexivity|].
  apply (falsy_status_id_is_no_status_id plain_repr zero_status_lead (VInt 0) "update"
           "chat" "42" fresh_world); [vm_compute; reflexivity | reflexivity].
Defined.

(** * The other properties on concrete inputs *)

Lemma only_its_record_witness :
  sane seeded_world "42" ∧
  ∃ m m' w',
    store_view seeded_world "42" = VDict m ∧
    update_lead_status plain_repr "42" (VInt 6) (VStr "Won") seeded_world
      = (Ret (VDict m'), w') ∧
    (∀ k, k ≠ py_str plain_repr (VInt 6) → m' !! k = m !! k) ∧
    dom m' = {[ py_str plain_repr (VInt 6) ]} ∪ dom m.
Proof.
  split; [vm_compute; reflexivity|].
  apply (update_changes_only_its_record plain_repr "42" (VInt 6) (VStr "Won") seeded_world).
  vm_compute; reflexivity.
Defined.

Lemma other_fields_witness :
  store_view seeded_world "42" = VDict old_store ∧
  old_store !! py_str plain_repr (VInt 5) = Some (VDict old_record) ∧
  ∃ m' w' d',
    update_lead_status plain_repr "42" (VInt 5) (VStr "New") seeded_world
      = (Ret (VDict m'), w') ∧
    m' !! py_str plain_repr (VInt 5) = Some (VDict d') ∧
    d' !! "name" = Some (VStr "New") ∧
    d' !! "first_seen" = old_record !! "first_seen" ∧
    (∀ field, field ≠ "name" → field ≠ "last_updated" →
              d' !! field = old_record !! field).
Proof.
  split; [vm_compute; reflexivity|]. split; [vm_compute; reflexivity|].
  apply (update_keeps_the_other_fields plain_repr "42" (VInt 5) (VStr "New") seeded_world
           old_store old_record); vm_compute; reflexivity.
Defined.

Lemma update_then_lookup_witness :
  sane fresh_world "42" ∧ next_fate fresh_world = Done ∧
  py_str plain_repr (VStr "142") = py_str plain_repr (VInt 142) ∧
  (get_status_name plain_repr "42" (VStr "142")
     (update_lead_status plain_repr "42" (VInt 142) (VStr "Won") fresh_world).2).1
    = Ret (VStr "Won").
Proof.
  split; [vm_compute; reflexivity|]. split; [reflexivity|]. split; [reflexivity|].
  apply (update_then_lookup plain_repr "42" (VInt 142) (VStr "142") (VStr "Won") fresh_world);
    [vm_compute; reflexivity | reflexivity | reflexivity].
Defined.

Lemma other_names_witness :
  sane seeded_world "42" ∧ next_fate seeded_world ≠ Torn ∧
  py_str plain_repr (VInt 5) ≠ py_str plain_repr (VInt 6) ∧
  (get_status_name plain_repr "42" (VInt 5)
     (update_lead_status plain_repr "42" (VInt 6) (VStr "Won") seeded_world).2).1
    = (get_status_name plain_repr "42" (VInt 5) seeded_world).1.
Proof.
  split; [vm_compute; reflexivity|]. split; [discriminate|].
  split; [vm_compute; discriminate|].
  apply (update_keeps_other_names plain_repr "42" (VInt 6) (VInt 5) (VStr "Won") seeded_world);
    [vm_compute; reflexivity | discriminate | vm_compute; discriminate].
Defined.

Lemma refused_write_witness :
  sane refusing_world "42" ∧ next_fate refusing_world = Refused ∧
  let w' := (update_lead_status plain_repr "42" (VInt 5) (VStr "Foo") refusing_world).2 in
  disk w' = disk refusing_world ∧
  (load_lead_statuses "42" w').1 = (load_lead_statuses "42" refusing_world).1 ∧
  ∀ j, (get_status_name plain_repr "42" j w').1 =
       (get_status_name plain_repr "42" j refusing_world).1.
Proof.
  split; [vm_compute; reflexivity|]. split; [reflexivity|].
  apply (refused_write_loses_the_update plain_repr "42" (VInt 5) (VStr "Foo") refusing_world);
    [vm_compute; reflexivity | reflexivity].
Defined.

Lemma last_save_witness :
  plan fresh_world = [] ∧
  ∃ w1 w2 w3,
    save_lead_statuses "42" (VDict old_store) fresh_world = (Ret (), w1) ∧
    save_lead_statuses "42" (VDict ∅) w1 = (Ret (), w2) ∧
    load_lead_statuses "42" w2 = (Ret (VDict ∅), w3).
Proof.
  split; [reflexivity|].
  apply (last_save_wins "42" (VDict old_store) (VDict ∅) fresh_world). reflexivity.
Defined.

Lemma lookup_witness :
  sane seeded_world "42" ∧
  ∃ m v w',
    store_view seeded_world "42" = VDict m ∧
    get_status_name plain_repr "42" (VInt 5) seeded_world = (Ret v, w') ∧
    quiet seeded_world w' ∧
    ((m !! py_str plain_repr (VInt 5) = None ∧
      v = VStr ("Статус " +:+ py_str plain_repr (VInt 5))) ∨
     (∃ d, m !! py_str plain_repr (VInt 5) = Some (VDict d) ∧ d !! "name" = Some v)).
Proof.
  split; [vm_compute; reflexivity|].
  apply (lookup_returns_name_or_fallback plain_repr "42" (VInt 5) seeded_world).
  vm_compute; reflexivity.
Defined.

Lemma status_from_cache_witness :
  lead_with_id_only !! "status_id" = Some (VInt 5) ∧ py_truthy (VInt 5) = true ∧
  lead_with_id_only !! "status_name" = None ∧
  store_view seeded_world "42" = VDict old_store ∧
  old_store !! py_str plain_repr (VInt 5) = Some (VDict old_record) ∧
  old_record !! "name" = Some (VStr "Old") ∧
  ∃ w', format_lead_message plain_repr lead_with_id_only "update" "42" seeded_world =
          (Ret (lead_message_with plain_repr lead_with_id_only "update" (VStr "Old")), w') ∧
        quiet seeded_world w'.
Proof.
  repeat (split; [vm_compute; reflexivity|]).
  apply (lead_status_from_cache plain_repr lead_with_id_only (VInt 5) (VStr "Old")
           "update" "42" seeded_world old_store old_record); vm_compute; reflexivity.
Defined.

Lemma status_fallback_witness :
  lead_with_id_only !! "status_id" = Some (VInt 5) ∧ py_truthy (VInt 5) = true ∧
  lead_with_id_only !! "status_name" = None ∧
  store_view fresh_world "42" = VDict ∅ ∧
  (∅ : gmap string value) !! py_str plain_repr (VInt 5) = None ∧
  ∃ w', format_lead_message plain_repr lead_with_id_only "update" "42" fresh_world =
          (Ret (lead_message_with plain_repr lead_with_id_only "update"
                  (VStr ("Статус " +:+ py_str plain_repr (VInt 5)))), w') ∧
        quiet fresh_world w'.
Proof.
  repeat (split; [vm_compute; reflexivity|]).
  apply (lead_status_fallback_line plain_repr lead_with_id_only (VInt 5)
           "update" "42" fresh_world ∅); vm_compute; reflexivity.
Defined.

Lemma explicit_name_witness :
  sane seeded_world "42" ∧
  lead_with_name !! "status_id" = Some (VInt 5) ∧ py_truthy (VInt 5) = true ∧
  lead_with_name !! "status_name" = Some (VStr "Negotiation") ∧
  py_truthy (VStr "Negotiation") = true ∧
  format_lead_message plain_repr lead_with_name "update" "42" seeded_world =
    (Ret (lead_message_with plain_repr lead_with_name "update" (VStr "Negotiation")),
     (update_lead_status plain_repr "42" (VInt 5) (VStr "Negotiation") seeded_world).2).
Proof.
  repeat (split; [vm_compute; reflexivity|]).
  apply (lead_with_explicit_status_name plain_repr lead_with_name (VInt 5)
           (VStr "Negotiation") "update" "42" seeded_world); vm_compute; reflexivity.
Defined.

Lemma null_name_witness :
  sane seeded_world "42" ∧ next_fate seeded_world = Done ∧
  lead_with_null_name !! "status_id" = Some (VInt 5) ∧ py_truthy (VInt 5) = true ∧
  lead_with_null_name !! "status_name" = Some VNone ∧ py_truthy VNone = false ∧
  (format_lead_message plain_repr lead_with_null_name "update" "42" seeded_world).1 =
    Ret (lead_message_with plain_repr lead_with_null_name "update" VNone) ∧
  resolves plain_repr
    (format_lead_message plain_repr lead_with_null_name "update" "42" seeded_world).2
    "42" (VInt 5) VNone.
Proof.
  repeat (split; [vm_compute; reflexivity|]).
  apply (lead_with_falsy_status_name plain_repr lead_with_null_name (VInt 5) VNone
           "update" "42" seeded_world); vm_compute; reflexivity.
Defined.

Lemma sane_dispatch_witness :
  sane seeded_world "42" ∧ net seeded_world = [] ∧
  sane (process_leads plain_repr [new_deal_lead; zero_status_lead; lead_with_name] "chat"
          "42" seeded_world).2 "42" ∧
  ∃ w' sent,
    process_leads plain_repr [new_deal_lead; zero_status_lead; lead_with_name] "chat" "42"
      seeded_world = (Ret (), w') ∧
    sane w' "42" ∧
    outbox w' = outbox seeded_world ++ ((λ text, ("chat", text)) <$> sent) ∧
    length sent =
      length (filter (λ lead, decided plain_repr lead = true)
                [new_deal_lead; zero_status_lead; lead_with_name]).
Proof.
  split; [vm_compute; reflexivity|]. split; [reflexivity|].
  destruct (process_leads_over_a_sane_store plain_repr
              [new_deal_lead; zero_status_lead; lead_with_name] "chat" "42" seeded_world)
    as [Hkept Hsent]; [vm_compute; reflexivity|].
  split; [exact Hkept | apply Hsent; reflexivity].
Defined.

Lemma dispatch_other_scope_witness :
  "42" ≠ "7" ∧
  let w' := (process_leads plain_repr [lead_with_name] "chat" "42" seeded_world).2 in
  store_view w' "7" = store_view seeded_world "7" ∧
  (load_lead_statuses "7" w').1 = (load_lead_statuses "7" seeded_world).1 ∧
  ∀ j, (get_status_name plain_repr "7" j w').1 =
       (get_status_name plain_repr "7" j seeded_world).1.
Proof.
  split; [discriminate|].
  apply (process_leads_keeps_other_scopes plain_repr [lead_with_name] "chat" "42" "7"
           seeded_world). discriminate.
Defined.

Lemma bad_item_witness :
  (process_leads plain_repr [new_deal_lead] "chat" "42" fresh_world).1 = Ret () ∧
  as_dict (VInt 3) = None ∧
  process_leads_payload plain_repr
    (VList ((VDict <$> [new_deal_lead]) ++ VInt 3 :: [VDict new_deal_lead]))
    "chat" "42" fresh_world =
  (Raise (bad_item_error (VInt 3)),
   (process_leads plain_repr [new_deal_lead] "chat" "42" fresh_world).2).
Proof.
  split; [vm_compute; reflexivity|]. split; [reflexivity|].
  apply (bad_lead_item_aborts plain_repr [new_deal_lead] (VInt 3) [VDict new_deal_lead]
           "chat" "42" fresh_world); [vm_compute; reflexivity | reflexivity].
Defined.

Lemma first_value_witness :
  contact_two_values !! "custom_fields" =
    Some (VList ([] ++ VDict (<["values" := VList (VDict {[ "value" := VStr "111" ]}
                                                     :: [VInt 7])]>
                                 phone_field_two_values) :: [])) ∧
  format_contact_message plain_repr contact_two_values "new" =
  format_contact_message plain_repr
    (<["custom_fields" :=
         VList ([] ++ VDict (<["values" := VList [VDict {[ "value" := VStr "111" ]}]]>
                               phone_field_two_values) :: [])]> contact_two_values)
    "new".
Proof.
  split; [vm_compute; reflexivity|].
  apply (contact_uses_first_value_only plain_repr contact_two_values phone_field_two_values
           "new" [] [] [VInt 7] (VDict {[ "value" := VStr "111" ]})).
  vm_compute; reflexivity.
Defined.

Lemma bad_field_witness :
  contact_bad_field !! "custom_fields" = Some (VList ((VDict <$> []) ++ VStr "PHONE" :: [])) ∧
  forallb field_shaped [] = true ∧ as_dict (VStr "PHONE") = None ∧
  format_contact_message plain_repr contact_bad_field "new" = Raise AttributeError.
Proof.
  split; [vm_compute; reflexivity|]. split; [reflexivity|]. split; [reflexivity|].
  apply (contact_bad_field_raises plain_repr contact_bad_field "new" [] (VStr "PHONE") []);
    [vm_compute; reflexivity | reflexivity | reflexivity].
Defined.

Lemma task_dispatch_witness :
  net fresh_world = [] ∧
  (process_task plain_repr sample_time (VDict completed_task) "chat" fresh_world).1 = Ret () ∧
  outbox (process_task plain_repr sample_time (VDict completed_task) "chat" fresh_world).2 =
    outbox fresh_world ++ [("chat", completed_message)].
Proof.
  split; [reflexivity|].
  apply (proj2 (proj2 (proj2 (task_dispatch_follows_precedence plain_repr sample_time)))
           "chat" fresh_world).
  reflexivity.
Defined.

Lemma deadline_at_the_bound_witness :
  (∀ n, task_at_the_bound !! "complete_till" = Some (VInt n) → (n ≤ 1000000000)%Z) ∧
  ∃ message, ∀ local_time,
    format_task_message plain_repr local_time task_at_the_bound "new" = Ret message.
Proof.
  assert (H : ∀ n, task_at_the_bound !! "complete_till" = Some (VInt n) →
                   (n ≤ 1000000000)%Z).
  { intros n Hn. vm_compute in Hn. injection Hn as <-. lia. }
  split; [exact H|].
  apply (task_without_large_deadline plain_repr task_at_the_bound "new" H).
Defined.

Lemma large_deadline_witness :
  task_next_year !! "complete_till" = Some (VInt 1700000000) ∧
  (1000000000 < 1700000000)%Z ∧
  format_task_message plain_repr no_time task_next_year "new" =
    match no_time 1700000000 with
    | Ret shown =>
        Ret (py_strip (task_head plain_repr task_next_year "new" +:+
                       "Срок: " +:+ shown +:+ nl +:+
                       task_responsible plain_repr task_next_year))
    | Raise e => Raise e
    end.
Proof.
  split; [vm_compute; reflexivity|]. split; [reflexivity|].
  apply (task_with_large_deadline plain_repr no_time task_next_year "new" 1700000000);
    [vm_compute; reflexivity | reflexivity].
Defined.

Lemma last_entry_witness :
  sane seeded_world "42" ∧ plan seeded_world = [] ∧
  valid_status (status_entry 5 "Newer") = true ∧
  Forall (λ later, valid_status later = true →
                   py_str plain_repr (dict_get later "id" VNone) ≠
                   py_str plain_repr (dict_get (status_entry 5 "Newer") "id" VNone))
    [status_entry 6 "Won"] ∧
  ∃ w' m d w'',
    process_lead_statuses plain_repr
      (VList (VDict <$> ([status_entry 5 "New"] ++
                         status_entry 5 "Newer" :: [status_entry 6 "Won"])))
      "42" seeded_world = (Ret (), w') ∧
    (get_status_name plain_repr "42" (dict_get (status_entry 5 "Newer") "id" VNone) w').1
      = Ret (dict_get (status_entry 5 "Newer") "name" VNone) ∧
    get_statuses "42" w' = (Ret ("42", VDict m), w'') ∧
    m !! py_str plain_repr (dict_get (status_entry 5 "Newer") "id" VNone) = Some (VDict d) ∧
    d !! "name" = Some (dict_get (status_entry 5 "Newer") "name" VNone).
Proof.
  assert (H : Forall (λ later, valid_status later = true →
                   py_str plain_repr (dict_get later "id" VNone) ≠
                   py_str plain_repr (dict_get (status_entry 5 "Newer") "id" VNone))
                [status_entry 6 "Won"]).
  { constructor; [|constructor]. intros _. vm_compute. discriminate. }
  split; [vm_compute; reflexivity|]. split; [reflexivity|].
  split; [vm_compute; reflexivity|]. split; [exact H|].
  apply (last_status_entry_wins plain_repr "42" [status_entry 5 "New"]
           [status_entry 6 "Won"] (status_entry 5 "Newer") seeded_world);
    [vm_compute; reflexivity | reflexivity | vm_compute; reflexivity | exact H].
Defined.

Lemma skipped_entries_witness :
  Forall (λ entry, valid_status entry = false)
    [status_entry 0 "Zero"; status_entry 5 ""; ∅] ∧
  process_lead_statuses plain_repr
    (VList (VDict <$> [status_entry 0 "Zero"; status_entry 5 ""; ∅])) "42" fresh_world
    = (Ret (), fresh_world).
Proof.
  assert (H : Forall (λ entry, valid_status entry = false)
                [status_entry 0 "Zero"; status_entry 5 ""; ∅]).
  { repeat constructor; vm_compute; reflexivity. }
  split; [exact H|].
  apply (entries_without_id_or_name_are_skipped plain_repr "42" _ fresh_world H).
Defined.

Lemma flattened_witness :
  forallb pipeline_shaped [sample_pipeline; ∅] = true ∧
  process_pipelines plain_repr (VList (VDict <$> [sample_pipeline; ∅])) "42" fresh_world =
  process_lead_statuses plain_repr
    (VList (concat (pipeline_statuses <$> [sample_pipeline; ∅]))) "42" fresh_world.
Proof.
  split; [vm_compute; reflexivity|].
  apply (pipelines_are_flattened plain_repr "42" [sample_pipeline; ∅] fresh_world).
  vm_compute; reflexivity.
Defined.

Lemma other_section_witness :
  ("account" ∉ recognised_sections) ∧
  (amocrm_webhook plain_repr sample_time "42"
     (Body (VDict (<["account" := VStr "x"]> body_leads_only))) fresh_world).1.1 =
    (amocrm_webhook plain_repr sample_time "42" (Body (VDict body_leads_only))
       fresh_world).1.1 ∧
  (amocrm_webhook plain_repr sample_time "42"
     (Body (VDict (<["account" := VStr "x"]> body_leads_only))) fresh_world).2 =
    (amocrm_webhook plain_repr sample_time "42" (Body (VDict body_leads_only))
       fresh_world).2.
Proof.
  assert (H : "account" ∉ recognised_sections).
  { unfold recognised_sections. rewrite !not_elem_of_cons. repeat split; try discriminate.
    apply not_elem_of_nil. }
  split; [exact H|].
  apply (webhook_ignores_other_sections plain_repr sample_time "42" body_leads_only
           "account" (VStr "x") fresh_world H).
Defined.

Lemma not_rolled_back_witness :
  body_leads_and_bad_tasks !! "leads" = Some (VList (VDict <$> [new_deal_lead])) ∧
  body_leads_and_bad_tasks !! "tasks" = Some VNone ∧
  py_iter VNone = Raise TypeError ∧
  amocrm_webhook plain_repr sample_time "42" (Body (VDict body_leads_and_bad_tasks))
    fresh_world =
    (let failure :=
       match (process_leads plain_repr [new_deal_lead] (chat_of "42") "42" fresh_world).1
       with
       | Ret _ => TypeError
       | Raise earlier => earlier
       end in
     (ServerError failure,
      [HookReceived "42" (VDict body_leads_and_bad_tasks); HookFailed failure],
      (process_leads plain_repr [new_deal_lead] (chat_of "42") "42" fresh_world).2)).
Proof.
  split; [vm_compute; reflexivity|]. split; [vm_compute; reflexivity|].
  split; [reflexivity|].
  apply (webhook_failure_is_not_rolled_back plain_repr sample_time "42"
           body_leads_and_bad_tasks [new_deal_lead] VNone TypeError fresh_world);
    vm_compute; reflexivity.
Defined.

Lemma leads_only_witness :
  body_leads_only !! "leads" = Some (VList (VDict <$> [new_deal_lead])) ∧
  body_leads_only !! "tasks" = None ∧
  body_leads_only !! "contacts" = None ∧
  body_leads_only !! "lead_statuses" = None ∧
  body_leads_only !! "pipelines" = None ∧
  sane fresh_world "42" ∧ net fresh_world = [] ∧
  amocrm_webhook plain_repr sample_time "42" (Body (VDict body_leads_only)) fresh_world =
    (match (process_leads plain_repr [new_deal_lead] (chat_of "42") "42" fresh_world).1
     with
     | Ret _ => (Success, [HookReceived "42" (VDict body_leads_only)])
     | Raise e => (ServerError e, [HookReceived "42" (VDict body_leads_only); HookFailed e])
     end,
     (process_leads plain_repr [new_deal_lead] (chat_of "42") "42" fresh_world).2) ∧
  amocrm_webhook plain_repr sample_time "42" (Body (VDict body_leads_only)) fresh_world =
    (Success, [HookReceived "42" (VDict body_leads_only)],
     (process_leads plain_repr [new_deal_lead] (chat_of "42") "42" fresh_world).2).
Proof.
  do 5 (split; [vm_compute; reflexivity|]).
  split; [vm_compute; reflexivity|]. split; [reflexivity|].
  destruct (webhook_with_leads_only plain_repr sample_time "42" body_leads_only
              [new_deal_lead] fresh_world) as [Hrun Hsuccess];
    [vm_compute; reflexivity .. |].
  split; [exact Hrun | apply Hsuccess; [vm_compute; reflexivity | reflexivity]].
Defined.

Lemma too_late_witness :
  body_lead_and_definition !! "leads" = Some (VList [VDict lead_with_id_only]) ∧
  body_lead_and_definition !! "tasks" = None ∧
  body_lead_and_definition !! "contacts" = None ∧
  body_lead_and_definition !! "lead_statuses" = Some (VList [VDict (status_entry 5 "New")]) ∧
  body_lead_and_definition !! "pipelines" = None ∧
  lead_with_id_only !! "status_id" = Some (VInt 5) ∧
  py_truthy (VInt 5) = true ∧
  lead_with_id_only !! "status_name" = None ∧
  spec_lead_kind plain_repr lead_with_id_only = Some KindUpdate ∧
  valid_status (status_entry 5 "New") = true ∧
  py_str plain_repr (dict_get (status_entry 5 "New") "id" VNone) = py_str plain_repr (VInt 5) ∧
  sane fresh_world "42" ∧
  store_view fresh_world "42" = VDict ∅ ∧
  (∅ : gmap string value) !! py_str plain_repr (VInt 5) = None ∧
  plan fresh_world = [] ∧
  net fresh_world = [] ∧
  ∃ w',
    amocrm_webhook plain_repr sample_time "42" (Body (VDict body_lead_and_definition))
      fresh_world =
      (Success, [HookReceived "42" (VDict body_lead_and_definition)], w') ∧
    outbox w' =
      outbox fresh_world ++
      [(chat_of "42",
        lead_message_with plain_repr lead_with_id_only (kind_name KindUpdate)
          (VStr ("Статус " +:+ py_str plain_repr (VInt 5))))] ∧
    (get_status_name plain_repr "42" (VInt 5) w').1
      = Ret (dict_get (status_entry 5 "New") "name" VNone).
Proof.
  repeat (split; [vm_compute; reflexivity|]).
  apply (status_definition_comes_too_late plain_repr sample_time "42"
           body_lead_and_definition lead_with_id_only (status_entry 5 "New") (VInt 5)
           KindUpdate ∅ fresh_world); vm_compute; reflexivity.
Defined.
